(** * Diagnostic spreadsheet pipeline ([api/index.py])

    A shallow embedding of the scoring and aggregation code of the
    Flask service: the per-row scoring functions ([calc_lab],
    [attention_index], [categorize]), the helpers of the town table
    ([extract_town], [sort_key_town]), and the parts of [process_excel]
    that validate the file name, derive the per-child columns and build
    the summary tables.

    Python values are modelled as they reach the code: strings are
    sequences of Unicode code points, [float] is IEEE binary64 (Rocq's
    primitive floats), [int] is [Z], and an exception is an explicit
    [Raise] in a small error monad.

    The string literals of the source file are not Cyrillic text: the
    file stores each of them as the UTF-8 bytes of the Cyrillic text
    read as Mac OS Roman (the Russian word for "no", three letters, is
    stored as six code points, 8211 249 8211 181 8212 199).  The
    literals below are copied from the file as they are stored, since
    these are the strings the interpreter compares with. *)

From Stdlib Require Import ZArith NArith QArith Floats Lia.
From stdpp Require Import base option list strings gmap sorting.

Set Warnings "-inexact-float".
Local Open Scope Z_scope.

(** ** Python strings *)

(** A [str] is a list of code points.  Literals of the source are
    copied as UTF-8 text and decoded once. *)
Abbreviation pystr := (list N).

Fixpoint utf8_decode (bs : list N) : pystr :=
  match bs with
  | [] => []
  | b0 :: r0 =>
    if (b0 <? 128)%N then b0 :: utf8_decode r0
    else match r0 with
      | [] => []
      | b1 :: r1 =>
        if (b0 <? 224)%N
        then ((b0 mod 32) * 64 + b1 mod 64)%N :: utf8_decode r1
        else match r1 with
          | [] => []
          | b2 :: r2 =>
            if (b0 <? 240)%N
            then ((b0 mod 16) * 4096 + (b1 mod 64) * 64 + b2 mod 64)%N
                   :: utf8_decode r2
            else match r2 with
              | [] => []
              | b3 :: r3 =>
                ((b0 mod 8) * 262144 + (b1 mod 64) * 4096
                 + (b2 mod 64) * 64 + b3 mod 64)%N :: utf8_decode r3
              end
          end
      end
  end.

Definition py (s : string) : pystr :=
  utf8_decode (map Ascii.N_of_ascii (String.list_ascii_of_string s)).

(** [str.isspace] of one character: the code points CPython treats as
    whitespace in [str.strip()] and [str.split()]. *)
Definition isspace (c : N) : bool :=
  ((9 <=? c) && (c <=? 13) || (28 <=? c) && (c <=? 32)
   || (c =? 133) || (c =? 160) || (c =? 5760)
   || (8192 <=? c) && (c <=? 8202)
   || (c =? 8232) || (c =? 8233) || (c =? 8239) || (c =? 8287)
   || (c =? 12288))%N.

Fixpoint lstrip (s : pystr) : pystr :=
  match s with
  | [] => []
  | c :: r => if isspace c then lstrip r else s
  end.

Definition rstrip (s : pystr) : pystr := rev (lstrip (rev s)).

(** [s.strip()] *)
Definition strip (s : pystr) : pystr := rstrip (lstrip s).

(** [s.startswith(p)] *)
Fixpoint startswith (s p : pystr) : bool :=
  match p, s with
  | [], _ => true
  | _ :: _, [] => false
  | a :: p', b :: s' => (a =? b)%N && startswith s' p'
  end.

(** [s == t] on strings *)
Definition str_eqb (s t : pystr) : bool := bool_decide (s = t).

(** [s < t]: Python compares strings code point by code point. *)
Fixpoint str_ltb (s t : pystr) : bool :=
  match s, t with
  | _, [] => false
  | [], _ :: _ => true
  | a :: s', b :: t' => (a <? b)%N || (a =? b)%N && str_ltb s' t'
  end.

(** [s.split(sep)] for a one-character separator: never empty. *)
Fixpoint split_sep (sep : N) (s : pystr) : list pystr :=
  match s with
  | [] => [[]]
  | c :: r =>
    if (c =? sep)%N then [] :: split_sep sep r
    else match split_sep sep r with
         | [] => [[c]]
         | w :: ws => (c :: w) :: ws
         end
  end.

(** [s.split()]: the maximal runs of non-whitespace characters. *)
Fixpoint split_ws_go (acc s : pystr) : list pystr :=
  match s with
  | [] => match acc with [] => [] | _ => [rev acc] end
  | c :: r =>
    if isspace c
    then match acc with
         | [] => split_ws_go [] r
         | _ => rev acc :: split_ws_go [] r
         end
    else split_ws_go (c :: acc) r
  end.

Definition split_ws (s : pystr) : list pystr := split_ws_go [] s.

(** ** Exceptions *)

Inductive exn : Type :=
  | TypeError
  | ValueError
  | OverflowError
  | IndexError
  | KeyError (k : string)
  | FilenameFormatError.  (* the [ValueError] raised by line 188 *)

Inductive result (A : Type) : Type :=
  | Return (a : A)
  | Raise (e : exn).
Arguments Return {A} a.
Arguments Raise {A} e.

#[global] Instance result_ret : MRet result := @Return.
#[global] Instance result_bind : MBind result := λ A B f m,
  match m with
  | Return a => f a
  | Raise e => Raise e
  end.
#[global] Instance result_fmap : FMap result := λ A B f m,
  match m with
  | Return a => Return (f a)
  | Raise e => Raise e
  end.

(** [try: body except Exception: handler] *)
Definition try_except {A} (body : result A) (handler : exn → result A)
  : result A :=
  match body with
  | Return a => Return a
  | Raise e => handler e
  end.

(** Running a list of computations in order (a column built row by row). *)
Fixpoint sequence {A} (ms : list (result A)) : result (list A) :=
  match ms with
  | [] => Return []
  | m :: ms' => a ← m; as' ← sequence ms'; Return (a :: as')
  end.

(** ** Floats and integers *)

Definition is_nan (f : float) : bool := PrimFloat.is_nan f.

(** [float(z)] of an [int]: the nearest binary64 value, ties to even;
    [None] stands for [OverflowError]. *)
Definition Z_to_float (z : Z) : option float :=
  match binary_normalize 53 1024 z 0 false with
  | S754_infinity _ => None
  | sf => Some (SF2Prim sf)
  end.

(** Conversion of an integer known to be small (counts, scores). *)
Definition float_of_Z (z : Z) : float :=
  SF2Prim (binary_normalize 53 1024 z 0 false).

(** [int(f)] of a float: truncation toward zero. *)
Definition float_trunc (f : float) : result Z :=
  match Prim2SF f with
  | S754_zero _ => Return 0
  | S754_infinity _ => Raise OverflowError
  | S754_nan => Raise ValueError
  | S754_finite s m e =>
    let a := if 0 <=? e then Z.pos m * 2 ^ e else Z.pos m / 2 ^ (- e) in
    Return (if s then - a else a)
  end.

(** Python compares a float with an int exactly (no rounding of the
    int); [None] when the float is NaN. *)
Definition float_cmp_Z (f : float) (z : Z) : option comparison :=
  match Prim2SF f with
  | S754_nan => None
  | S754_infinity s => Some (if s then Lt else Gt)
  | S754_zero _ => Some (0 ?= z)
  | S754_finite s m e =>
    let v := if s then Z.neg m else Z.pos m in
    if 0 <=? e then Some (v * 2 ^ e ?= z) else Some (v ?= z * 2 ^ (- e))
  end.

(** [f > z] and [f >= z] for a float [f] and an int [z] *)
Definition float_gt_Z (f : float) (z : Z) : bool :=
  match float_cmp_Z f z with Some Gt => true | _ => false end.
Definition float_ge_Z (f : float) (z : Z) : bool :=
  match float_cmp_Z f z with Some Gt | Some Eq => true | _ => false end.

(** ** Python values *)

(** The values a cell of the spreadsheet can hold once pandas has read
    it, plus [None] (the result of [x.get(key)] for an absent column). *)
Inductive pyval : Type :=
  | PyNone
  | PyBool (b : bool)
  | PyInt (z : Z)
  | PyFloat (f : float)
  | PyStr (s : pystr)
  | PyDatetime (t : Z).

(** The parts of the Python runtime the code calls and this development
    does not spell out: parsing a numeral from a string ([float(s)],
    [int(s)], [None] for [ValueError]) and the two-decimal [round]. *)
Class PyRuntime : Type := {
  str_to_float : pystr → option float;
  str_to_int : pystr → option Z;
  round2 : float → float
}.

Section Builtins.
Context `{PyRuntime}.

(** [float(v)] *)
Definition py_float (v : pyval) : result float :=
  match v with
  | PyNone => Raise TypeError
  | PyBool b => Return (if b then 1%float else 0%float)
  | PyInt z =>
    match Z_to_float z with
    | Some f => Return f
    | None => Raise OverflowError
    end
  | PyFloat f => Return f
  | PyStr s =>
    match str_to_float s with
    | Some f => Return f
    | None => Raise ValueError
    end
  | PyDatetime _ => Raise TypeError
  end.

(** [int(v)] *)
Definition py_int (v : pyval) : result Z :=
  match v with
  | PyNone => Raise TypeError
  | PyBool b => Return (if b then 1 else 0)
  | PyInt z => Return z
  | PyFloat f => float_trunc f
  | PyStr s =>
    match str_to_int s with
    | Some z => Return z
    | None => Raise ValueError
    end
  | PyDatetime _ => Raise TypeError
  end.
End Builtins.

(** ** Row scoring: [calc_lab] (lines 92-113) *)

(** The literal of line 103, which the goal flag is compared with. *)
Definition NET : pystr := Eval vm_compute in py "–ù–µ—Ç".

(** The negative answer of the "goal reached" question as a sheet
    holds it and as the specification names it: the Russian word for
    "no". *)
Definition NET_RU : pystr := Eval vm_compute in py "Нет".

(** [isinstance(reached, str) and reached.strip() == "–ù–µ—Ç"] *)
Definition reached_is_no (reached : pyval) : bool :=
  match reached with
  | PyStr s => str_eqb (strip s) NET
  | _ => false
  end.

(** The last four statements of [calc_lab]: the score of an error count. *)
Definition errors_score (errors : Z) : Z :=
  if errors =? 0 then 3
  else if errors =? 1 then 2
  else if (2 <=? errors) && (errors <=? 5) then 1
  else 0.

Section CalcLab.
Context `{PyRuntime}.

(** The value of [errors] after lines 98-101: [int(errors)], or 0 when
    the conversion raises. *)
Definition coerced_errors (errors : pyval) : Z :=
  match py_int errors with
  | Return n => n
  | Raise _ => 0
  end.

Definition calc_lab (time errors reached : pyval) (limit : Z) : result Z :=
  match py_float time with
  | Raise _ => Return 0
  | Return time =>
    errors ← try_except (py_int errors) (λ _, Return 0);
    if reached_is_no reached then Return 0
    else if float_gt_Z time limit then Return 0
    else Return (errors_score errors)
  end.

(** The score as the specification words it: the goal flag is
    compared, as it is, with the Russian word for "no"; it is compared
    with [calc_lab] below. *)
Definition calc_lab_as_specified (time errors reached : pyval) (limit : Z)
  : Z :=
  match py_float time with
  | Raise _ => 0
  | Return t =>
    if match reached with PyStr s => str_eqb s NET_RU | _ => false end then 0
    else if float_gt_Z t limit then 0
    else errors_score (coerced_errors errors)
  end.
End CalcLab.

(** ** Row scoring: [attention_index] (lines 116-127) *)

Section AttentionIndex.
Context `{PyRuntime}.

(** A failed conversion leaves the int [0] in the variable; in the
    float arithmetic of the last line it acts as [0.0]. *)
Definition attention_index (rings errors : pyval) : result float :=
  rings ← try_except (py_float rings) (λ _, Return 0%float);
  errors ← try_except (py_float errors) (λ _, Return 0%float);
  Return (0.5 * rings - (2.8 * errors) / 60)%float.

(** The value of an argument after its [try] block: [float(v)], or 0
    when the conversion raises. *)
Definition coerced_float (v : pyval) : float :=
  match py_float v with
  | Return x => x
  | Raise _ => 0%float
  end.
End AttentionIndex.

(** ** NumPy and pandas arithmetic on float64 *)

(** [numpy.rint]: the nearest integer, ties to even, as a float. *)
Definition rint (f : float) : float :=
  match Prim2SF f with
  | S754_finite s m e =>
    if 0 <=? e then f
    else
      let d := 2 ^ (- e) in
      let q := Z.pos m / d in
      let r := Z.pos m mod d in
      let n := if 2 * r <? d then q
               else if d <? 2 * r then q + 1
               else if Z.even q then q else q + 1 in
      let a := float_of_Z n in
      if s then (- a)%float else a
  | _ => f
  end.

(** [Series.round(2)] on float64: NumPy multiplies by 100, rounds to an
    integer and divides by 100. *)
Definition np_round2 (f : float) : float := (rint (f * 100) / 100)%float.

(** [0 <= x <= 1] on floats. *)
Definition in_unit_interval (x : float) : bool :=
  ((0 <=? x) && (x <=? 1))%float.

(** Left-to-right float sum of a row. *)
Definition fsum (xs : list float) : float :=
  match xs with
  | [] => 0%float
  | x :: r => fold_left PrimFloat.add r x
  end.

(** [DataFrame.mean(axis=1)] on one row: pandas skips NaN cells
    ([skipna=True]): they are replaced by 0 in the sum and left out of
    the count; a row with no value gives NaN. *)
Definition mean_axis1 (xs : list float) : float :=
  let count := length (filter (λ x, is_nan x = false) xs) in
  if decide (count = 0%nat) then nan
  else (fsum (map (λ x, if is_nan x then 0%float else x) xs)
        / float_of_Z (Z.of_nat count))%float.

(** The mean of a row as the specification words it: the sum of all
    its cells over their number; it is compared with [mean_axis1]
    below. *)
Definition mean_as_specified (xs : list float) : float :=
  (fsum xs / float_of_Z (Z.of_nat (length xs)))%float.

(** Two floats that are the same number: equal, or both a zero (of
    either sign). *)
Definition is_zero (f : float) : bool :=
  match Prim2SF f with
  | S754_zero _ => true
  | _ => false
  end.

Definition same_number (a b : float) : Prop :=
  a = b ∨ (is_zero a = true ∧ is_zero b = true).

(** ** Categorizer: [categorize] (lines 130-139) *)

Inductive level : Type := Below | Normative | Above.

#[global] Instance level_eq_dec : EqDecision level.
Proof. solve_decision. Defined.

(** The three labels of the source (lines 135, 137 and 139), as
    stored. *)
Definition BELOW : pystr := Eval vm_compute in py "–Ω–∏–∂–µ –Ω–æ—Ä–º–∞—Ç–∏–≤–Ω–æ–≥–æ".
Definition NORMATIVE : pystr := Eval vm_compute in py "–Ω–æ—Ä–º–∞—Ç–∏–≤–Ω—ã–π".
Definition ABOVE : pystr := Eval vm_compute in py "–≤—ã—à–µ –Ω–æ—Ä–º–∞—Ç–∏–≤–Ω–æ–≥–æ".

Definition level_label (l : level) : pystr :=
  match l with
  | Below => BELOW
  | Normative => NORMATIVE
  | Above => ABOVE
  end.

(** [pd.isna(v)] on a scalar *)
Definition pd_isna (v : pyval) : bool :=
  match v with
  | PyNone => true
  | PyFloat f => is_nan f
  | _ => false
  end.

(** [v < c] and [v <= c] for a float constant [c]: a float compares by
    IEEE order, an int (or bool) exactly, anything else is a
    [TypeError]. *)
Definition py_lt_float (v : pyval) (c : float) : result bool :=
  match v with
  | PyFloat f => Return (f <? c)%float
  | PyInt z => Return (float_gt_Z c z)
  | PyBool b => Return (float_gt_Z c (if b then 1 else 0))
  | _ => Raise TypeError
  end.

Definition py_le_float (v : pyval) (c : float) : result bool :=
  match v with
  | PyFloat f => Return (f <=? c)%float
  | PyInt z => Return (float_ge_Z c z)
  | PyBool b => Return (float_ge_Z c (if b then 1 else 0))
  | _ => Raise TypeError
  end.

Definition categorize (value : pyval) : result (option level) :=
  if pd_isna value then Return None
  else
    py_lt_float value 0.33 ≫= λ below : bool,
    if below then Return (Some Below)
    else
      py_le_float value 0.66 ≫= λ within : bool,
      if within then Return (Some Normative)
      else Return (Some Above).

(** ** The table: a pandas [DataFrame] *)

(** Columns by name, each a list of cells; [nrows] is [len(df)]. *)
Record frame : Type := {
  nrows : nat;
  columns : gmap string (list pyval)
}.

(** [x.get(key)] on row [i] (a row of [df.apply(..., axis=1)]): [None]
    when the frame has no such column. *)
Definition row_get (df : frame) (i : nat) (key : string) : pyval :=
  match columns df !! key with
  | Some col => default PyNone (col !! i)
  | None => PyNone
  end.

(** [df[key]]: a [KeyError] when the frame has no such column. *)
Definition getitem (df : frame) (key : string) : result (list pyval) :=
  match columns df !! key with
  | Some col => Return col
  | None => Raise (KeyError key)
  end.

(** ** Column names (lines 41-89, 195) *)

(** The double quote and the line feed that occur in the raw headers. *)
Definition QUOTE : string := String (Ascii.ascii_of_nat 34) EmptyString.
Definition LF : string := String (Ascii.ascii_of_nat 10) EmptyString.

Definition COLUMN_MAPPING : list (string * string) :=
  [
   ("ID",
    "ID");
   ("–í—Ä–µ–º—è —Å–æ–∑–¥–∞–Ω–∏—è",
    "–í—Ä–µ–º—è");
   ("–ù–∞–∏–º–µ–Ω–æ–≤–∞–Ω–∏–µ –≤–∞—à–µ–π –æ–±—Ä–∞–∑–æ–≤–∞—Ç–µ–ª—å–Ω–æ–π –æ—Ä–≥–∞–Ω–∏–∑–∞—Ü–∏–∏",
    "–û—Ä–≥–∞–Ω–∏–∑–∞—Ü–∏—è");
   ("–ö–æ–¥ —Ä–µ–±—ë–Ω–∫–∞",
    "–ö–æ–¥");
   ("–°–æ–≥–ª–∞—Å–∏–µ —Ä–æ–¥–∏—Ç–µ–ª—è (–∑–∞–∫–æ–Ω–Ω–æ–≥–æ –ø—Ä–µ–¥—Å—Ç–∞–≤–∏—Ç–µ–ª—è) –Ω–∞ –ø—Ä–æ–≤–µ–¥–µ–Ω–∏–µ –ø—Å–∏—Ö–æ–ª–æ–≥–æ-–ø–µ–¥–∞–≥–æ–≥–∏—á–µ—Å–∫–æ–≥–æ –æ–±—Å–ª–µ–¥–æ–≤–∞–Ω–∏—è –∏ —Å–æ–ø—Ä–æ–≤–æ–∂–¥–µ–Ω–∏–µ —Ä–µ–±—ë–Ω–∫–∞ –ø–æ–ª—É—á–µ–Ω–æ",
    "–°–æ–≥–ª–∞—Å–∏–µ_–æ–±—Å–ª–µ–¥");
   ("–°–æ–≥–ª–∞—Å–∏–µ —Ä–æ–¥–∏—Ç–µ–ª—è (–∑–∞–∫–æ–Ω–Ω–æ–≥–æ –ø—Ä–µ–¥—Å—Ç–∞–≤–∏—Ç–µ–ª—è) –Ω–∞ –æ–±—Ä–∞–±–æ—Ç–∫—É –ø–µ—Ä—Å–æ–Ω–∞–ª—å–Ω—ã—Ö –¥–∞–Ω–Ω—ã—Ö —Ä–µ–±—ë–Ω–∫–∞ –ø–æ–ª—É—á–µ–Ω–æ",
    "–°–æ–≥–ª–∞—Å–∏–µ_–ü–î");
   ("–í–æ–∑—Ä–∞—Å—Ç–Ω–∞—è –≥—Ä—É–ø–ø–∞, –∫ –∫–æ—Ç–æ—Ä–æ–π –æ—Ç–Ω–æ—Å–∏—Ç—Å—è —Ä–µ–±–µ–Ω–æ–∫ –≤ —Ç–µ–∫—É—â–µ–º —É—á–µ–±–Ω–æ–º –≥–æ–¥—É",
    "–í–æ–∑—Ä–∞—Å—Ç");
   ("–í–≤–µ—Å—Ç–∏ –≤–æ–∑—Ä–∞—Å—Ç–Ω—É—é –≥—Ä—É–ø–ø—É",
    "–í–æ–∑—Ä–∞—Å—Ç_–≤–≤–æ–¥");
   (("–°—É–±—Ç–µ—Å—Ç –ò1-1 " +:+
      QUOTE +:+
      "–†–∞—Å—Å—É–∂–¥–µ–Ω–∏—è" +:+
      QUOTE +:+
      ". –£–∫–∞–∂–∏—Ç–µ —Å—É–º–º–∞—Ä–Ω—É—é –æ—Ü–µ–Ω–∫—É"),
    "–ò1-1–°—É–º");
   (("–°—É–±—Ç–µ—Å—Ç –ò1-2 " +:+
      QUOTE +:+
      "–†–∞—Å—Å—É–∂–¥–µ–Ω–∏—è" +:+
      QUOTE +:+
      ". –£–∫–∞–∂–∏—Ç–µ –∑–Ω–∞—á–µ–Ω–∏–µ –ø–æ –∫–∞–∂–¥–æ–º—É –∫—Ä–∏—Ç–µ—Ä–∏—é / –°–≤—è–∑–Ω–æ—Å—Ç—å"),
    "–ò1-2–°–≤—è–∑–Ω");
   (("–°—É–±—Ç–µ—Å—Ç –ò1-2 " +:+
      QUOTE +:+
      "–†–∞—Å—Å—É–∂–¥–µ–Ω–∏—è" +:+
      QUOTE +:+
      ". –£–∫–∞–∂–∏—Ç–µ –∑–Ω–∞—á–µ–Ω–∏–µ –ø–æ –∫–∞–∂–¥–æ–º—É –∫—Ä–∏—Ç–µ—Ä–∏—é / –†–µ—á–µ–≤–æ–µ –æ—Ñ–æ—Ä–º–ª–µ–Ω–∏–µ –≤—ã—Å–∫–∞–∑—ã–≤–∞–Ω–∏–π"),
    "–ò1-2–†–µ—á–û—Ñ–æ—Ä–º");
   (("–°—É–±—Ç–µ—Å—Ç –ò1-2 " +:+
      QUOTE +:+
      "–†–∞—Å—Å—É–∂–¥–µ–Ω–∏—è" +:+
      QUOTE +:+
      ". –£–∫–∞–∂–∏—Ç–µ –∑–Ω–∞—á–µ–Ω–∏–µ –ø–æ –∫–∞–∂–¥–æ–º—É –∫—Ä–∏—Ç–µ—Ä–∏—é / –°–∞–º–æ—Å—Ç–æ—è—Ç–µ–ª—å–Ω–æ—Å—Ç—å —Ä–∞—Å—Å—É–∂–¥–µ–Ω–∏—è"),
    "–ò1-2–°–∞–º–†–∞—Å—Å");
   (("–°—É–±—Ç–µ—Å—Ç –ò2 " +:+
      QUOTE +:+
      "–°—Ö–æ–¥—Å—Ç–≤–æ" +:+
      QUOTE +:+
      ". –£–∫–∞–∂–∏—Ç–µ —Å—É–º–º–∞—Ä–Ω—É—é –æ—Ü–µ–Ω–∫—É."),
    "–ò2–°—É–º");
   (("–°—É–±—Ç–µ—Å—Ç –ò3-1-1 " +:+
      QUOTE +:+
      "–ë—É–¥—å –≤–Ω–∏–º–∞—Ç–µ–ª–µ–Ω" +:+
      QUOTE +:+
      ". –í–≤–µ–¥–∏—Ç–µ –∫–æ–ª–∏—á–µ—Å—Ç–≤–æ –∫–æ–ª–µ—Ü, –ø—Ä–æ—Å–º–æ—Ç—Ä–µ–Ω–Ω—ã—Ö –∑–∞ 1-—é –º–∏–Ω—É—Ç—É (—Ü–µ–ª–æ–µ —á–∏—Å–ª–æ)"),
    "–ò3-1–ö–æ–ª—å—Ü–∞");
   (("–°—É–±—Ç–µ—Å—Ç –ò3-1-2 " +:+
      QUOTE +:+
      "–ë—É–¥—å –≤–Ω–∏–º–∞—Ç–µ–ª–µ–Ω" +:+
      QUOTE +:+
      ". –í–≤–µ–¥–∏—Ç–µ –∫–æ–ª–∏—á–µ—Å—Ç–≤–æ –æ—à–∏–±–æ–∫, –¥–æ–ø—É—â–µ–Ω–Ω—ã—Ö –∑–∞ 1-—é –º–∏–Ω—É—Ç—É (—Ü–µ–ª–æ–µ —á–∏—Å–ª–æ)"),
    "–ò3-1–û—à–∏–±");
   (("–°—É–±—Ç–µ—Å—Ç –ò3-2-1 " +:+
      QUOTE +:+
      "–ë—É–¥—å –≤–Ω–∏–º–∞—Ç–µ–ª–µ–Ω" +:+
      QUOTE +:+
      ". –í–≤–µ–¥–∏—Ç–µ –∫–æ–ª–∏—á–µ—Å—Ç–≤–æ –∫–æ–ª–µ—Ü, –ø—Ä–æ—Å–º–æ—Ç—Ä–µ–Ω–Ω—ã—Ö –∑–∞ 2-—é –º–∏–Ω—É—Ç—É (—Ü–µ–ª–æ–µ —á–∏—Å–ª–æ)"),
    "–ò3-2–ö–æ–ª—å—Ü–∞");
   (("–°—É–±—Ç–µ—Å—Ç –ò3-2-2 " +:+
      QUOTE +:+
      "–ë—É–¥—å –≤–Ω–∏–º–∞—Ç–µ–ª–µ–Ω" +:+
      QUOTE +:+
      ". –í–≤–µ–¥–∏—Ç–µ –∫–æ–ª–∏—á–µ—Å—Ç–≤–æ –æ—à–∏–±–æ–∫, –¥–æ–ø—É—â–µ–Ω–Ω—ã—Ö –∑–∞ 2-—é –º–∏–Ω—É—Ç—É (—Ü–µ–ª–æ–µ —á–∏—Å–ª–æ)"),
    "–ò3-2–û—à–∏–±");
   (("–°—É–±—Ç–µ—Å—Ç –ò3-3-1 " +:+
      QUOTE +:+
      "–ë—É–¥—å –≤–Ω–∏–º–∞—Ç–µ–ª–µ–Ω" +:+
      QUOTE +:+
      ". –í–≤–µ–¥–∏—Ç–µ –∫–æ–ª–∏—á–µ—Å—Ç–≤–æ –∫–æ–ª–µ—Ü, –ø—Ä–æ—Å–º–æ—Ç—Ä–µ–Ω–Ω—ã—Ö –∑–∞ 3-—é –º–∏–Ω—É—Ç—É (—Ü–µ–ª–æ–µ —á–∏—Å–ª–æ)"),
    "–ò3-3–ö–æ–ª—å—Ü–∞");
   (("–°—É–±—Ç–µ—Å—Ç –ò3-3-2 " +:+
      QUOTE +:+
      "–ë—É–¥—å –≤–Ω–∏–º–∞—Ç–µ–ª–µ–Ω" +:+
      QUOTE +:+
      ". –í–≤–µ–¥–∏—Ç–µ –∫–æ–ª–∏—á–µ—Å—Ç–≤–æ –æ—à–∏–±–æ–∫, –¥–æ–ø—É—â–µ–Ω–Ω—ã—Ö –∑–∞ 3-—é –º–∏–Ω—É—Ç—É (—Ü–µ–ª–æ–µ —á–∏—Å–ª–æ)"),
    "–ò3-3–û—à–∏–±");
   (("–°—É–±—Ç–µ—Å—Ç –ò3-4-1 " +:+
      QUOTE +:+
      "–ë—É–¥—å –≤–Ω–∏–º–∞—Ç–µ–ª–µ–Ω" +:+
      QUOTE +:+
      ". –í–≤–µ–¥–∏—Ç–µ –∫–æ–ª–∏—á–µ—Å—Ç–≤–æ –∫–æ–ª–µ—Ü, –ø—Ä–æ—Å–º–æ—Ç—Ä–µ–Ω–Ω—ã—Ö –∑–∞ 4-—é –º–∏–Ω—É—Ç—É (—Ü–µ–ª–æ–µ —á–∏—Å–ª–æ)"),
    "–ò3-4–ö–æ–ª—å—Ü–∞");
   (("–°—É–±—Ç–µ—Å—Ç –ò3-4-2 " +:+
      QUOTE +:+
      "–ë—É–¥—å –≤–Ω–∏–º–∞—Ç–µ–ª–µ–Ω" +:+
      QUOTE +:+
      ". –í–≤–µ–¥–∏—Ç–µ –∫–æ–ª–∏—á–µ—Å—Ç–≤–æ –æ—à–∏–±–æ–∫, –¥–æ–ø—É—â–µ–Ω–Ω—ã—Ö –∑–∞ 4-—é –º–∏–Ω—É—Ç—É (—Ü–µ–ª–æ–µ —á–∏—Å–ª–æ)"),
    "–ò3-4–û—à–∏–±");
   (("–°—É–±—Ç–µ—Å—Ç –ò3-5-1 " +:+
      QUOTE +:+
      "–ë—É–¥—å –≤–Ω–∏–º–∞—Ç–µ–ª–µ–Ω" +:+
      QUOTE +:+
      ". –í–≤–µ–¥–∏—Ç–µ –∫–æ–ª–∏—á–µ—Å—Ç–≤–æ –∫–æ–ª–µ—Ü, –ø—Ä–æ—Å–º–æ—Ç—Ä–µ–Ω–Ω—ã—Ö –∑–∞ 5-—é –º–∏–Ω—É—Ç—É (—Ü–µ–ª–æ–µ —á–∏—Å–ª–æ)"),
    "–ò3-5–ö–æ–ª—å—Ü–∞");
   (("–°—É–±—Ç–µ—Å—Ç –ò3-5-2 " +:+
      QUOTE +:+
      "–ë—É–¥—å –≤–Ω–∏–º–∞—Ç–µ–ª–µ–Ω" +:+
      QUOTE +:+
      ". –í–≤–µ–¥–∏—Ç–µ –∫–æ–ª–∏—á–µ—Å—Ç–≤–æ –æ—à–∏–±–æ–∫, –¥–æ–ø—É—â–µ–Ω–Ω—ã—Ö –∑–∞ 5-—é –º–∏–Ω—É—Ç—É (—Ü–µ–ª–æ–µ —á–∏—Å–ª–æ)"),
    "–ò3-5–û—à–∏–±");
   (("–°—É–±—Ç–µ—Å—Ç –ò4 " +:+
      QUOTE +:+
      "–ù–µ–¥–æ—Å—Ç–∞—é—â–∏–µ –¥–µ—Ç–∞–ª–∏" +:+
      QUOTE +:+
      ". –í–≤–µ–¥–∏—Ç–µ —á–∏—Å–ª–æ –≤–µ—Ä–Ω—ã—Ö –æ—Ç–≤–µ—Ç–æ–≤"),
    "–ò4–°—É–º");
   (("–°—É–±—Ç–µ—Å—Ç –ò5-1-1 " +:+
      QUOTE +:+
      "–õ–∞–±–∏—Ä–∏–Ω—Ç—ã" +:+
      QUOTE +:+
      ": —É–∫–∞–∂–∏—Ç–µ –≤—Ä–µ–º—è –ø—Ä–æ—Ö–æ–∂–¥–µ–Ω–∏—è –ª–∞–±–∏—Ä–∏–Ω—Ç–∞ 1 (–≤ —Å–µ–∫—É–Ω–¥–∞—Ö)"),
    "–ò5-1–í—Ä–µ–º—è");
   (("–°—É–±—Ç–µ—Å—Ç –ò5-1-2 " +:+
      QUOTE +:+
      "–õ–∞–±–∏—Ä–∏–Ω—Ç—ã" +:+
      QUOTE +:+
      ": —É–∫–∞–∂–∏—Ç–µ –∫–æ–ª–∏—á–µ—Å—Ç–≤–æ –æ—à–∏–±–æ–∫ –ø—Ä–∏ –ø—Ä–æ—Ö–æ–∂–¥–µ–Ω–∏–∏ –ª–∞–±–∏—Ä–∏–Ω—Ç–∞ 1 (—Ü–µ–ª–æ–µ —á–∏—Å–ª–æ)"),
    "–ò5-1–û—à–∏–±");
   (("–°—É–±—Ç–µ—Å—Ç –ò5-1-3 " +:+
      QUOTE +:+
      "–õ–∞–±–∏—Ä–∏–Ω—Ç—ã" +:+
      QUOTE +:+
      ". –û—Ç–º–µ—Ç—å—Ç–µ, –¥–æ—à–µ–ª –ª–∏ —Ä–µ–±–µ–Ω–æ–∫ –¥–æ —Ü–µ–ª–∏ –≤ —É–∫–∞–∑–∞–Ω–Ω–æ–µ –í–∞–º–∏ –≤—Ä–µ–º—è –≤ –ª–∞–±–∏—Ä–∏–Ω—Ç–µ 1"),
    "–ò5-1–î–æ—à–µ–ª");
   (("–°—É–±—Ç–µ—Å—Ç –ò5-2-1 " +:+
      QUOTE +:+
      "–õ–∞–±–∏—Ä–∏–Ω—Ç—ã" +:+
      QUOTE +:+
      ": —É–∫–∞–∂–∏—Ç–µ –≤—Ä–µ–º—è –ø—Ä–æ—Ö–æ–∂–¥–µ–Ω–∏—è –ª–∞–±–∏—Ä–∏–Ω—Ç–∞ 2 (–≤ —Å–µ–∫—É–Ω–¥–∞—Ö)"),
    "–ò5-2–í—Ä–µ–º—è");
   (("–°—É–±—Ç–µ—Å—Ç –ò5-2-2 " +:+
      QUOTE +:+
      "–õ–∞–±–∏—Ä–∏–Ω—Ç—ã" +:+
      QUOTE +:+
      ": —É–∫–∞–∂–∏—Ç–µ –∫–æ–ª–∏—á–µ—Å—Ç–≤–æ –æ—à–∏–±–æ–∫ –ø—Ä–∏ –ø—Ä–æ—Ö–æ–∂–¥–µ–Ω–∏–∏ –ª–∞–±–∏—Ä–∏–Ω—Ç–∞ 2 (—Ü–µ–ª–æ–µ —á–∏—Å–ª–æ)"),
    "–ò5-2–û—à–∏–±");
   (("–°—É–±—Ç–µ—Å—Ç –ò5-2-3 " +:+
      QUOTE +:+
      "–õ–∞–±–∏—Ä–∏–Ω—Ç—ã" +:+
      QUOTE +:+
      ". –û—Ç–º–µ—Ç—å—Ç–µ, –¥–æ—à–µ–ª –ª–∏ —Ä–µ–±–µ–Ω–æ–∫ –¥–æ —Ü–µ–ª–∏ –≤ —É–∫–∞–∑–∞–Ω–Ω–æ–µ –í–∞–º–∏ –≤—Ä–µ–º—è –≤ –ª–∞–±–∏—Ä–∏–Ω—Ç–µ 2"),
    "–ò5-2–î–æ—à–µ–ª");
   (("–°—É–±—Ç–µ—Å—Ç –ò5-3-1 " +:+
      QUOTE +:+
      "–õ–∞–±–∏—Ä–∏–Ω—Ç—ã" +:+
      QUOTE +:+
      ": —É–∫–∞–∂–∏—Ç–µ –≤—Ä–µ–º—è –ø—Ä–æ—Ö–æ–∂–¥–µ–Ω–∏—è –ª–∞–±–∏—Ä–∏–Ω—Ç–∞ 3 (–≤ —Å–µ–∫—É–Ω–¥–∞—Ö)"),
    "–ò5-3–í—Ä–µ–º—è");
   (("–°—É–±—Ç–µ—Å—Ç –ò5-3-2 " +:+
      QUOTE +:+
      "–õ–∞–±–∏—Ä–∏–Ω—Ç—ã" +:+
      QUOTE +:+
      ": —É–∫–∞–∂–∏—Ç–µ –∫–æ–ª–∏—á–µ—Å—Ç–≤–æ –æ—à–∏–±–æ–∫ –ø—Ä–∏ –ø—Ä–æ—Ö–æ–∂–¥–µ–Ω–∏–∏ –ª–∞–±–∏—Ä–∏–Ω—Ç–∞ 3 (—Ü–µ–ª–æ–µ —á–∏—Å–ª–æ)"),
    "–ò5-3–û—à–∏–±");
   (("–°—É–±—Ç–µ—Å—Ç –ò5-3-3 " +:+
      QUOTE +:+
      "–õ–∞–±–∏—Ä–∏–Ω—Ç—ã" +:+
      QUOTE +:+
      ". –û—Ç–º–µ—Ç—å—Ç–µ, –¥–æ—à–µ–ª –ª–∏ —Ä–µ–±–µ–Ω–æ–∫ –¥–æ —Ü–µ–ª–∏ –≤ —É–∫–∞–∑–∞–Ω–Ω–æ–µ –í–∞–º–∏ –≤—Ä–µ–º—è –≤ –ª–∞–±–∏—Ä–∏–Ω—Ç–µ 3"),
    "–ò5-3–î–æ—à–µ–ª");
   (("–°—É–±—Ç–µ—Å—Ç –ò5-4-1 " +:+
      QUOTE +:+
      "–õ–∞–±–∏—Ä–∏–Ω—Ç—ã" +:+
      QUOTE +:+
      ": —É–∫–∞–∂–∏—Ç–µ –≤—Ä–µ–º—è –ø—Ä–æ—Ö–æ–∂–¥–µ–Ω–∏—è –ª–∞–±–∏—Ä–∏–Ω—Ç–∞ 4 (–≤ —Å–µ–∫—É–Ω–¥–∞—Ö)"),
    "–ò5-4–í—Ä–µ–º—è");
   (("–°—É–±—Ç–µ—Å—Ç –ò5-4-2 " +:+
      QUOTE +:+
      "–õ–∞–±–∏—Ä–∏–Ω—Ç—ã" +:+
      QUOTE +:+
      ": —É–∫–∞–∂–∏—Ç–µ –∫–æ–ª–∏—á–µ—Å—Ç–≤–æ –æ—à–∏–±–æ–∫ –ø—Ä–∏ –ø—Ä–æ—Ö–æ–∂–¥–µ–Ω–∏–∏ –ª–∞–±–∏—Ä–∏–Ω—Ç–∞ 4 (—Ü–µ–ª–æ–µ —á–∏—Å–ª–æ)"),
    "–ò5-4–û—à–∏–±");
   (("–°—É–±—Ç–µ—Å—Ç –ò5-4-3 " +:+
      QUOTE +:+
      "–õ–∞–±–∏—Ä–∏–Ω—Ç—ã" +:+
      QUOTE +:+
      ". –û—Ç–º–µ—Ç—å—Ç–µ, –¥–æ—à–µ–ª –ª–∏ —Ä–µ–±–µ–Ω–æ–∫ –¥–æ —Ü–µ–ª–∏ –≤ —É–∫–∞–∑–∞–Ω–Ω–æ–µ –í–∞–º–∏ –≤—Ä–µ–º—è –≤ –ª–∞–±–∏—Ä–∏–Ω—Ç–µ 4"),
    "–ò5-4–î–æ—à–µ–ª");
   (("–°—É–±—Ç–µ—Å—Ç –ò5-5-1 " +:+
      QUOTE +:+
      "–õ–∞–±–∏—Ä–∏–Ω—Ç—ã" +:+
      QUOTE +:+
      ": —É–∫–∞–∂–∏—Ç–µ –≤—Ä–µ–º—è –ø—Ä–æ—Ö–æ–∂–¥–µ–Ω–∏—è –ª–∞–±–∏—Ä–∏–Ω—Ç–∞ 5 (–≤ —Å–µ–∫—É–Ω–¥–∞—Ö)"),
    "–ò5-5–í—Ä–µ–º—è");
   (("–°—É–±—Ç–µ—Å—Ç –ò5-5-2 " +:+
      QUOTE +:+
      "–õ–∞–±–∏—Ä–∏–Ω—Ç—ã" +:+
      QUOTE +:+
      ": —É–∫–∞–∂–∏—Ç–µ –∫–æ–ª–∏—á–µ—Å—Ç–≤–æ –æ—à–∏–±–æ–∫ –ø—Ä–∏ –ø—Ä–æ—Ö–æ–∂–¥–µ–Ω–∏–∏ –ª–∞–±–∏—Ä–∏–Ω—Ç–∞ 5 (—Ü–µ–ª–æ–µ —á–∏—Å–ª–æ)"),
    "–ò5-5–û—à–∏–±");
   (("–°—É–±—Ç–µ—Å—Ç –ò5-5-3 " +:+
      QUOTE +:+
      "–õ–∞–±–∏—Ä–∏–Ω—Ç—ã" +:+
      QUOTE +:+
      ". –û—Ç–º–µ—Ç—å—Ç–µ, –¥–æ—à–µ–ª –ª–∏ —Ä–µ–±–µ–Ω–æ–∫ –¥–æ —Ü–µ–ª–∏ –≤ —É–∫–∞–∑–∞–Ω–Ω–æ–µ –í–∞–º–∏ –≤—Ä–µ–º—è –≤ –ª–∞–±–∏—Ä–∏–Ω—Ç–µ 5"),
    "–ò5-5–î–æ—à–µ–ª");
   (("–ê–¥–∞–ø—Ç–∏—Ä–æ–≤–∞–Ω–Ω–∞—è –ø—Ä–æ–±–∞ " +:+
      QUOTE +:+
      "–•—É–¥–æ–∂–Ω–∏–∫" +:+
      QUOTE +:+
      ". " +:+
      LF +:+
      "–í–≤–µ–¥–∏—Ç–µ –∑–Ω–∞—á–µ–Ω–∏—è –ø–æ —à–∫–∞–ª–∞–º –í1 –∏ –í2. / –í1"),
    "–í1");
   (("–ê–¥–∞–ø—Ç–∏—Ä–æ–≤–∞–Ω–Ω–∞—è –ø—Ä–æ–±–∞ " +:+
      QUOTE +:+
      "–•—É–¥–æ–∂–Ω–∏–∫" +:+
      QUOTE +:+
      ". " +:+
      LF +:+
      "–í–≤–µ–¥–∏—Ç–µ –∑–Ω–∞—á–µ–Ω–∏—è –ø–æ —à–∫–∞–ª–∞–º –í1 –∏ –í2. / –í2"),
    "–í2");
   (("–ê–¥–∞–ø—Ç–∏—Ä–æ–≤–∞–Ω–Ω–∞—è –ø—Ä–æ–±–∞ " +:+
      QUOTE +:+
      "–•—É–¥–æ–∂–Ω–∏–∫" +:+
      QUOTE +:+
      ". –î–ª—è —ç–∫—Å–ø–µ—Ä—Ç–Ω–æ–≥–æ –æ–ø—Ä–µ–¥–µ–ª–µ–Ω–∏—è –∑–Ω–∞—á–µ–Ω–∏—è –ø–æ —à–∫–∞–ª–µ –í3 –ø—Ä–∏—Å–æ–µ–¥–∏–Ω–∏—Ç–µ –∫–∞—á–µ—Å—Ç–≤–µ–Ω–Ω–æ–µ —Ñ–æ—Ç–æ –∏–ª–∏ —Å–∫–∞–Ω —Ä–∏—Å—É–Ω–∫–∞ —Ä–∞–∑–º–µ—Ä–æ–º –¥–æ 1 –ú–±."),
    "–í3_—Ñ–æ—Ç–æ");
   ("–ú–µ—Ç–æ–¥–∏–∫–∞ –∏–¥–µ–Ω—Ç–∏—Ñ–∏–∫–∞—Ü–∏–∏ –±–∞–∑–æ–≤—ã—Ö —ç–º–æ—Ü–∏–π. / –£–∫–∞–∂–∏—Ç–µ –∏—Ç–æ–≥–æ–≤—É—é –æ—Ü–µ–Ω–∫—É",
    "–≠–º–æ—Ü–ò–¥–µ–Ω—Ç");
   ("–ú–µ—Ç–æ–¥–∏–∫–∞ –Ω–∞–±–ª—é–¥–µ–Ω–∏—è –∑–∞ —Å–æ–≤–º–µ—Å—Ç–Ω–æ–π –¥–µ—è—Ç–µ–ª—å–Ω–æ—Å—Ç—å—é. –£–∫–∞–∂–∏—Ç–µ —Å—Ä–µ–¥–Ω–∏–µ –∑–Ω–∞—á–µ–Ω–∏—è —Ä–µ–∑—É–ª—å—Ç–∞—Ç–æ–≤ —ç–∫—Å–ø–µ—Ä—Ç–Ω–æ–≥–æ –Ω–∞–±–ª—é–¥–µ–Ω–∏—è –ø–æ –≤–∏–¥–∞–º –¥–µ—è—Ç–µ–ª—å–Ω–æ—Å—Ç–∏ / –ü–ª–∞–Ω–∏—Ä–æ–≤–∞–Ω–∏–µ",
    "–ü–ª–∞–Ω–∏—Ä");
   ("–ú–µ—Ç–æ–¥–∏–∫–∞ –Ω–∞–±–ª—é–¥–µ–Ω–∏—è –∑–∞ —Å–æ–≤–º–µ—Å—Ç–Ω–æ–π –¥–µ—è—Ç–µ–ª—å–Ω–æ—Å—Ç—å—é. –£–∫–∞–∂–∏—Ç–µ —Å—Ä–µ–¥–Ω–∏–µ –∑–Ω–∞—á–µ–Ω–∏—è —Ä–µ–∑—É–ª—å—Ç–∞—Ç–æ–≤ —ç–∫—Å–ø–µ—Ä—Ç–Ω–æ–≥–æ –Ω–∞–±–ª—é–¥–µ–Ω–∏—è –ø–æ –≤–∏–¥–∞–º –¥–µ—è—Ç–µ–ª—å–Ω–æ—Å—Ç–∏ / –°–æ—Ç—Ä—É–¥–Ω–∏—á–µ—Å—Ç–≤–æ –∏ —Å–æ—Ç–≤–æ—Ä—á–µ—Å—Ç–≤–æ",
    "–°–æ—Ç—Ä—É–¥");
   ("–ú–µ—Ç–æ–¥–∏–∫–∞ –Ω–∞–±–ª—é–¥–µ–Ω–∏—è –∑–∞ —Å–æ–≤–º–µ—Å—Ç–Ω–æ–π –¥–µ—è—Ç–µ–ª—å–Ω–æ—Å—Ç—å—é. –£–∫–∞–∂–∏—Ç–µ —Å—Ä–µ–¥–Ω–∏–µ –∑–Ω–∞—á–µ–Ω–∏—è —Ä–µ–∑—É–ª—å—Ç–∞—Ç–æ–≤ —ç–∫—Å–ø–µ—Ä—Ç–Ω–æ–≥–æ –Ω–∞–±–ª—é–¥–µ–Ω–∏—è –ø–æ –≤–∏–¥–∞–º –¥–µ—è—Ç–µ–ª—å–Ω–æ—Å—Ç–∏ / –†–µ—Ñ–ª–µ–∫—Å–∏—è",
    "–†–µ—Ñ–ª–µ–∫");
   ("–ü—Ä–∏ –Ω–µ–æ–±—Ö–æ–¥–∏–º–æ—Å—Ç–∏ –Ω–∏–∂–µ –í—ã –º–æ–∂–µ—Ç–µ —É–∫–∞–∑–∞—Ç—å —Å–≤–æ–∏ –ø—Ä–∏–º–µ—á–∞–Ω–∏—è, –ª–∏–±–æ –æ—Å—Ç–∞–≤–∏—Ç—å –¥–∞–Ω–Ω–æ–µ –ø–æ–ª–µ –ø—É—Å—Ç—ã–º.",
    "–ü—Ä–∏–º–µ—á")
  ].

(** [COLUMN_MAPPING.get(name, name)]: the new name of a column. *)
Fixpoint mapping_get (mapping : list (string * string)) (name : string)
  : string :=
  match mapping with
  | [] => name
  | (raw, short) :: rest =>
    if decide (raw = name) then short else mapping_get rest name
  end.

(** [df.rename(columns=COLUMN_MAPPING)] *)
Definition rename (df : frame) : frame :=
  {| nrows := nrows df;
     columns := kmap (mapping_get COLUMN_MAPPING) (columns df) |}.

(** [df.apply(f, axis=1)]: [f] on every row, in order. *)
Definition apply_rows {A} (df : frame) (f : nat → result A)
  : result (list A) :=
  sequence (map f (seq 0 (nrows df))).

(** [series / d] for an int [d]: float division cell by cell.  A
    missing cell stays missing (NaN); a string or a date makes the
    operation fail. *)
Definition cell_div (d : Z) (v : pyval) : result float :=
  match v with
  | PyFloat f => Return (f / float_of_Z d)%float
  | PyInt z => Return (float_of_Z z / float_of_Z d)%float
  | PyBool b => Return ((if b then 1 else 0) / float_of_Z d)%float
  | PyNone => Return nan
  | PyStr _ | PyDatetime _ => Raise TypeError
  end.

Definition series_div (col : list pyval) (d : Z) : result (list float) :=
  sequence (map (cell_div d) col).

(** A cell that the division of a column by a number accepts: a
    number, a truth value or a missing cell. *)
Definition divisible_cell (v : pyval) : bool :=
  match v with
  | PyStr _ | PyDatetime _ => false
  | _ => true
  end.

(** Arithmetic on float64 series. *)
Definition fseries_add (a b : list float) : list float :=
  zip_with PrimFloat.add a b.
Definition fseries_div (a : list float) (d : Z) : list float :=
  map (λ x, (x / float_of_Z d)%float) a.
Definition fseries_round2 (a : list float) : list float := map np_round2 a.

(** ** [process_excel]: the derived columns (lines 197-237) *)

(** The derived columns of one table. *)
Record scored : Type := {
  P : list (list Z);                 (* the five labyrinth columns *)
  Analit_Sint : list float;
  Vnim : list (list float);          (* the five attention columns *)
  SredVnim : list float;
  Kachestvo_vnimaniya : list float;
  Svyazn : list float; RechOform : list float; SamostRass : list float;
  Gotovn_UD : list float;
  Log_obobshchenie : list float;
  Pertseptsiya : list float;
  Voobrazhenie : list float;
  Identif_emotsiy : list float;
  Planirovanie : list float; Sotrudnichestvo : list float;
  Refleksiya : list float;
  Kognitivnoe_razvitie : list float;
  EmSotsIntellekt : list float;
  Kognitivnoe_razvitie_uroven : list (option level);
  Voobrazhenie_itog_uroven : list (option level);
  EmSotsIntellekt_uroven : list (option level)
}.

Section Scoring.
Context `{PyRuntime}.

(** Lines 198-202: one labyrinth column. *)
Definition lab_column (df : frame) (time errors reached : string)
  (limit : Z) : result (list Z) :=
  apply_rows df (λ i,
    calc_lab (row_get df i time) (row_get df i errors)
             (row_get df i reached) limit).

Definition lab_P1 (df : frame) : result (list Z) :=
  lab_column df "–ò5-1–í—Ä–µ–º—è" "–ò5-1–û—à–∏–±" "–ò5-1–î–æ—à–µ–ª" 35.
Definition lab_P2 (df : frame) : result (list Z) :=
  lab_column df "–ò5-2–í—Ä–µ–º—è" "–ò5-2–û—à–∏–±" "–ò5-2–î–æ—à–µ–ª" 35.
Definition lab_P3 (df : frame) : result (list Z) :=
  lab_column df "–ò5-3–í—Ä–µ–º—è" "–ò5-3–û—à–∏–±" "–ò5-3–î–æ—à–µ–ª" 50.
Definition lab_P4 (df : frame) : result (list Z) :=
  lab_column df "–ò5-4–í—Ä–µ–º—è" "–ò5-4–û—à–∏–±" "–ò5-4–î–æ—à–µ–ª" 65.
Definition lab_P5 (df : frame) : result (list Z) :=
  lab_column df "–ò5-5–í—Ä–µ–º—è" "–ò5-5–û—à–∏–±" "–ò5-5–î–æ—à–µ–ª" 125.

(** Line 204 on one row: the mean of the five scores, over 3, rounded. *)
Definition analit_sint (scores : list Z) : float :=
  np_round2 (mean_axis1 (map float_of_Z scores) / 3)%float.

(** Rows of a list of equally long columns. *)
Definition rows_of {A} (n : nat) (cols : list (list A)) : list (list A) :=
  map (λ i, omap (λ c : list A, c !! i) cols) (seq 0 n).

(** Lines 207-211: one attention column. *)
Definition attention_column (df : frame) (rings errors : string)
  : result (list float) :=
  apply_rows df (λ i,
    attention_index (row_get df i rings) (row_get df i errors)).

(** Line 213: [1 if v >= 6 else round(v / 6, 2)]; the int [1] is stored
    in a float64 column. *)
Definition attention_quality (v : float) : float :=
  if float_ge_Z v 6 then 1%float else round2 (v / 6)%float.

(** Lines 216-218, 222, 223, 227-230: [(df[key] / d).round(2)] *)
Definition ratio_column (df : frame) (key : string) (d : Z)
  : result (list float) :=
  col ← getitem df key;
  q ← series_div col d;
  Return (fseries_round2 q).

(** The raw columns that lines 216-230 read by direct indexing, in the
    order of their first use. *)
Definition direct_keys : list string :=
  ["–ò1-2–°–≤—è–∑–Ω"; "–ò1-2–†–µ—á–û—Ñ–æ—Ä–º"; "–ò1-2–°–∞–º–†–∞—Å—Å"; "–ò1-1–°—É–º"; "–ò2–°—É–º"; "–ò4–°—É–º";
   "–í1"; "–í2"; "–≠–º–æ—Ü–ò–¥–µ–Ω—Ç"; "–ü–ª–∞–Ω–∏—Ä"; "–°–æ—Ç—Ä—É–¥"; "–†–µ—Ñ–ª–µ–∫"].

(** Lines 236-237: [df[col].apply(categorize)] *)
Definition level_column (col : list float) : result (list (option level)) :=
  sequence (map (λ v, categorize (PyFloat v)) col).

(** Lines 198-204: the five labyrinth columns and their index. *)
Definition labyrinth_stage (df : frame)
  : result (list (list Z) * list float) :=
  p1 ← lab_P1 df;
  p2 ← lab_P2 df;
  p3 ← lab_P3 df;
  p4 ← lab_P4 df;
  p5 ← lab_P5 df;
  Return ([p1; p2; p3; p4; p5],
          map analit_sint (rows_of (nrows df) [p1; p2; p3; p4; p5])).

(** Lines 207-213: the five attention columns, their mean and the
    attention quality. *)
Definition attention_stage (df : frame)
  : result (list (list float) * list float * list float) :=
  v1 ← attention_column df "–ò3-1–ö–æ–ª—å—Ü–∞" "–ò3-1–û—à–∏–±";
  v2 ← attention_column df "–ò3-2–ö–æ–ª—å—Ü–∞" "–ò3-2–û—à–∏–±";
  v3 ← attention_column df "–ò3-3–ö–æ–ª—å—Ü–∞" "–ò3-3–û—à–∏–±";
  v4 ← attention_column df "–ò3-4–ö–æ–ª—å—Ü–∞" "–ò3-4–û—à–∏–±";
  v5 ← attention_column df "–ò3-5–ö–æ–ª—å—Ü–∞" "–ò3-5–û—à–∏–±";
  let sred := map mean_axis1 (rows_of (nrows df) [v1; v2; v3; v4; v5]) in
  Return ([v1; v2; v3; v4; v5], sred, map attention_quality sred).

(** Lines 197-237. *)
Definition score_frame (df : frame) : result scored :=
  lab ← labyrinth_stage df;
  att ← attention_stage df;
  let an := lab.2 in
  let kach := att.2 in
  svyazn ← ratio_column df "–ò1-2–°–≤—è–∑–Ω" 5;
  rech ← ratio_column df "–ò1-2–†–µ—á–û—Ñ–æ—Ä–º" 5;
  samost ← ratio_column df "–ò1-2–°–∞–º–†–∞—Å—Å" 5;
  i11 ← (getitem df "–ò1-1–°—É–º" ≫= λ c, series_div c 18);
  let gotovn :=
    fseries_round2
      (fseries_div
         (fseries_add i11
            (fseries_div (fseries_add (fseries_add svyazn rech) samost) 3))
         2) in
  logob ← ratio_column df "–ò2–°—É–º" 16;
  perc ← ratio_column df "–ò4–°—É–º" 11;
  b1 ← (getitem df "–í1" ≫= λ c, series_div c 3);
  b2 ← (getitem df "–í2" ≫= λ c, series_div c 3);
  let voobr := fseries_round2 (fseries_div (fseries_add b1 b2) 2) in
  ident ← ratio_column df "–≠–º–æ—Ü–ò–¥–µ–Ω—Ç" 8;
  plan ← ratio_column df "–ü–ª–∞–Ω–∏—Ä" 4;
  sotr ← ratio_column df "–°–æ—Ç—Ä—É–¥" 4;
  refl ← ratio_column df "–†–µ—Ñ–ª–µ–∫" 4;
  let kogn :=
    fseries_round2
      (fseries_div
         (fseries_add
            (fseries_add (fseries_add (fseries_add gotovn kach) an) logob)
            perc)
         5) in
  let emsoc :=
    fseries_round2
      (fseries_div
         (fseries_add ident
            (fseries_div (fseries_add (fseries_add plan sotr) refl) 3))
         2) in
  kogn_l ← level_column kogn;
  voobr_l ← level_column voobr;
  emsoc_l ← level_column emsoc;
  Return {|
    P := lab.1; Analit_Sint := an;
    Vnim := att.1.1; SredVnim := att.1.2; Kachestvo_vnimaniya := kach;
    Svyazn := svyazn; RechOform := rech; SamostRass := samost;
    Gotovn_UD := gotovn; Log_obobshchenie := logob; Pertseptsiya := perc;
    Voobrazhenie := voobr; Identif_emotsiy := ident;
    Planirovanie := plan; Sotrudnichestvo := sotr; Refleksiya := refl;
    Kognitivnoe_razvitie := kogn; EmSotsIntellekt := emsoc;
    Kognitivnoe_razvitie_uroven := kogn_l;
    Voobrazhenie_itog_uroven := voobr_l;
    EmSotsIntellekt_uroven := emsoc_l
  |}.
End Scoring.

(** ** Aggregation (lines 240-281) *)

(** [Series.value_counts()]: the distinct values with their numbers of
    occurrences; missing cells are dropped.  (pandas lists the rows by
    decreasing count; every use below re-indexes or re-sorts them.) *)
Definition value_counts {A} `{EqDecision A} (col : list (option A))
  : list (A * nat) :=
  let vals := omap id col in
  map (λ v, (v, length (filter (λ x, x = v) vals))) (remove_dups vals).

(** [counts.reindex(labels, fill_value=0)] *)
Fixpoint count_of {A} `{EqDecision A} (l : A) (counts : list (A * nat))
  : option nat :=
  match counts with
  | [] => None
  | (k, n) :: rest => if decide (k = l) then Some n else count_of l rest
  end.

Definition reindex {A} `{EqDecision A} (labels : list A)
  (counts : list (A * nat)) : list (A * nat) :=
  map (λ l, (l, default 0%nat (count_of l counts))) labels.

(** [count / total] on an int column: float64 division (0/0 is NaN). *)
Definition share (count total : nat) : float :=
  (float_of_Z (Z.of_nat count) / float_of_Z (Z.of_nat total))%float.

(** Lines 241-248, for one metric: level, number of children, share. *)
Definition level_table (levels : list (option level))
  : list (level * nat * float) :=
  let total := length levels in
  map (λ r : level * nat, (r.1, r.2, share r.2 total))
      (reindex [Below; Normative; Above] (value_counts levels)).

(** Lines 242-248: the tables of the three metrics, in the order of
    the loop. *)
Definition level_tables (sc : scored) : list (list (level * nat * float)) :=
  [level_table (Kognitivnoe_razvitie_uroven sc);
   level_table (Voobrazhenie_itog_uroven sc);
   level_table (EmSotsIntellekt_uroven sc)].

(** The number of children of a table: the sum of its counts. *)
Definition table_children {A} (t : list (A * nat * float)) : nat :=
  sum_list (map (λ r, r.1.2) t).



(** *** Age groups (lines 259-269) *)

(** [xs[0]] *)
Definition index0 {A} (xs : list A) : result A :=
  match xs with
  | x :: _ => Return x
  | [] => Raise IndexError
  end.

Section Age.
Context `{PyRuntime}.

(** The nested [extract_age] (lines 263-267); [text] is a label of the
    age column, a string. *)
Definition extract_age (text : pystr) : Z :=
  match (first ← index0 (split_sep 45%N text);
         token ← index0 (split_ws first);
         py_int (PyStr token)) with
  | Return n => n
  | Raise _ => 999
  end.

(** The order [sort_values("age_sort")] sorts the rows by. *)
Definition age_le (r1 r2 : pystr * nat * float) : Prop :=
  extract_age r1.1.1 ≤ extract_age r2.1.1.

#[global] Instance age_le_dec r1 r2 : Decision (age_le r1 r2).
Proof. unfold age_le. apply _. Defined.

(** Lines 259-269.  [ages] is the age column: a label, or [None] for an
    empty cell.  Rows: label, number of children, share.  The rows are
    sorted by the age number; the relative order of rows with the same
    age number (which pandas takes from the order of [value_counts] and
    from its sort) is not modelled, and no statement below depends on
    it. *)
Definition age_counts (ages : list (option pystr))
  : list (pystr * nat * float) :=
  let counts := value_counts ages in
  let total := sum_list (map snd counts) in
  merge_sort age_le
    (map (λ r : pystr * nat, (r.1, r.2, share r.2 total)) counts).
End Age.

(** *** Towns (lines 142-167, 271-281) *)

(** [re.search(r"\((.*?)\)", s)]: from an opening parenthesis, the
    shortest run of characters other than a line feed that is followed
    by a closing parenthesis. *)
Fixpoint lazy_group (s : pystr) : option pystr :=
  match s with
  | [] => None
  | c :: r =>
    if (c =? 41)%N then Some []
    else if (c =? 10)%N then None
    else (c ::.) <$> lazy_group r
  end.

Fixpoint search_parens (s : pystr) : option pystr :=
  match s with
  | [] => None
  | c :: r =>
    if (c =? 40)%N
    then match lazy_group r with
         | Some g => Some g
         | None => search_parens r
         end
    else search_parens r
  end.

(** [str(v)] of a cell of a text column: the text, or ["nan"] for an
    empty cell. *)
Definition NAN_STR : pystr := Eval vm_compute in py "nan".

Definition str_of_cell (v : option pystr) : pystr :=
  match v with
  | Some s => s
  | None => NAN_STR
  end.

Definition extract_town (org_name : option pystr) : option pystr :=
  match search_parens (str_of_cell org_name) with
  | Some g => Some (strip (hd [] (split_sep 59%N g)))
  | None => None
  end.

(** The town as the specification words it: the inside of the first
    parenthesised group, up to a semicolon, stripped; it is compared
    with [extract_town] below. *)
Fixpoint until_close (s : pystr) : option pystr :=
  match s with
  | [] => None
  | c :: r => if (c =? 41)%N then Some [] else (c ::.) <$> until_close r
  end.

Fixpoint first_group (s : pystr) : option pystr :=
  match s with
  | [] => None
  | c :: r =>
    if (c =? 40)%N
    then match until_close r with
         | Some g => Some g
         | None => first_group r
         end
    else first_group r
  end.

Definition extract_town_as_specified (org_name : option pystr)
  : option pystr :=
  match first_group (str_of_cell org_name) with
  | Some g => Some (strip (hd [] (split_sep 59%N g)))
  | None => None
  end.

(** The literals of lines 155-165 and the label of line 278, as
    stored. *)
Definition G_MOSKVA : pystr := Eval vm_compute in py "–≥.–ú–æ—Å–∫–≤–∞".
Definition G_ : pystr := Eval vm_compute in py "–≥.".
Definition RP_ : pystr := Eval vm_compute in py "—Ä.–ø.".
Definition P_ : pystr := Eval vm_compute in py "–ø.".
Definition POS_ : pystr := Eval vm_compute in py "–ø–æ—Å.".
Definition S_ : pystr := Eval vm_compute in py "—Å.".
Definition D_ : pystr := Eval vm_compute in py "–¥.".
Definition ST_ : pystr := Eval vm_compute in py "—Å—Ç.".
Definition ITOGO : pystr := Eval vm_compute in py "–ò—Ç–æ–≥–æ".

(** [name] is a cell of the town column: a string, or [None] for a
    missing value. *)
Definition sort_key_town (name : option pystr) : Z * pystr :=
  match name with
  | None => (999, [])
  | Some name =>
    let name := strip name in
    if str_eqb name G_MOSKVA then (0, name)
    else if startswith name G_ then (1, name)
    else if startswith name RP_ || startswith name P_ || startswith name POS_
    then (2, name)
    else if startswith name S_ then (3, name)
    else if startswith name D_ then (4, name)
    else if startswith name ST_ then (5, name)
    else (6, name)
  end.

(** Python's order on the tuples [(rank, name)]. *)
Definition key_leb (a b : Z * pystr) : bool :=
  (a.1 <? b.1) || (a.1 =? b.1) && negb (str_ltb b.2 a.2).

Definition town_le (r1 r2 : option pystr * nat) : Prop :=
  key_leb (sort_key_town r1.1) (sort_key_town r2.1) = true.

#[global] Instance town_le_dec r1 r2 : Decision (town_le r1 r2).
Proof. unfold town_le. apply _. Defined.

(** Line 272: [df.groupby(town)[org].nunique()]: one row per town (rows
    without a town form no group), with the number of distinct
    organisation names of its rows. *)
Definition groupby_nunique (towns orgs : list (option pystr))
  : list (option pystr * nat) :=
  map (λ t,
         (Some t,
          length (remove_dups
                    (omap snd (filter (λ r, r.1 = Some t) (zip towns orgs))))))
      (remove_dups (omap id towns)).

(** The number of distinct organisation names whose town is [t]. *)
Definition distinct_orgs (t : pystr) (orgs : list (option pystr)) : nat :=
  length (remove_dups
            (filter (λ o, extract_town (Some o) = Some t) (omap id orgs))).

(** Lines 271-281.  [orgs] is the organisation column. *)
Definition towns_with_total (orgs : list (option pystr))
  : list (option pystr * nat) :=
  let town_col := map extract_town orgs in
  let towns := groupby_nunique town_col orgs in
  let towns := filter (λ r, is_Some r.1) towns in
  let towns := filter (λ r, (0 < r.2)%nat) towns in
  let towns := merge_sort town_le towns in
  towns ++ [(Some ITOGO, sum_list (map snd towns))].

(** ** File name validation (lines 185-190) *)

(** First code points of the runs of ten decimal digits of Unicode
    (category Nd), which the pattern [\d] matches. *)
Definition digit_blocks : list N :=
  [48; 1632; 1776; 1984; 2406; 2534; 2662; 2790; 2918; 3046; 3174; 3302;
   3430; 3558; 3664; 3792; 3872; 4160; 4240; 6112; 6160; 6470; 6608; 6784;
   6800; 6992; 7088; 7232; 7248; 42528; 43216; 43264; 43472; 43504; 43600;
   44016; 65296; 66720; 68912; 69734; 69872; 69942; 70096; 70384; 70736;
   70864; 71248; 71360; 71472; 71904; 72016; 72784; 73040; 73120; 92768;
   92864; 93008; 120782; 120792; 120802; 120812; 120822; 123200; 123632;
   125264; 130032]%N.

Definition is_digit (c : N) : bool :=
  existsb (λ b, (b <=? c) && (c <? b + 10))%N digit_blocks.

(** [\d+], greedy: the longest run of digits at the start, and the rest. *)
Fixpoint span_digits (s : pystr) : pystr * pystr :=
  match s with
  | c :: r =>
    if is_digit c then let '(d, rest) := span_digits r in (c :: d, rest)
    else ([], s)
  | [] => ([], [])
  end.

(** [re.match(r'(\d+)-(\d+)', filename)]: the two groups. *)
Definition match_filename (filename : pystr) : option (pystr * pystr) :=
  match span_digits filename with
  | ((_ :: _) as g1, c :: r) =>
    if (c =? 45)%N
    then match span_digits r with
         | ((_ :: _) as g2, _) => Some (g1, g2)
         | ([], _) => None
         end
    else None
  | _ => None
  end.

(** A file name as the specification wants it: it begins with two
    non-empty groups of digits separated by a hyphen. *)
Definition two_numeric_groups (filename : pystr) : Prop :=
  ∃ g1 g2 rest,
    filename = g1 ++ [45%N] ++ g2 ++ rest
    ∧ g1 ≠ [] ∧ g2 ≠ []
    ∧ Forall (λ c, is_digit c = true) g1
    ∧ Forall (λ c, is_digit c = true) g2.

(** Lines 186-190: the identifiers of the site and of the assessment. *)
Definition validate_filename (filename : pystr) : result (pystr * pystr) :=
  match match_filename filename with
  | None => Raise FilenameFormatError
  | Some (ploshchadka, diagnostika) => Return (ploshchadka, diagnostika)
  end.

Section ProcessExcel.
(** The spreadsheet codec and the rest of the routine (lines 194-452),
    which this section does not look into. *)
Context {workbook : Type}.
Variable read_excel : list N → result frame.
Variable build_workbook : frame → result workbook.

(** Line 389: the prefix as stored (19 code points), the two
    identifiers joined by a hyphen, and [.xlsx]. *)
Definition output_filename (ploshchadka diagnostika : pystr) : pystr :=
  py "–ê–Ω–∞–ª–∏—Ç–∏–∫–∞_" ++ ploshchadka ++ [45%N] ++ diagnostika ++ py ".xlsx".

Definition process_excel (file_content : list N) (filename : pystr)
  : result (workbook * pystr) :=
  ids ← validate_filename filename;
  df ← read_excel file_content;
  wb ← build_workbook df;
  Return (wb, output_filename ids.1 ids.2).
End ProcessExcel.

(** ** The upload handler (lines 554-576) *)

(** An uploaded file: its name and its bytes. *)
Record upload : Type := {
  upload_filename : pystr;
  upload_content : list N
}.

(** The [error] field of a JSON answer: a fixed message, or [str(e)] of
    the exception that was caught. *)
Inductive error_body : Type :=
  | Message (m : pystr)
  | StrOf (e : exn).

(** The answer of the handler: a JSON error with its status code, or
    the workbook sent as an attachment, with its download name and the
    value of the header [X-Filename]. *)
Inductive response (workbook : Type) : Type :=
  | JsonError (status : Z) (body : error_body)
  | Attachment (content : workbook) (download_name x_filename : pystr).
Arguments JsonError {workbook} status body.
Arguments Attachment {workbook} content download_name x_filename.

(** The status code of an answer ([send_file] answers with 200). *)
Definition status_code {workbook} (r : response workbook) : Z :=
  match r with
  | JsonError status _ => status
  | Attachment _ _ _ => 200
  end.

Definition FILE_NOT_FOUND : pystr := Eval vm_compute in py "–§–∞–π–ª –Ω–µ –Ω–∞–π–¥–µ–Ω".
Definition FILE_NOT_CHOSEN : pystr := Eval vm_compute in py "–§–∞–π–ª –Ω–µ –≤—ã–±—Ä–∞–Ω".

Section Process.
Context {workbook : Type}.
Variable read_excel : list N → result frame.
Variable build_workbook : frame → result workbook.

(** [files] is [request.files.get('file')]: the uploaded file of the
    form field [file], if there is one. *)
Definition process (files : option upload) : response workbook :=
  match files with
  | None => JsonError 400 (Message FILE_NOT_FOUND)
  | Some file =>
    if str_eqb (upload_filename file) []
    then JsonError 400 (Message FILE_NOT_CHOSEN)
    else
      match process_excel read_excel build_workbook
              (upload_content file) (upload_filename file) with
      | Return (result_content, result_filename) =>
        Attachment result_content result_filename result_filename
      | Raise e => JsonError 500 (StrOf e)
      end
  end.
End Process.

(** ** A runtime for the examples *)

(** The value of a string of ASCII digits. *)
Fixpoint digits_value (acc : Z) (s : pystr) : option Z :=
  match s with
  | [] => Some acc
  | c :: r =>
    if ((48 <=? c) && (c <=? 57))%N
    then digits_value (10 * acc + Z.of_N (c - 48)) r
    else None
  end.

Definition plain_numeral (s : pystr) : option Z :=
  match strip s with
  | [] => None
  | digits => digits_value 0 digits
  end.

(** A runtime that agrees with Python on unsigned ASCII decimal
    numerals (and rejects every other string, also those that Python
    parses), with NumPy's rounding in the place of [round]; it is used
    only to evaluate examples, on inputs where it agrees with
    Python. *)
Definition example_runtime : PyRuntime := {|
  str_to_float := λ s, plain_numeral s ≫= Z_to_float;
  str_to_int := plain_numeral;
  round2 := np_round2
|}.

(** ** Tables for the examples *)

(** A one-row table with every column the scoring reads, but for the
    column of the first criterion. *)
Definition frame_without_svyazn : frame :=
  let num := [PyInt 1] in
  {| nrows := 1;
     columns := list_to_map
       [("–ò5-1–í—Ä–µ–º—è", [PyInt 20]); ("–ò5-1–û—à–∏–±", num); ("–ò5-1–î–æ—à–µ–ª", [PyStr (py "Да")]);
        ("–ò3-1–ö–æ–ª—å—Ü–∞", [PyInt 10]); ("–ò3-1–û—à–∏–±", num);
        ("–ò1-2–†–µ—á–û—Ñ–æ—Ä–º", num); ("–ò1-2–°–∞–º–†–∞—Å—Å", num); ("–ò1-1–°—É–º", num);
        ("–ò2–°—É–º", num); ("–ò4–°—É–º", num); ("–í1", num); ("–í2", num);
        ("–≠–º–æ—Ü–ò–¥–µ–Ω—Ç", num); ("–ü–ª–∞–Ω–∏—Ä", num); ("–°–æ—Ç—Ä—É–¥", num);
        ("–†–µ—Ñ–ª–µ–∫", num)] |}.

(** A raw sheet of one row with every header of the mapping but the
    one of the column [skip], each cell holding 1. *)
Definition raw_sheet_without (skip : string) : frame :=
  {| nrows := 1;
     columns := list_to_map
       (map (λ kv : string * string, (kv.1, [PyInt 1]))
            (filter (λ kv : string * string, kv.2 ≠ skip) COLUMN_MAPPING)) |}.

(** A one-row table with every column the scoring reads; the cell of
    the first imagination scale is [v1]. *)
Definition frame_with_v1 (v1 : pyval) : frame :=
  let num := [PyInt 1] in
  {| nrows := 1;
     columns := list_to_map
       [("–ò5-1–í—Ä–µ–º—è", [PyInt 20]); ("–ò5-1–û—à–∏–±", num);
        ("–ò5-1–î–æ—à–µ–ª", [PyStr (py "Да")]);
        ("–ò3-1–ö–æ–ª—å—Ü–∞", [PyInt 10]); ("–ò3-1–û—à–∏–±", num);
        ("–ò1-2–°–≤—è–∑–Ω", num); ("–ò1-2–†–µ—á–û—Ñ–æ—Ä–º", num); ("–ò1-2–°–∞–º–†–∞—Å—Å", num);
        ("–ò1-1–°—É–º", num); ("–ò2–°—É–º", num); ("–ò4–°—É–º", num);
        ("–í1", [v1]); ("–í2", num);
        ("–≠–º–æ—Ü–ò–¥–µ–Ω—Ç", num); ("–ü–ª–∞–Ω–∏—Ä", num); ("–°–æ—Ç—Ä—É–¥", num);
        ("–†–µ—Ñ–ª–µ–∫", num)] |}.

(** * Properties *)

(** ** The error monad *)

Lemma sequence_map_total {A B} (f : A → result B) (l : list A) :
  (∀ a, ∃ b, f a = Return b) →
  ∃ bs, sequence (map f l) = Return bs ∧ Forall2 (λ a b, f a = Return b) l bs.
Proof.
  intros Hf. induction l as [|a l (bs & Hs & Hall)]; simpl.
  - exists []. split; [reflexivity|constructor].
  - destruct (Hf a) as [b Hb]. exists (b :: bs). rewrite Hb, Hs. simpl.
    split; [reflexivity|by constructor].
Qed.

Lemma apply_rows_total {A} (df : frame) (f : nat → result A) :
  (∀ i, ∃ b, f i = Return b) →
  ∃ col, apply_rows df f = Return col
         ∧ length col = nrows df
         ∧ ∀ i, (i < nrows df)%nat →
                ∃ v, col !! i = Some v ∧ f i = Return v.
Proof.
  intros Hf. unfold apply_rows.
  destruct (sequence_map_total f (seq 0 (nrows df)) Hf) as (col & Hs & Hall).
  exists col. split; [done|]. split.
  - apply Forall2_length in Hall. by rewrite length_seq in Hall.
  - intros i Hi.
    destruct (Forall2_lookup_l _ _ _ i i Hall) as (v & Hv & Hfv).
    + by apply lookup_seq_lt.
    + by exists v.
Qed.

(** ** [calc_lab] *)

Section CalcLabFacts.
Context `{PyRuntime}.

Lemma try_except_py_int errors :
  try_except (py_int errors) (λ _, Return 0) = Return (coerced_errors errors).
Proof. unfold coerced_errors. by destruct (py_int errors). Qed.

Lemma calc_lab_unfold time errors reached limit :
  calc_lab time errors reached limit =
  match py_float time with
  | Raise _ => Return 0
  | Return t =>
    if reached_is_no reached then Return 0
    else if float_gt_Z t limit then Return 0
    else Return (errors_score (coerced_errors errors))
  end.
Proof.
  unfold calc_lab. destruct (py_float time); [|done].
  by rewrite try_except_py_int.
Qed.

Lemma errors_score_range n : errors_score n ∈ [0; 1; 2; 3].
Proof.
  unfold errors_score.
  repeat case_match; rewrite !elem_of_cons; tauto.
Qed.

Lemma calc_lab_total time errors reached limit :
  ∃ v, calc_lab time errors reached limit = Return v ∧ v ∈ [0; 1; 2; 3].
Proof.
  rewrite calc_lab_unfold.
  destruct (py_float time) as [t|e];
    [|exists 0; split; [done|apply list_elem_of_here]].
  destruct (reached_is_no reached);
    [exists 0; split; [done|apply list_elem_of_here]|].
  destruct (float_gt_Z t limit);
    [exists 0; split; [done|apply list_elem_of_here]|].
  eexists; split; [done|apply errors_score_range].
Qed.

Lemma reached_is_no_false reached :
  (∀ s, reached = PyStr s → strip s ≠ NET) → reached_is_no reached = false.
Proof.
  intros Hs. destruct reached; try done. simpl.
  unfold str_eqb. apply bool_decide_eq_false. by apply Hs.
Qed.

Lemma lab_column_total df time errors reached limit :
  ∃ col, lab_column df time errors reached limit = Return col
         ∧ length col = nrows df
         ∧ ∀ i, (i < nrows df)%nat →
             ∃ v, col !! i = Some v
                  ∧ v ∈ [0; 1; 2; 3]
                  ∧ calc_lab (row_get df i time) (row_get df i errors)
                             (row_get df i reached) limit = Return v.
Proof.
  unfold lab_column.
  edestruct (apply_rows_total (A:=Z) df) as (col & Hc & Hlen & Hrows);
    last first.
  - exists col. split; [exact Hc|]. split; [done|].
    intros i Hi. destruct (Hrows i Hi) as (v & Hv & Hs).
    exists v. split; [done|]. split; [|done].
    destruct (calc_lab_total (row_get df i time) (row_get df i errors)
                (row_get df i reached) limit) as (v' & Hv' & Hin).
    simpl in Hs. rewrite Hv' in Hs. by injection Hs as <-.
  - intros i. simpl.
    destruct (calc_lab_total (row_get df i time) (row_get df i errors)
                (row_get df i reached) limit) as (v & Hv & _).
    by exists v.
Qed.
End CalcLabFacts.

Section LabyrinthFacts.
Context `{PyRuntime}.

Lemma rows_of_lookup {A} (n i : nat) (cols : list (list A)) :
  (i < n)%nat → rows_of n cols !! i = Some (omap (λ c : list A, c !! i) cols).
Proof.
  intros Hi. unfold rows_of. rewrite list_lookup_fmap.
  by rewrite lookup_seq_lt.
Qed.

Lemma labyrinth_stage_total df :
  ∃ p1 p2 p3 p4 p5,
    lab_P1 df = Return p1 ∧ lab_P2 df = Return p2 ∧ lab_P3 df = Return p3
    ∧ lab_P4 df = Return p4 ∧ lab_P5 df = Return p5
    ∧ labyrinth_stage df =
        Return ([p1; p2; p3; p4; p5],
                map analit_sint (rows_of (nrows df) [p1; p2; p3; p4; p5])).
Proof.
  unfold labyrinth_stage, lab_P1, lab_P2, lab_P3, lab_P4, lab_P5.
  destruct (lab_column_total df "–ò5-1–í—Ä–µ–º—è" "–ò5-1–û—à–∏–±" "–ò5-1–î–æ—à–µ–ª" 35)
    as (p1 & -> & _).
  destruct (lab_column_total df "–ò5-2–í—Ä–µ–º—è" "–ò5-2–û—à–∏–±" "–ò5-2–î–æ—à–µ–ª" 35)
    as (p2 & -> & _).
  destruct (lab_column_total df "–ò5-3–í—Ä–µ–º—è" "–ò5-3–û—à–∏–±" "–ò5-3–î–æ—à–µ–ª" 50)
    as (p3 & -> & _).
  destruct (lab_column_total df "–ò5-4–í—Ä–µ–º—è" "–ò5-4–û—à–∏–±" "–ò5-4–î–æ—à–µ–ª" 65)
    as (p4 & -> & _).
  destruct (lab_column_total df "–ò5-5–í—Ä–µ–º—è" "–ò5-5–û—à–∏–±" "–ò5-5–î–æ—à–µ–ª" 125)
    as (p5 & -> & _).
  by exists p1, p2, p3, p4, p5.
Qed.

(** Row [i] of the labyrinth columns: the five scores are [calc_lab] on
    the cells of the five mazes with the limits 35, 35, 50, 65, 125. *)
Lemma labyrinth_stage_row df i :
  (i < nrows df)%nat →
  ∃ cols an s1 s2 s3 s4 s5,
    labyrinth_stage df = Return (cols, an)
    ∧ rows_of (nrows df) cols !! i = Some [s1; s2; s3; s4; s5]
    ∧ an !! i = Some (analit_sint [s1; s2; s3; s4; s5])
    ∧ Forall (λ s, s ∈ [0; 1; 2; 3]) [s1; s2; s3; s4; s5]
    ∧ calc_lab (row_get df i "–ò5-1–í—Ä–µ–º—è") (row_get df i "–ò5-1–û—à–∏–±")
               (row_get df i "–ò5-1–î–æ—à–µ–ª") 35 = Return s1
    ∧ calc_lab (row_get df i "–ò5-2–í—Ä–µ–º—è") (row_get df i "–ò5-2–û—à–∏–±")
               (row_get df i "–ò5-2–î–æ—à–µ–ª") 35 = Return s2
    ∧ calc_lab (row_get df i "–ò5-3–í—Ä–µ–º—è") (row_get df i "–ò5-3–û—à–∏–±")
               (row_get df i "–ò5-3–î–æ—à–µ–ª") 50 = Return s3
    ∧ calc_lab (row_get df i "–ò5-4–í—Ä–µ–º—è") (row_get df i "–ò5-4–û—à–∏–±")
               (row_get df i "–ò5-4–î–æ—à–µ–ª") 65 = Return s4
    ∧ calc_lab (row_get df i "–ò5-5–í—Ä–µ–º—è") (row_get df i "–ò5-5–û—à–∏–±")
               (row_get df i "–ò5-5–î–æ—à–µ–ª") 125 = Return s5.
Proof.
  intros Hi.
  destruct (labyrinth_stage_total df)
    as (p1 & p2 & p3 & p4 & p5 & H1 & H2 & H3 & H4 & H5 & Hst).
  unfold lab_P1, lab_P2, lab_P3, lab_P4, lab_P5 in *.
  destruct (lab_column_total df "–ò5-1–í—Ä–µ–º—è" "–ò5-1–û—à–∏–±" "–ò5-1–î–æ—à–µ–ª" 35)
    as (q1 & E1 & _ & R1).
  destruct (lab_column_total df "–ò5-2–í—Ä–µ–º—è" "–ò5-2–û—à–∏–±" "–ò5-2–î–æ—à–µ–ª" 35)
    as (q2 & E2 & _ & R2).
  destruct (lab_column_total df "–ò5-3–í—Ä–µ–º—è" "–ò5-3–û—à–∏–±" "–ò5-3–î–æ—à–µ–ª" 50)
    as (q3 & E3 & _ & R3).
  destruct (lab_column_total df "–ò5-4–í—Ä–µ–º—è" "–ò5-4–û—à–∏–±" "–ò5-4–î–æ—à–µ–ª" 65)
    as (q4 & E4 & _ & R4).
  destruct (lab_column_total df "–ò5-5–í—Ä–µ–º—è" "–ò5-5–û—à–∏–±" "–ò5-5–î–æ—à–µ–ª" 125)
    as (q5 & E5 & _ & R5).
  rewrite E1 in H1. rewrite E2 in H2. rewrite E3 in H3.
  rewrite E4 in H4. rewrite E5 in H5.
  injection H1 as ->. injection H2 as ->. injection H3 as ->.
  injection H4 as ->. injection H5 as ->.
  destruct (R1 i Hi) as (s1 & L1 & I1 & C1).
  destruct (R2 i Hi) as (s2 & L2 & I2 & C2).
  destruct (R3 i Hi) as (s3 & L3 & I3 & C3).
  destruct (R4 i Hi) as (s4 & L4 & I4 & C4).
  destruct (R5 i Hi) as (s5 & L5 & I5 & C5).
  eexists _, _, s1, s2, s3, s4, s5. split; [exact Hst|].
  assert (Hrow : rows_of (nrows df) [p1; p2; p3; p4; p5] !! i
                 = Some [s1; s2; s3; s4; s5]).
  { rewrite rows_of_lookup by done. simpl.
    by rewrite L1, L2, L3, L4, L5. }
  split; [exact Hrow|].
  split; [by rewrite list_lookup_fmap, Hrow|].
  split; [by repeat apply Forall_cons_2; try apply Forall_nil|done].
Qed.
End LabyrinthFacts.

Section CalcLabClaims.
Context `{PyRuntime}.

(** The cases of [calc_lab].  For every input, the labyrinth score is
    0 when [float(time)] raises; 0 when the goal flag is a string that
    equals the literal of line 103 once surrounding whitespace is
    stripped; 0 when the time exceeds the limit; and otherwise 3, 2, 1
    or 0 for an error count (0 when [int(errors)] raises) of 0, of 1,
    in 2..5, or anything else.  In [process_excel] the five labyrinth
    scores of a row are this function on the cells of the five mazes
    with the limits 35, 35, 50, 65 and 125, in that order. *)
Theorem calc_lab_cases (time errors reached : pyval) (limit : Z) :
  let score := calc_lab time errors reached limit in
  let n := coerced_errors errors in
  (∀ e, py_float time = Raise e → score = Return 0)
  ∧ (∀ s, reached = PyStr s → strip s = NET → score = Return 0)
  ∧ (∀ t, py_float time = Return t → float_gt_Z t limit = true →
       score = Return 0)
  ∧ (∀ t, py_float time = Return t → float_gt_Z t limit = false →
       (∀ s, reached = PyStr s → strip s ≠ NET) →
       (n = 0 → score = Return 3)
       ∧ (n = 1 → score = Return 2)
       ∧ (2 ≤ n ≤ 5 → score = Return 1)
       ∧ (n < 0 ∨ 5 < n → score = Return 0))
  ∧ (∀ df i, (i < nrows df)%nat →
       ∃ cols an s1 s2 s3 s4 s5,
         labyrinth_stage df = Return (cols, an)
         ∧ rows_of (nrows df) cols !! i = Some [s1; s2; s3; s4; s5]
         ∧ calc_lab (row_get df i "–ò5-1–í—Ä–µ–º—è") (row_get df i "–ò5-1–û—à–∏–±")
                    (row_get df i "–ò5-1–î–æ—à–µ–ª") 35 = Return s1
         ∧ calc_lab (row_get df i "–ò5-2–í—Ä–µ–º—è") (row_get df i "–ò5-2–û—à–∏–±")
                    (row_get df i "–ò5-2–î–æ—à–µ–ª") 35 = Return s2
         ∧ calc_lab (row_get df i "–ò5-3–í—Ä–µ–º—è") (row_get df i "–ò5-3–û—à–∏–±")
                    (row_get df i "–ò5-3–î–æ—à–µ–ª") 50 = Return s3
         ∧ calc_lab (row_get df i "–ò5-4–í—Ä–µ–º—è") (row_get df i "–ò5-4–û—à–∏–±")
                    (row_get df i "–ò5-4–î–æ—à–µ–ª") 65 = Return s4
         ∧ calc_lab (row_get df i "–ò5-5–í—Ä–µ–º—è") (row_get df i "–ò5-5–û—à–∏–±")
                    (row_get df i "–ò5-5–î–æ—à–µ–ª") 125 = Return s5).
Proof.
  intros score n. subst score n. rewrite calc_lab_unfold.
  split; [by intros e ->|].
  split.
  { intros s -> Hs. destruct (py_float time); [|done].
    simpl. unfold str_eqb. by rewrite bool_decide_eq_true_2. }
  split.
  { intros t -> Hgt. rewrite Hgt. by destruct (reached_is_no reached). }
  split.
  { intros t -> Hle Hr. rewrite Hle, (reached_is_no_false _ Hr).
    unfold errors_score. repeat split.
    - by intros ->.
    - by intros ->.
    - intros [H2 H5].
      destruct (Z.eqb_spec (coerced_errors errors) 0); [lia|].
      destruct (Z.eqb_spec (coerced_errors errors) 1); [lia|].
      destruct (Z.leb_spec 2 (coerced_errors errors)); [|lia].
      destruct (Z.leb_spec (coerced_errors errors) 5); [done|lia].
    - intros Hout.
      destruct (Z.eqb_spec (coerced_errors errors) 0); [lia|].
      destruct (Z.eqb_spec (coerced_errors errors) 1); [lia|].
      destruct (Z.leb_spec 2 (coerced_errors errors)); [|done].
      destruct (Z.leb_spec (coerced_errors errors) 5); [lia|done]. }
  intros df i Hi.
  destruct (labyrinth_stage_row df i Hi)
    as (cols & an & s1 & s2 & s3 & s4 & s5 & Hst & Hrow & _ & _ & Hc).
  by exists cols, an, s1, s2, s3, s4, s5.
Qed.

(** C1.  The negative answer of a sheet is not recognised.  The
    literal of line 103 is not the Russian word for "no" but its
    double-encoded form, so a goal flag that holds the word itself is
    compared unequal: with a time of 10 within the limit 35 and no
    error the code returns 3, where the score as specified is 0.  The
    flag then has no effect at all: the score is the one of a row
    without a flag.  Only a flag that holds the stored literal gives
    0. *)
Theorem calc_lab_russian_no :
  NET_RU ≠ NET
  ∧ calc_lab (PyInt 10) (PyInt 0) (PyStr NET_RU) 35 = Return 3
  ∧ calc_lab_as_specified (PyInt 10) (PyInt 0) (PyStr NET_RU) 35 = 0
  ∧ (∀ time errors limit,
       calc_lab time errors (PyStr NET_RU) limit
       = calc_lab time errors PyNone limit)
  ∧ calc_lab (PyInt 10) (PyInt 0) (PyStr NET) 35 = Return 0.
Proof.
  split; [by vm_compute|].
  split; [by rewrite calc_lab_unfold; vm_compute|].
  split; [by vm_compute|].
  split; [|by rewrite calc_lab_unfold; vm_compute].
  intros time errors limit. by rewrite !calc_lab_unfold.
Qed.
End CalcLabClaims.

(** The examples of the specification with a reached goal (the answer
    "Да"). *)
Example calc_lab_examples `{PyRuntime} :
  let yes := PyStr (py "Да") in
  calc_lab (PyInt 10) (PyInt 0) yes 35 = Return 3
  ∧ calc_lab (PyInt 10) (PyInt 1) yes 35 = Return 2
  ∧ calc_lab (PyInt 10) (PyInt 3) yes 35 = Return 1
  ∧ calc_lab (PyInt 10) (PyInt 6) yes 35 = Return 0
  ∧ calc_lab (PyInt 40) (PyInt 0) yes 35 = Return 0.
Proof. repeat split; vm_compute; reflexivity. Qed.

(** A time of 40 on every maze: over the limit of the first two mazes
    only. *)
Example labyrinth_limits_example :
  let cell := [PyInt 40] in
  let df := {| nrows := 1;
               columns := list_to_map
                 [("–ò5-1–í—Ä–µ–º—è", cell); ("–ò5-2–í—Ä–µ–º—è", cell);
                  ("–ò5-3–í—Ä–µ–º—è", cell); ("–ò5-4–í—Ä–µ–º—è", cell);
                  ("–ò5-5–í—Ä–µ–º—è", cell)] |} in
  fst <$> @labyrinth_stage example_runtime df
  = Return [[0]; [0]; [3]; [3]; [3]].
Proof. vm_compute. reflexivity. Qed.

(** An instance of the cases: time 10, three errors, goal reached,
    limit 35. *)
Lemma calc_lab_cases_witness :
  @calc_lab example_runtime (PyInt 10) (PyInt 3) (PyStr (py "Да")) 35
  = Return 1.
Proof.
  destruct (@calc_lab_cases example_runtime (PyInt 10) (PyInt 3)
              (PyStr (py "Да")) 35) as (_ & _ & _ & Hscore & _).
  destruct (Hscore 10%float) as (_ & _ & H25 & _).
  - reflexivity.
  - reflexivity.
  - intros s [= <-]. vm_compute. discriminate.
  - apply H25. vm_compute. split; discriminate.
Defined.

(** ** The analytic-synthetic index *)

Lemma analit_sint_checked :
  forallb (λ s1, forallb (λ s2, forallb (λ s3, forallb (λ s4, forallb (λ s5,
    in_unit_interval (analit_sint [s1; s2; s3; s4; s5]))
    [0; 1; 2; 3]) [0; 1; 2; 3]) [0; 1; 2; 3]) [0; 1; 2; 3]) [0; 1; 2; 3]
  = true.
Proof. vm_compute. reflexivity. Qed.

Lemma analit_sint_unit_interval (scores : list Z) :
  length scores = 5%nat →
  Forall (λ s, s ∈ [0; 1; 2; 3]) scores →
  in_unit_interval (analit_sint scores) = true.
Proof.
  intros Hlen Hall.
  destruct scores as [|s1 [|s2 [|s3 [|s4 [|s5 [|]]]]]]; try discriminate.
  repeat match goal with
         | Hf : Forall _ (_ :: _) |- _ =>
           apply Forall_cons_1 in Hf; destruct Hf as [? Hf]
         end.
  pose proof analit_sint_checked as Hc.
  rewrite forallb_forall in Hc.
  specialize (Hc s1 ltac:(by apply list_elem_of_In)).
  rewrite forallb_forall in Hc.
  specialize (Hc s2 ltac:(by apply list_elem_of_In)).
  rewrite forallb_forall in Hc.
  specialize (Hc s3 ltac:(by apply list_elem_of_In)).
  rewrite forallb_forall in Hc.
  specialize (Hc s4 ltac:(by apply list_elem_of_In)).
  rewrite forallb_forall in Hc.
  exact (Hc s5 ltac:(by apply list_elem_of_In)).
Qed.

Section LabyrinthClaims.
Context `{PyRuntime}.

(** C9.  [calc_lab] is total: for arguments of any type it returns,
    without raising, one of 0, 1, 2, 3.  It returns 0 as soon as
    [float(time)] raises; when [int(errors)] raises the error count is 0,
    which gives the score 3 if the time is within the limit and the goal
    flag is not the negative answer.  Hence the analytic-synthetic index
    of five scores (their mean over 3, rounded to two decimals) lies in
    [0, 1], and so does every cell of that column of any table. *)
Theorem calc_lab_total_bounded (time errors reached : pyval) (limit : Z) :
  (∃ v, calc_lab time errors reached limit = Return v
        ∧ (v = 0 ∨ v = 1 ∨ v = 2 ∨ v = 3))
  ∧ (∀ e, py_float time = Raise e →
       calc_lab time errors reached limit = Return 0)
  ∧ (∀ e t, py_int errors = Raise e → py_float time = Return t →
       float_gt_Z t limit = false → reached_is_no reached = false →
       calc_lab time errors reached limit = Return 3)
  ∧ (∀ s1 s2 s3 s4 s5,
       Forall (λ s, s = 0 ∨ s = 1 ∨ s = 2 ∨ s = 3) [s1; s2; s3; s4; s5] →
       in_unit_interval (analit_sint [s1; s2; s3; s4; s5]) = true)
  ∧ (∀ df, ∃ cols an,
       labyrinth_stage df = Return (cols, an)
       ∧ length an = nrows df
       ∧ Forall (λ x, in_unit_interval x = true) an).
Proof.
  split.
  { destruct (calc_lab_total time errors reached limit) as (v & Hv & Hin).
    exists v. split; [done|].
    rewrite !elem_of_cons, elem_of_nil in Hin. tauto. }
  split.
  { intros e He. rewrite calc_lab_unfold. by rewrite He. }
  split.
  { intros e t He Ht Hle Hr. rewrite calc_lab_unfold, Ht, Hr, Hle.
    unfold coerced_errors. by rewrite He. }
  split.
  { intros s1 s2 s3 s4 s5 Hall. apply analit_sint_unit_interval; [done|].
    eapply Forall_impl; [exact Hall|]. intros s.
    rewrite !elem_of_cons. tauto. }
  intros df.
  destruct (labyrinth_stage_total df)
    as (p1 & p2 & p3 & p4 & p5 & _ & _ & _ & _ & _ & Hst).
  eexists _, _. split; [exact Hst|].
  assert (Hlen : length (map analit_sint
                           (rows_of (nrows df) [p1; p2; p3; p4; p5]))
                 = nrows df).
  { unfold rows_of. by rewrite !length_map, length_seq. }
  split; [exact Hlen|].
  apply Forall_lookup. intros i x Hx.
  assert (Hi : (i < nrows df)%nat).
  { rewrite <- Hlen. by eapply lookup_lt_Some. }
  destruct (labyrinth_stage_row df i Hi)
    as (cols & an & s1 & s2 & s3 & s4 & s5 & Hst' & _ & Han & Hin & _).
  rewrite Hst in Hst'. injection Hst' as <- <-.
  rewrite Han in Hx. injection Hx as <-.
  by apply analit_sint_unit_interval.
Qed.
End LabyrinthClaims.

(** C9, witness: a time that is not a number gives 0; an error count
    that is not a number counts as 0 errors and gives 3. *)
Lemma calc_lab_total_bounded_witness :
  @calc_lab example_runtime PyNone (PyInt 2) PyNone 35 = Return 0
  ∧ @calc_lab example_runtime (PyFloat 12.5) (PyStr (py "-")) (PyStr (py "Да")) 35
    = Return 3
  ∧ in_unit_interval (analit_sint [3; 2; 0; 1; 3]) = true.
Proof.
  pose proof (@calc_lab_total_bounded example_runtime PyNone (PyInt 2)
                PyNone 35) as (_ & Hbad & _ & Hidx & _).
  pose proof (@calc_lab_total_bounded example_runtime (PyFloat 12.5)
                (PyStr (py "-")) (PyStr (py "Да")) 35) as (_ & _ & Herr & _).
  split; [|split].
  - apply (Hbad TypeError). reflexivity.
  - apply (Herr ValueError 12.5%float); vm_compute; reflexivity.
  - apply Hidx. repeat apply Forall_cons_2; try apply Forall_nil; lia.
Defined.

(** ** Attention *)

Lemma filter_Forall_id {A} (P : A → Prop) `{∀ x, Decision (P x)}
  (l : list A) :
  Forall P l → filter P l = l.
Proof.
  induction 1 as [|x l Hx _ IH]; [done|].
  by rewrite filter_cons, decide_True, IH.
Qed.

Lemma mean_axis1_no_nan (x1 x2 x3 x4 x5 : float) :
  is_nan x1 = false → is_nan x2 = false → is_nan x3 = false →
  is_nan x4 = false → is_nan x5 = false →
  mean_axis1 [x1; x2; x3; x4; x5] = ((x1 + x2 + x3 + x4 + x5) / 5)%float.
Proof.
  intros H1 H2 H3 H4 H5. unfold mean_axis1.
  rewrite filter_Forall_id
    by (repeat apply Forall_cons_2; try apply Forall_nil; done).
  simpl. by rewrite H1, H2, H3, H4, H5.
Qed.

Lemma mean_axis1_all_nan (xs : list float) :
  Forall (λ x, is_nan x = true) xs → mean_axis1 xs = nan.
Proof.
  intros Hall. unfold mean_axis1.
  assert (Hf : filter (λ x, is_nan x = false) xs = []).
  { induction Hall as [|x xs Hx _ IH]; [done|].
    rewrite filter_cons, decide_False; [done|]. by rewrite Hx. }
  by rewrite Hf.
Qed.

(** ** The mean of a row with empty cells *)

Lemma same_number_refl (a : float) : same_number a a.
Proof. by left. Qed.

Lemma same_number_trans (a b c : float) :
  same_number a b → same_number b c → same_number a c.
Proof.
  intros [->|[Ha Hb]] [->|[Hb' Hc]]; try (by left); try (by right).
Qed.

Lemma Prim2SF_zero : Prim2SF 0 = S754_zero false.
Proof. reflexivity. Qed.

(** Adding the same float to two floats that are the same number gives
    the same number. *)
Lemma same_number_add (a b x : float) :
  same_number a b → same_number (a + x) (b + x).
Proof.
  intros [->|[Ha Hb]]; [by left|].
  unfold same_number, is_zero in *.
  rewrite !FloatAxioms.add_spec.
  destruct (Prim2SF a) as [sa| | |] eqn:Ea; try done.
  destruct (Prim2SF b) as [sb| | |] eqn:Eb; try done.
  destruct (Prim2SF x) as [sx|sx| |sx mx ex] eqn:Ex.
  - right. by destruct sa, sb, sx.
  - left. apply Prim2SF_inj. by rewrite !FloatAxioms.add_spec, Ea, Eb, Ex.
  - left. apply Prim2SF_inj. by rewrite !FloatAxioms.add_spec, Ea, Eb, Ex.
  - left. apply Prim2SF_inj. by rewrite !FloatAxioms.add_spec, Ea, Eb, Ex.
Qed.

(** Adding zero leaves the number as it is. *)
Lemma same_number_add_zero_r (a : float) : same_number (a + 0) a.
Proof.
  unfold same_number, is_zero. rewrite FloatAxioms.add_spec, Prim2SF_zero.
  destruct (Prim2SF a) as [sa|sa| |sa ma ea] eqn:Ea.
  - right. by destruct sa.
  - left. apply Prim2SF_inj.
    by rewrite FloatAxioms.add_spec, Prim2SF_zero, Ea.
  - left. apply Prim2SF_inj.
    by rewrite FloatAxioms.add_spec, Prim2SF_zero, Ea.
  - left. apply Prim2SF_inj.
    by rewrite FloatAxioms.add_spec, Prim2SF_zero, Ea.
Qed.

Lemma same_number_add_zero_l (a : float) : same_number (0 + a) a.
Proof.
  unfold same_number, is_zero. rewrite FloatAxioms.add_spec, Prim2SF_zero.
  destruct (Prim2SF a) as [sa|sa| |sa ma ea] eqn:Ea.
  - right. by destruct sa.
  - left. apply Prim2SF_inj.
    by rewrite FloatAxioms.add_spec, Prim2SF_zero, Ea.
  - left. apply Prim2SF_inj.
    by rewrite FloatAxioms.add_spec, Prim2SF_zero, Ea.
  - left. apply Prim2SF_inj.
    by rewrite FloatAxioms.add_spec, Prim2SF_zero, Ea.
Qed.

Lemma same_number_div (a b c : float) :
  same_number a b → same_number (a / c) (b / c).
Proof.
  intros [->|[Ha Hb]]; [by left|].
  unfold same_number, is_zero in *.
  rewrite !FloatAxioms.div_spec.
  destruct (Prim2SF a) as [sa| | |] eqn:Ea; try done.
  destruct (Prim2SF b) as [sb| | |] eqn:Eb; try done.
  destruct (Prim2SF c) as [sc|sc| |sc mc ec] eqn:Ec.
  - left. apply Prim2SF_inj. by rewrite !FloatAxioms.div_spec, Ea, Eb, Ec.
  - by right.
  - left. apply Prim2SF_inj. by rewrite !FloatAxioms.div_spec, Ea, Eb, Ec.
  - by right.
Qed.

Lemma fold_add_same_number (xs : list float) (a b : float) :
  same_number a b →
  same_number (fold_left PrimFloat.add xs a) (fold_left PrimFloat.add xs b).
Proof.
  revert a b. induction xs as [|x xs IH]; intros a b Hab; [done|].
  cbn [fold_left]. by apply IH, same_number_add.
Qed.

Lemma fsum_fold (xs : list float) :
  same_number (fsum xs) (fold_left PrimFloat.add xs 0%float).
Proof.
  destruct xs as [|x xs]; [by left|]. cbn [fsum fold_left].
  apply fold_add_same_number.
  destruct (same_number_add_zero_l x) as [->|[? ?]]; [by left|by right].
Qed.

Lemma same_number_sym (a b : float) : same_number a b → same_number b a.
Proof. intros [->|[? ?]]; [by left|by right]. Qed.

(** The sum with the empty cells counted as 0 is the sum of the other
    cells. *)
Lemma fold_add_skip_nan (xs : list float) (a b : float) :
  same_number a b →
  same_number
    (fold_left PrimFloat.add (map (λ x, if is_nan x then 0%float else x) xs) a)
    (fold_left PrimFloat.add (filter (λ x, is_nan x = false) xs) b).
Proof.
  revert a b. induction xs as [|x xs IH]; intros a b Hab; [done|].
  cbn [map fold_left]. rewrite filter_cons.
  destruct (is_nan x) eqn:Hx.
  - rewrite decide_False by done. apply IH.
    by apply (same_number_trans _ a); [apply same_number_add_zero_r|].
  - rewrite decide_True by done. cbn [fold_left].
    by apply IH, same_number_add.
Qed.

Lemma fsum_skip_nan (xs : list float) :
  same_number (fsum (map (λ x, if is_nan x then 0%float else x) xs))
              (fsum (filter (λ x, is_nan x = false) xs)).
Proof.
  eapply same_number_trans; [apply fsum_fold|].
  eapply same_number_trans; [|apply same_number_sym, fsum_fold].
  by apply fold_add_skip_nan, same_number_refl.
Qed.

(** The mean of a row is the mean of its cells that are not NaN. *)
Lemma mean_axis1_present (row : list float) :
  let present := filter (λ x, is_nan x = false) row in
  (present = [] → mean_axis1 row = nan)
  ∧ (present ≠ [] →
     same_number (mean_axis1 row) (mean_as_specified present)).
Proof.
  cbv zeta. unfold mean_axis1, mean_as_specified. split.
  - intros ->. cbn [length]. by rewrite decide_True.
  - intros Hne. rewrite decide_False
      by (by destruct (filter (λ x, is_nan x = false) row)).
    apply same_number_div, fsum_skip_nan.
Qed.

Lemma mean_axis1_formula (row : list float) :
  mean_axis1 row
  = if forallb is_nan row then nan
    else (fsum (map (λ x, if is_nan x then 0%float else x) row)
          / float_of_Z (Z.of_nat (length (filter (λ x, is_nan x = false) row))))%float.
Proof.
  unfold mean_axis1.
  assert (forallb is_nan row = true
          ↔ length (filter (λ x, is_nan x = false) row) = 0%nat) as Hall.
  { induction row as [|x row IH]; [done|]. cbn [forallb].
    rewrite filter_cons. destruct (is_nan x) eqn:Hx.
    - rewrite decide_False by done. by rewrite andb_true_l.
    - rewrite decide_True by done. by cbn. }
  destruct (decide (length (filter (λ x, is_nan x = false) row) = 0%nat))
    as [H0|Hn].
  - by rewrite (proj2 Hall H0).
  - destruct (forallb is_nan row); [|done]. by destruct Hn, Hall as [-> _].
Qed.

Section AttentionFacts.
Context `{PyRuntime}.

Lemma attention_index_unfold rings errors :
  attention_index rings errors =
  Return (0.5 * coerced_float rings - (2.8 * coerced_float errors) / 60)%float.
Proof.
  unfold attention_index, coerced_float.
  by destruct (py_float rings), (py_float errors).
Qed.

Lemma attention_column_total df rings errors :
  ∃ col, attention_column df rings errors = Return col
         ∧ length col = nrows df
         ∧ ∀ i, (i < nrows df)%nat →
             col !! i = Some (0.5 * coerced_float (row_get df i rings)
                              - (2.8 * coerced_float (row_get df i errors))
                                / 60)%float.
Proof.
  unfold attention_column.
  edestruct (apply_rows_total (A:=float) df) as (col & Hc & Hlen & Hrows);
    last first.
  - exists col. split; [exact Hc|]. split; [done|].
    intros i Hi. destruct (Hrows i Hi) as (v & Hv & Hs).
    simpl in Hs. rewrite attention_index_unfold in Hs.
    by injection Hs as <-.
  - intros i. simpl. rewrite attention_index_unfold. by eexists.
Qed.

Lemma attention_stage_total df :
  ∃ v1 v2 v3 v4 v5,
    attention_column df "–ò3-1–ö–æ–ª—å—Ü–∞" "–ò3-1–û—à–∏–±" = Return v1
    ∧ attention_column df "–ò3-2–ö–æ–ª—å—Ü–∞" "–ò3-2–û—à–∏–±" = Return v2
    ∧ attention_column df "–ò3-3–ö–æ–ª—å—Ü–∞" "–ò3-3–û—à–∏–±" = Return v3
    ∧ attention_column df "–ò3-4–ö–æ–ª—å—Ü–∞" "–ò3-4–û—à–∏–±" = Return v4
    ∧ attention_column df "–ò3-5–ö–æ–ª—å—Ü–∞" "–ò3-5–û—à–∏–±" = Return v5
    ∧ attention_stage df =
        let sred :=
          map mean_axis1 (rows_of (nrows df) [v1; v2; v3; v4; v5]) in
        Return ([v1; v2; v3; v4; v5], sred, map attention_quality sred).
Proof.
  unfold attention_stage.
  destruct (attention_column_total df "–ò3-1–ö–æ–ª—å—Ü–∞" "–ò3-1–û—à–∏–±")
    as (v1 & -> & _).
  destruct (attention_column_total df "–ò3-2–ö–æ–ª—å—Ü–∞" "–ò3-2–û—à–∏–±")
    as (v2 & -> & _).
  destruct (attention_column_total df "–ò3-3–ö–æ–ª—å—Ü–∞" "–ò3-3–û—à–∏–±")
    as (v3 & -> & _).
  destruct (attention_column_total df "–ò3-4–ö–æ–ª—å—Ü–∞" "–ò3-4–û—à–∏–±")
    as (v4 & -> & _).
  destruct (attention_column_total df "–ò3-5–ö–æ–ª—å—Ü–∞" "–ò3-5–û—à–∏–±")
    as (v5 & -> & _).
  by exists v1, v2, v3, v4, v5.
Qed.

(** Row [i] of the attention columns: the five indices are
    [attention_index] on the cells of the five minutes, the mean is
    taken over them and the quality is computed from the mean. *)
Lemma attention_stage_row df i :
  (i < nrows df)%nat →
  ∃ cols sred kach a1 a2 a3 a4 a5,
    attention_stage df = Return (cols, sred, kach)
    ∧ rows_of (nrows df) cols !! i = Some [a1; a2; a3; a4; a5]
    ∧ attention_index (row_get df i "–ò3-1–ö–æ–ª—å—Ü–∞")
                      (row_get df i "–ò3-1–û—à–∏–±") = Return a1
    ∧ attention_index (row_get df i "–ò3-2–ö–æ–ª—å—Ü–∞")
                      (row_get df i "–ò3-2–û—à–∏–±") = Return a2
    ∧ attention_index (row_get df i "–ò3-3–ö–æ–ª—å—Ü–∞")
                      (row_get df i "–ò3-3–û—à–∏–±") = Return a3
    ∧ attention_index (row_get df i "–ò3-4–ö–æ–ª—å—Ü–∞")
                      (row_get df i "–ò3-4–û—à–∏–±") = Return a4
    ∧ attention_index (row_get df i "–ò3-5–ö–æ–ª—å—Ü–∞")
                      (row_get df i "–ò3-5–û—à–∏–±") = Return a5
    ∧ sred !! i = Some (mean_axis1 [a1; a2; a3; a4; a5])
    ∧ kach !! i
      = Some (attention_quality (mean_axis1 [a1; a2; a3; a4; a5])).
Proof.
  intros Hi.
  destruct (attention_stage_total df)
    as (v1 & v2 & v3 & v4 & v5 & H1 & H2 & H3 & H4 & H5 & Hst).
  destruct (attention_column_total df "–ò3-1–ö–æ–ª—å—Ü–∞" "–ò3-1–û—à–∏–±")
    as (q1 & E1 & _ & R1).
  destruct (attention_column_total df "–ò3-2–ö–æ–ª—å—Ü–∞" "–ò3-2–û—à–∏–±")
    as (q2 & E2 & _ & R2).
  destruct (attention_column_total df "–ò3-3–ö–æ–ª—å—Ü–∞" "–ò3-3–û—à–∏–±")
    as (q3 & E3 & _ & R3).
  destruct (attention_column_total df "–ò3-4–ö–æ–ª—å—Ü–∞" "–ò3-4–û—à–∏–±")
    as (q4 & E4 & _ & R4).
  destruct (attention_column_total df "–ò3-5–ö–æ–ª—å—Ü–∞" "–ò3-5–û—à–∏–±")
    as (q5 & E5 & _ & R5).
  rewrite E1 in H1. rewrite E2 in H2. rewrite E3 in H3.
  rewrite E4 in H4. rewrite E5 in H5.
  injection H1 as ->. injection H2 as ->. injection H3 as ->.
  injection H4 as ->. injection H5 as ->.
  pose proof (R1 i Hi) as L1. pose proof (R2 i Hi) as L2.
  pose proof (R3 i Hi) as L3. pose proof (R4 i Hi) as L4.
  pose proof (R5 i Hi) as L5.
  eexists _, _, _, _, _, _, _, _. split; [exact Hst|].
  assert (Hrow : rows_of (nrows df) [v1; v2; v3; v4; v5] !! i
                 = Some [(0.5 * coerced_float (row_get df i "–ò3-1–ö–æ–ª—å—Ü–∞")
                          - (2.8 * coerced_float (row_get df i "–ò3-1–û—à–∏–±"))
                            / 60)%float;
                         (0.5 * coerced_float (row_get df i "–ò3-2–ö–æ–ª—å—Ü–∞")
                          - (2.8 * coerced_float (row_get df i "–ò3-2–û—à–∏–±"))
                            / 60)%float;
                         (0.5 * coerced_float (row_get df i "–ò3-3–ö–æ–ª—å—Ü–∞")
                          - (2.8 * coerced_float (row_get df i "–ò3-3–û—à–∏–±"))
                            / 60)%float;
                         (0.5 * coerced_float (row_get df i "–ò3-4–ö–æ–ª—å—Ü–∞")
                          - (2.8 * coerced_float (row_get df i "–ò3-4–û—à–∏–±"))
                            / 60)%float;
                         (0.5 * coerced_float (row_get df i "–ò3-5–ö–æ–ª—å—Ü–∞")
                          - (2.8 * coerced_float (row_get df i "–ò3-5–û—à–∏–±"))
                            / 60)%float]).
  { rewrite rows_of_lookup by done. simpl.
    by rewrite L1, L2, L3, L4, L5. }
  split; [exact Hrow|].
  rewrite !attention_index_unfold.
  do 5 (split; [reflexivity|]).
  split.
  - by rewrite list_lookup_fmap, Hrow.
  - by rewrite !list_lookup_fmap, Hrow.
Qed.

(** C3 (as amended).  The attention index of a pair is
    0.5*rings - (2.8*errors)/60 in float arithmetic, each argument being
    [float(.)] of the cell or 0 when that raises, so that the index of
    (10, 0) is 5.0 and that of (0, 60) is -2.8.  In [process_excel] the
    five indices of a row are this function on the cells of the five
    minutes.  The mean attention of a row is the mean of those of its
    five indices that are not NaN: their sum, a NaN cell adding 0, over
    their number; it is the mean of all five when none is NaN, and NaN
    when all are.  The attention quality of the row is 1 when its mean
    is at least 6 and otherwise the mean over 6 rounded to two
    decimals. *)
Theorem attention_spec (rings errors : pyval) :
  attention_index rings errors =
    Return (0.5 * coerced_float rings
            - (2.8 * coerced_float errors) / 60)%float
  ∧ (∀ e, py_float rings = Raise e → coerced_float rings = 0%float)
  ∧ (∀ e, py_float errors = Raise e → coerced_float errors = 0%float)
  ∧ attention_index (PyInt 10) (PyInt 0) = Return 5%float
  ∧ attention_index (PyInt 0) (PyInt 60) = Return (-2.8)%float
  ∧ (∀ x1 x2 x3 x4 x5,
       is_nan x1 = false → is_nan x2 = false → is_nan x3 = false →
       is_nan x4 = false → is_nan x5 = false →
       mean_axis1 [x1; x2; x3; x4; x5]
       = ((x1 + x2 + x3 + x4 + x5) / 5)%float)
  ∧ (∀ row, Forall (λ x, is_nan x = true) row → mean_axis1 row = nan)
  ∧ (∀ v, float_ge_Z v 6 = true → attention_quality v = 1%float)
  ∧ (∀ v, float_ge_Z v 6 = false →
       attention_quality v = round2 (v / 6)%float)
  ∧ (∀ df, ∃ cols sred,
       attention_stage df = Return (cols, sred, map attention_quality sred)
       ∧ length cols = 5%nat
       ∧ sred = map mean_axis1 (rows_of (nrows df) cols))
  ∧ (∀ row,
       mean_axis1 row
       = if forallb is_nan row then nan
         else (fsum (map (λ x, if is_nan x then 0%float else x) row)
               / float_of_Z
                   (Z.of_nat
                      (length (filter (λ x, is_nan x = false) row))))%float)
  ∧ (∀ row,
       let present := filter (λ x, is_nan x = false) row in
       (present = [] → mean_axis1 row = nan)
       ∧ (present ≠ [] →
          same_number (mean_axis1 row) (mean_as_specified present)))
  ∧ (∀ df i, (i < nrows df)%nat →
       ∃ cols sred kach a1 a2 a3 a4 a5,
         attention_stage df = Return (cols, sred, kach)
         ∧ rows_of (nrows df) cols !! i = Some [a1; a2; a3; a4; a5]
         ∧ attention_index (row_get df i "–ò3-1–ö–æ–ª—å—Ü–∞")
                           (row_get df i "–ò3-1–û—à–∏–±") = Return a1
         ∧ attention_index (row_get df i "–ò3-2–ö–æ–ª—å—Ü–∞")
                           (row_get df i "–ò3-2–û—à–∏–±") = Return a2
         ∧ attention_index (row_get df i "–ò3-3–ö–æ–ª—å—Ü–∞")
                           (row_get df i "–ò3-3–û—à–∏–±") = Return a3
         ∧ attention_index (row_get df i "–ò3-4–ö–æ–ª—å—Ü–∞")
                           (row_get df i "–ò3-4–û—à–∏–±") = Return a4
         ∧ attention_index (row_get df i "–ò3-5–ö–æ–ª—å—Ü–∞")
                           (row_get df i "–ò3-5–û—à–∏–±") = Return a5
         ∧ sred !! i = Some (mean_axis1 [a1; a2; a3; a4; a5])
         ∧ kach !! i
           = Some (attention_quality (mean_axis1 [a1; a2; a3; a4; a5]))).
Proof.
  split; [apply attention_index_unfold|].
  split; [by unfold coerced_float; intros e ->|].
  split; [by unfold coerced_float; intros e ->|].
  split; [by rewrite attention_index_unfold; vm_compute|].
  split; [by rewrite attention_index_unfold; vm_compute|].
  split; [apply mean_axis1_no_nan|].
  split; [apply mean_axis1_all_nan|].
  split; [by unfold attention_quality; intros v ->|].
  split; [by unfold attention_quality; intros v ->|].
  split.
  { intros df.
    destruct (attention_stage_total df)
      as (v1 & v2 & v3 & v4 & v5 & _ & _ & _ & _ & _ & Hst).
    eexists _, _. split; [exact Hst|]. done. }
  split; [apply mean_axis1_formula|].
  split; [apply mean_axis1_present|].
  apply attention_stage_row.
Qed.
End AttentionFacts.

(** C3, witness: ten rings with one error in each of the five minutes. *)
Lemma attention_spec_witness :
  mean_axis1 (replicate 5 (0.5 * 10 - (2.8 * 1) / 60)%float)
  = ((0.5 * 10 - (2.8 * 1) / 60) * 5 / 5)%float
  ∧ @attention_quality example_runtime 7.5%float = 1%float
  ∧ @attention_quality example_runtime 3%float = 0.5%float.
Proof.
  pose proof (@attention_spec example_runtime (PyInt 10) (PyInt 1))
    as (_ & _ & _ & _ & _ & Hmean & _ & Hhigh & Hlow & _).
  split; [|split].
  - simpl replicate. rewrite Hmean by (vm_compute; reflexivity).
    vm_compute. reflexivity.
  - apply Hhigh. vm_compute. reflexivity.
  - rewrite Hlow by (vm_compute; reflexivity). vm_compute. reflexivity.
Defined.

(** C3, counterexample: the rings cell of the first minute is empty
    (NaN), the other four minutes have ten rings and no error.  The
    first index is NaN, so the mean of the five indices is NaN; the code
    gives 5.0, the mean of the other four. *)
Lemma mean_attention_skips_nan :
  let empty := [PyFloat nan] in
  let ten := [PyInt 10] in
  let zero := [PyInt 0] in
  let df := {| nrows := 1;
               columns := list_to_map
                 [("–ò3-1–ö–æ–ª—å—Ü–∞", empty); ("–ò3-1–û—à–∏–±", zero);
                  ("–ò3-2–ö–æ–ª—å—Ü–∞", ten); ("–ò3-2–û—à–∏–±", zero);
                  ("–ò3-3–ö–æ–ª—å—Ü–∞", ten); ("–ò3-3–û—à–∏–±", zero);
                  ("–ò3-4–ö–æ–ª—å—Ü–∞", ten); ("–ò3-4–û—à–∏–±", zero);
                  ("–ò3-5–ö–æ–ª—å—Ü–∞", ten); ("–ò3-5–û—à–∏–±", zero)] |} in
  (λ r, (r.1.1, r.1.2)) <$> @attention_stage example_runtime df
  = Return ([[nan]; [5]; [5]; [5]; [5]], [5])%float
  ∧ is_nan (mean_as_specified [nan; 5; 5; 5; 5]%float) = true.
Proof. split; vm_compute; reflexivity. Qed.

(** ** Order of floats *)

Lemma SFcompare_antisym (x y : spec_float) :
  SFcompare y x = CompOpp <$> SFcompare x y.
Proof.
  destruct x as [sx|sx| |sx mx ex], y as [sy|sy| |sy my ey]; simpl;
    try (destruct sx); try (destruct sy); try reflexivity.
  - rewrite (Z.compare_antisym ey ex).
    destruct (ey ?= ex); simpl; try reflexivity.
    f_equal. rewrite CompOpp_involutive.
    by rewrite Pos.compare_cont_antisym.
  - rewrite (Z.compare_antisym ey ex).
    destruct (ey ?= ex); simpl; try reflexivity.
    f_equal. by rewrite Pos.compare_cont_antisym.
Qed.

Lemma is_nan_false_SF (f : float) :
  is_nan f = false → Prim2SF f ≠ S754_nan.
Proof.
  unfold is_nan, PrimFloat.is_nan. rewrite FloatAxioms.eqb_spec. intros Hn Hf.
  rewrite Hf in Hn. discriminate.
Qed.

Lemma SFcompare_is_Some (x y : spec_float) :
  x ≠ S754_nan → y ≠ S754_nan → ∃ c, SFcompare x y = Some c.
Proof.
  intros Hx Hy.
  destruct x as [sx|sx| |sx mx ex]; [| |congruence|];
    (destruct y as [sy|sy| |sy my ey]; [| |congruence|]);
    simpl; eexists; reflexivity.
Qed.

(** On floats that are not NaN, [<] is the negation of the converse
    [<=]. *)
Lemma float_ltb_negb_leb (x y : float) :
  is_nan x = false → is_nan y = false → (x <? y)%float = negb (y <=? x)%float.
Proof.
  intros Hx Hy. rewrite FloatAxioms.ltb_spec, FloatAxioms.leb_spec. unfold SFltb, SFleb.
  rewrite (SFcompare_antisym (Prim2SF x) (Prim2SF y)).
  destruct (SFcompare_is_Some (Prim2SF x) (Prim2SF y)) as [c ->];
    [by apply is_nan_false_SF..|].
  by destruct c.
Qed.

(** A float above 0.66 is not below 0.33. *)
Lemma float_above_not_below (f : float) :
  (0.66 <? f)%float = true → (f <? 0.33)%float = false.
Proof.
  rewrite !FloatAxioms.ltb_spec. unfold SFltb.
  replace (Prim2SF 0.66) with (S754_finite false 5944751508129055 (-53))
    by (vm_compute; reflexivity).
  replace (Prim2SF 0.33) with (S754_finite false 5944751508129055 (-54))
    by (vm_compute; reflexivity).
  destruct (Prim2SF f) as [s|s| |s m e]; cbv beta iota delta [SFcompare];
    try (destruct s); try done.
  destruct (Z.compare_spec (-53) e), (Z.compare_spec e (-54));
    try done; lia.
Qed.

(** ** [categorize] *)

Lemma level_column_total (col : list float) :
  ∃ levels, level_column col = Return levels
            ∧ Forall2 (λ v l, categorize (PyFloat v) = Return l) col levels.
Proof.
  unfold level_column.
  apply (sequence_map_total (λ v, categorize (PyFloat v))).
  intros v. unfold categorize. simpl.
  destruct (is_nan v); [by eexists|]. simpl.
  destruct (v <? 0.33)%float; [by eexists|]. simpl.
  destruct (v <=? 0.66)%float; by eexists.
Qed.

(** ** The derived columns of a table *)

Lemma bind_Return {A B} (m : result A) (f : A → result B) (b : B) :
  m ≫= f = Return b → ∃ a, m = Return a ∧ f a = Return b.
Proof. destruct m as [a|e]; [by exists a|discriminate]. Qed.

Ltac bind_inv H :=
  repeat (cbv zeta in H;
          let a := fresh "a" in
          let Ha := fresh "Ha" in
          apply bind_Return in H as (a & Ha & H)).

Section ScoreFrameFacts.
Context `{PyRuntime}.

(** The three level columns of a scored table are [categorize] on the
    three composite columns. *)
Lemma score_frame_levels df sc :
  score_frame df = Return sc →
  level_column (Kognitivnoe_razvitie sc)
    = Return (Kognitivnoe_razvitie_uroven sc)
  ∧ level_column (Voobrazhenie sc) = Return (Voobrazhenie_itog_uroven sc)
  ∧ level_column (EmSotsIntellekt sc) = Return (EmSotsIntellekt_uroven sc).
Proof.
  intros Hsc. unfold score_frame in Hsc. bind_inv Hsc.
  injection Hsc as <-. cbv [Kognitivnoe_razvitie Voobrazhenie EmSotsIntellekt
    Kognitivnoe_razvitie_uroven Voobrazhenie_itog_uroven
    EmSotsIntellekt_uroven]. done.
Qed.
End ScoreFrameFacts.

(** ** Absent columns *)

Section MissingColumns.
Context `{PyRuntime}.

Lemma rename_absent (raw : frame) (short : string) :
  (∀ k, is_Some (columns raw !! k) → mapping_get COLUMN_MAPPING k ≠ short) →
  columns (rename raw) !! short = None.
Proof.
  intros Hraw. unfold rename. cbn [columns]. unfold kmap.
  apply not_elem_of_list_to_map_1. intros Hin.
  apply list_elem_of_fmap in Hin as ([k c] & -> & Hin).
  apply list_elem_of_fmap in Hin as ([k' c'] & [= -> ->] & Hin).
  apply elem_of_map_to_list in Hin. cbn [fst] in *.
  by apply (Hraw k'); [eexists|].
Qed.

Lemma getitem_absent df key :
  columns df !! key = None → getitem df key = Raise (KeyError key).
Proof. unfold getitem. by intros ->. Qed.

Lemma ratio_column_absent df key d :
  columns df !! key = None → ratio_column df key d = Raise (KeyError key).
Proof. intros Hk. unfold ratio_column. by rewrite getitem_absent. Qed.

Lemma divided_column_absent df key d :
  columns df !! key = None →
  getitem df key ≫= (λ c, series_div c d) = Raise (KeyError key).
Proof. intros Hk. by rewrite getitem_absent. Qed.

(** One step of [score_frame]: the next column either raises, or is
    there and the routine goes on. *)
Ltac raise_step :=
  lazymatch goal with
  | |- ∃ e, ?m ≫= _ = Raise e =>
    let E := fresh "E" in
    destruct m eqn:E;
    [ try (rewrite ratio_column_absent in E by assumption; discriminate);
      try (rewrite divided_column_absent in E by assumption; discriminate);
      cbn [mbind result_bind]; cbv zeta
    | by eexists ]
  end.

Lemma score_frame_raises df key :
  key ∈ direct_keys → columns df !! key = None →
  ∃ e, score_frame df = Raise e.
Proof.
  intros Hin Hk. unfold score_frame.
  destruct (labyrinth_stage_total df)
    as (p1 & p2 & p3 & p4 & p5 & _ & _ & _ & _ & _ & ->).
  destruct (attention_stage_total df)
    as (v1 & v2 & v3 & v4 & v5 & _ & _ & _ & _ & _ & ->).
  cbn [mbind result_bind]; cbv zeta.
  unfold direct_keys in Hin. rewrite !elem_of_cons, elem_of_nil in Hin.
  repeat (destruct Hin as [->|Hin]; [repeat raise_step|]); [done].
Qed.

Lemma score_frame_first_key df :
  columns df !! "–ò1-2–°–≤—è–∑–Ω" = None →
  score_frame df = Raise (KeyError "–ò1-2–°–≤—è–∑–Ω").
Proof.
  intros Hk. unfold score_frame.
  destruct (labyrinth_stage_total df)
    as (p1 & p2 & p3 & p4 & p5 & _ & _ & _ & _ & _ & ->).
  destruct (attention_stage_total df)
    as (v1 & v2 & v3 & v4 & v5 & _ & _ & _ & _ & _ & ->).
  cbn [mbind result_bind]; cbv zeta.
  rewrite (ratio_column_absent df _ 5 Hk). reflexivity.
Qed.

(** Absent columns.  For every table, the labyrinth scores and the
    attention indices are computed without raising whichever columns
    are absent: the cell of an absent column is [None], an absent time
    gives the score 0, an absent error count counts as 0, and an absent
    rings or errors count enters the attention index as 0.  The
    criterion ratios and the composites built on the subtest sums and
    observation scores read their columns by direct indexing: when one
    of these columns is absent the scoring raises (a [KeyError] for the
    first of them), and no table is produced. *)
Theorem missing_columns (df : frame) :
  (∃ cols an, labyrinth_stage df = Return (cols, an))
  ∧ (∃ cols sred kach, attention_stage df = Return (cols, sred, kach))
  ∧ (∀ key i, columns df !! key = None → row_get df i key = PyNone)
  ∧ (∀ errors reached limit, calc_lab PyNone errors reached limit = Return 0)
  ∧ coerced_errors PyNone = 0
  ∧ coerced_float PyNone = 0%float
  ∧ attention_index PyNone PyNone = Return 0%float
  ∧ (∀ key, key ∈ direct_keys → columns df !! key = None →
       ∃ e, score_frame df = Raise e)
  ∧ (columns df !! "–ò1-2–°–≤—è–∑–Ω" = None →
       score_frame df = Raise (KeyError "–ò1-2–°–≤—è–∑–Ω"))
  ∧ (∀ raw short,
       (∀ k, is_Some (columns raw !! k) →
             mapping_get COLUMN_MAPPING k ≠ short) →
       columns (rename raw) !! short = None).
Proof.
  split.
  { destruct (labyrinth_stage_total df)
      as (p1 & p2 & p3 & p4 & p5 & _ & _ & _ & _ & _ & Hst).
    by eexists _, _. }
  split.
  { destruct (attention_stage_total df)
      as (v1 & v2 & v3 & v4 & v5 & _ & _ & _ & _ & _ & Hst).
    by eexists _, _, _. }
  split; [by intros key i Hk; unfold row_get; rewrite Hk|].
  split; [done|].
  split; [done|].
  split; [done|].
  split; [by rewrite attention_index_unfold; vm_compute|].
  split; [apply score_frame_raises|].
  split; [apply score_frame_first_key|apply rename_absent].
Qed.
End MissingColumns.

(** On the table without the column of the first criterion the first
    two stages succeed and the scoring raises. *)
Lemma missing_columns_witness :
  row_get frame_without_svyazn 0 "–ò5-2–í—Ä–µ–º—è" = PyNone
  ∧ (∃ e, @score_frame example_runtime frame_without_svyazn = Raise e)
  ∧ @score_frame example_runtime frame_without_svyazn
    = Raise (KeyError "–ò1-2–°–≤—è–∑–Ω").
Proof.
  pose proof (@missing_columns example_runtime frame_without_svyazn)
    as (_ & _ & Hget & _ & _ & _ & _ & Hraise & Hfirst & _).
  split; [|split].
  - apply Hget. vm_compute. reflexivity.
  - apply (Hraise "–ò1-2–°–≤—è–∑–Ω").
    + apply list_elem_of_here.
    + vm_compute. reflexivity.
  - apply Hfirst. vm_compute. reflexivity.
Defined.

(** C4.  An absent criterion column makes the scoring raise.  On a
    table that has every column the scoring reads but the one of the
    first criterion (line 216), the labyrinth and attention stages go
    through as they do for their own absent columns (lines 198-211 read
    the row with [.get], and the mazes without columns score 0), but
    line 216 indexes the table directly and raises [KeyError]: the
    missing value is not treated as zero, and no table is produced. *)
Lemma missing_criterion_column_raises :
  columns frame_without_svyazn !! "–ò1-2–°–≤—è–∑–Ω" = None
  ∧ fst <$> @labyrinth_stage example_runtime frame_without_svyazn
    = Return [[2]; [0]; [0]; [0]; [0]]
  ∧ ratio_column frame_without_svyazn "–ò1-2–°–≤—è–∑–Ω" 5
    = Raise (KeyError "–ò1-2–°–≤—è–∑–Ω")
  ∧ (∃ cols sred kach,
       @attention_stage example_runtime frame_without_svyazn
       = Return (cols, sred, kach))
  ∧ (∃ sc, @score_frame example_runtime (frame_with_v1 (PyInt 1))
           = Return sc)
  ∧ @score_frame example_runtime frame_without_svyazn
    = Raise (KeyError "–ò1-2–°–≤—è–∑–Ω").
Proof.
  split; [by vm_compute|].
  split; [by vm_compute|].
  split; [by vm_compute|].
  split; [eexists _, _, _; vm_compute; reflexivity|].
  split; [eexists; vm_compute; reflexivity|].
  by vm_compute.
Qed.

(** The same from a raw sheet: with every header of the mapping the
    scoring succeeds; without the header of the first criterion the
    renamed table has no such column and the scoring raises. *)
Example raw_sheet_scoring :
  (∃ sc, @score_frame example_runtime (rename (raw_sheet_without ""))
         = Return sc)
  ∧ columns (rename (raw_sheet_without "–ò1-2–°–≤—è–∑–Ω")) !! "–ò1-2–°–≤—è–∑–Ω" = None
  ∧ @score_frame example_runtime (rename (raw_sheet_without "–ò1-2–°–≤—è–∑–Ω"))
    = Raise (KeyError "–ò1-2–°–≤—è–∑–Ω").
Proof.
  split; [|split].
  - eexists. vm_compute. reflexivity.
  - vm_compute. reflexivity.
  - vm_compute. reflexivity.
Qed.

(** An int compares with the two thresholds as it compares with 0. *)
Lemma float_gt_Z_033 (z : Z) : float_gt_Z 0.33 z = (z <=? 0).
Proof.
  unfold float_gt_Z, float_cmp_Z.
  replace (Prim2SF 0.33) with (S754_finite false 5944751508129055 (-54))
    by (vm_compute; reflexivity).
  cbv beta iota. change (0 <=? -54) with false. cbv iota.
  change (2 ^ (- -54)) with 18014398509481984.
  destruct (Z.leb_spec z 0),
    (Z.compare_spec 5944751508129055 (z * 18014398509481984));
    try done; lia.
Qed.

Lemma float_ge_Z_066 (z : Z) : float_ge_Z 0.66 z = (z <=? 0).
Proof.
  unfold float_ge_Z, float_cmp_Z.
  replace (Prim2SF 0.66) with (S754_finite false 5944751508129055 (-53))
    by (vm_compute; reflexivity).
  cbv beta iota. change (0 <=? -53) with false. cbv iota.
  change (2 ^ (- -53)) with 9007199254740992.
  destruct (Z.leb_spec z 0),
    (Z.compare_spec 5944751508129055 (z * 9007199254740992));
    try done; lia.
Qed.

Lemma categorize_int (z : Z) :
  categorize (PyInt z) = Return (Some (if z <=? 0 then Below else Above)).
Proof.
  unfold categorize. cbn [pd_isna py_lt_float py_le_float mbind result_bind].
  rewrite float_gt_Z_033, float_ge_Z_066. by destruct (z <=? 0).
Qed.

Section CategorizeClaims.
Context `{PyRuntime}.

(** C2.  [categorize] returns [None], without raising, for [None] and
    for NaN; a float [v] that is not NaN gets the level below the norm
    when [v < 0.33], the normative level when [0.33 <= v <= 0.66] and
    the level above the norm when [v > 0.66], and these three cases
    cover every such [v]; an int is below the norm up to 0 and above it
    from 1 on; 0.33 and 0.66 are normative.  On a column it
    is applied cell by cell, and [process_excel] applies it to each of
    the three composite columns separately. *)
Theorem categorize_spec :
  categorize PyNone = Return None
  ∧ (∀ f, is_nan f = true → categorize (PyFloat f) = Return None)
  ∧ (∀ f, is_nan f = false →
       ((f <? 0.33)%float = true →
        categorize (PyFloat f) = Return (Some Below))
       ∧ ((0.33 <=? f)%float = true → (f <=? 0.66)%float = true →
          categorize (PyFloat f) = Return (Some Normative))
       ∧ ((0.66 <? f)%float = true →
          categorize (PyFloat f) = Return (Some Above))
       ∧ ((f <? 0.33)%float = true
          ∨ ((0.33 <=? f)%float = true ∧ (f <=? 0.66)%float = true)
          ∨ (0.66 <? f)%float = true))
  ∧ (∀ z, categorize (PyInt z)
          = Return (Some (if z <=? 0 then Below else Above)))
  ∧ categorize (PyFloat 0.32) = Return (Some Below)
  ∧ categorize (PyFloat 0.33) = Return (Some Normative)
  ∧ categorize (PyFloat 0.66) = Return (Some Normative)
  ∧ categorize (PyFloat 0.67) = Return (Some Above)
  ∧ (∀ col, ∃ levels,
       level_column col = Return levels
       ∧ Forall2 (λ v l, categorize (PyFloat v) = Return l) col levels)
  ∧ (∀ df sc, score_frame df = Return sc →
       level_column (Kognitivnoe_razvitie sc)
         = Return (Kognitivnoe_razvitie_uroven sc)
       ∧ level_column (Voobrazhenie sc)
         = Return (Voobrazhenie_itog_uroven sc)
       ∧ level_column (EmSotsIntellekt sc)
         = Return (EmSotsIntellekt_uroven sc)).
Proof.
  split; [done|].
  split; [by intros f Hf; unfold categorize; simpl; rewrite Hf|].
  split.
  { intros f Hf.
    assert (H33 : (f <? 0.33)%float = negb (0.33 <=? f)%float)
      by (by apply float_ltb_negb_leb).
    assert (H66 : (0.66 <? f)%float = negb (f <=? 0.66)%float)
      by (by apply float_ltb_negb_leb).
    unfold categorize. simpl. rewrite Hf. simpl.
    split; [by intros ->|].
    split.
    { intros Hge Hle. rewrite H33, Hge. simpl. by rewrite Hle. }
    split.
    { intros Hgt. rewrite (float_above_not_below f Hgt). simpl.
      rewrite Hgt in H66. by destruct (f <=? 0.66)%float. }
    rewrite H66, H33.
    destruct (0.33 <=? f)%float, (f <=? 0.66)%float; simpl; auto. }
  split; [apply categorize_int|].
  split; [by vm_compute|].
  split; [by vm_compute|].
  split; [by vm_compute|].
  split; [by vm_compute|].
  split; [apply level_column_total|].
  apply score_frame_levels.
Qed.
End CategorizeClaims.

(** C2, witness: the value 0.5. *)
Lemma categorize_spec_witness :
  categorize (PyFloat 0.5) = Return (Some Normative).
Proof.
  pose proof (@categorize_spec example_runtime) as (_ & _ & Hnum & _).
  destruct (Hnum 0.5%float) as (_ & Hmid & _).
  - vm_compute. reflexivity.
  - apply Hmid; vm_compute; reflexivity.
Defined.


(** ** Counting *)

Lemma count_of_map {A} `{EqDecision A} (f : A → nat) (l : A) (ks : list A) :
  count_of l (map (λ v, (v, f v)) ks)
  = if decide (l ∈ ks) then Some (f l) else None.
Proof.
  induction ks as [|k ks IH].
  - destruct (decide (l ∈ [])) as [Hin|_]; [|done].
    by apply elem_of_nil in Hin.
  - cbn [map count_of]. destruct (decide (k = l)) as [->|Hne].
    + destruct (decide (l ∈ l :: ks)) as [_|Hnin]; [done|].
      destruct Hnin. apply list_elem_of_here.
    + rewrite IH.
      destruct (decide (l ∈ ks)) as [Hin|Hnin],
               (decide (l ∈ k :: ks)) as [Hin'|Hnin']; try done.
      * destruct Hnin'. by apply list_elem_of_further.
      * apply elem_of_cons in Hin' as [->|Hin']; [done|].
        by destruct Hnin.
Qed.

Lemma filter_omap_length {A} `{EqDecision A} (l : A) (col : list (option A)) :
  length (filter (λ x, x = l) (omap id col))
  = length (filter (λ x, x = Some l) col).
Proof.
  induction col as [|[a|] col IH]; [done| |].
  - change (omap id (Some a :: col)) with (a :: omap id col).
    rewrite !filter_cons.
    destruct (decide (a = l)) as [->|Hne].
    + rewrite decide_True by done. cbn [length]. by rewrite IH.
    + rewrite decide_False by congruence. exact IH.
  - change (omap id (None :: col)) with (omap id col).
    rewrite filter_cons, decide_False by done. exact IH.
Qed.

Lemma filter_not_elem_of {A} `{EqDecision A} (l : A) (vals : list A) :
  l ∉ vals → filter (λ x, x = l) vals = [].
Proof.
  induction vals as [|v vals IH]; [done|].
  rewrite not_elem_of_cons. intros [Hne Hnin].
  rewrite filter_cons, decide_False by done. by apply IH.
Qed.

(** The count of a value in [value_counts], 0 for a value that does not
    occur, is the number of cells that hold it. *)
Lemma value_counts_count {A} `{EqDecision A} (l : A) (col : list (option A)) :
  default 0%nat (count_of l (value_counts col))
  = length (filter (λ x, x = Some l) col).
Proof.
  unfold value_counts.
  rewrite (count_of_map (λ v, length (filter (λ x, x = v) (omap id col)))).
  destruct (decide (l ∈ remove_dups (omap id col))) as [Hin|Hnin]; simpl.
  - apply filter_omap_length.
  - rewrite elem_of_remove_dups in Hnin.
    rewrite <- filter_omap_length. by rewrite filter_not_elem_of.
Qed.

Lemma level_counts_total (levels : list (option level)) :
  (length (filter (λ x, x = Some Below) levels)
   + length (filter (λ x, x = Some Normative) levels)
   + length (filter (λ x, x = Some Above) levels)
   + length (filter (λ x, x = None) levels))%nat
  = length levels.
Proof.
  induction levels as [|[[]|] levels IH]; [done|..];
    rewrite !filter_cons; simpl;
    repeat (first [rewrite decide_True by done
                  |rewrite decide_False by done]);
    simpl; lia.
Qed.

(** ** Level distribution *)

(** C5 (as amended).  The level table of a metric has exactly three
    rows, for the levels below the norm, normative and above the norm,
    in that order; the count of a row is the number of records with
    that level (0 when there is none) and its share is that count over
    the number of all records.  The three counts and the number of
    records without a level add up to the number of records: the counts
    sum to the number of records whose level is defined, hence to the
    total exactly when no record lacks a level. *)
Theorem level_table_spec (levels : list (option level)) :
  let total := length levels in
  let n := λ l, length (filter (λ x, x = Some l) levels) in
  let missing := length (filter (λ x, x = None) levels) in
  level_table levels
  = [(Below, n Below, share (n Below) total);
     (Normative, n Normative, share (n Normative) total);
     (Above, n Above, share (n Above) total)]
  ∧ (∀ c, share c total
          = (float_of_Z (Z.of_nat c) / float_of_Z (Z.of_nat total))%float)
  ∧ (table_children (level_table levels) + missing)%nat = total
  ∧ (table_children (level_table levels) = total ↔ missing = 0%nat)
  ∧ (∀ sc, level_tables sc
           = [level_table (Kognitivnoe_razvitie_uroven sc);
              level_table (Voobrazhenie_itog_uroven sc);
              level_table (EmSotsIntellekt_uroven sc)]).
Proof.
  intros total n missing.
  assert (Htab : level_table levels
    = [(Below, n Below, share (n Below) total);
       (Normative, n Normative, share (n Normative) total);
       (Above, n Above, share (n Above) total)]).
  { unfold level_table, reindex. cbn [map fst snd].
    by rewrite !value_counts_count. }
  assert (Hsum : (table_children (level_table levels) + missing)%nat = total).
  { rewrite Htab. unfold table_children. cbn [map sum_list fst snd].
    pose proof (level_counts_total levels). subst n missing total.
    cbv beta. unfold id. lia. }
  split; [exact Htab|]. split; [done|]. split; [exact Hsum|].
  split; [lia|done].
Qed.

(** C5, witness: four records, one of them without a level. *)
Lemma level_table_spec_witness :
  level_table [Some Above; None; Some Above; Some Below]
  = [(Below, 1%nat, 0.25%float); (Normative, 0%nat, 0%float);
     (Above, 2%nat, 0.5%float)]
  ∧ table_children (level_table [Some Above; Some Below]) = 2%nat.
Proof.
  split.
  - pose proof (level_table_spec [Some Above; None; Some Above; Some Below])
      as (Htab & _).
    rewrite Htab. vm_compute. reflexivity.
  - pose proof (level_table_spec [Some Above; Some Below])
      as (_ & _ & _ & Hall & _).
    apply Hall. vm_compute. reflexivity.
Defined.

(** C5, counterexample: one record whose first imagination scale is
    empty (NaN).  Its imagination composite is NaN and its level is
    [None]; the three counts of the table sum to 0, not to the number of
    records, 1. *)
Lemma level_counts_skip_undefined :
  Voobrazhenie_itog_uroven
    <$> @score_frame example_runtime (frame_with_v1 (PyFloat nan))
  = Return [None]
  ∧ level_table [None]
    = [(Below, 0%nat, 0%float); (Normative, 0%nat, 0%float);
       (Above, 0%nat, 0%float)]
  ∧ table_children (level_table [None]) = 0%nat
  ∧ length [@None level] = 1%nat.
Proof. repeat split; vm_compute; reflexivity. Qed.

(** ** Order of strings and of sort keys *)

Lemma str_ltb_irrefl (s : pystr) : str_ltb s s = false.
Proof.
  induction s as [|a s IH]; [done|]. simpl.
  by rewrite N.ltb_irrefl, N.eqb_refl, IH.
Qed.

Lemma str_ltb_trans (s t u : pystr) :
  str_ltb s t = true → str_ltb t u = true → str_ltb s u = true.
Proof.
  revert t u. induction s as [|a s IH]; intros [|b t] [|c u]; simpl;
    try done.
  rewrite !orb_true_iff, !andb_true_iff, !N.ltb_lt, !N.eqb_eq.
  intros [Hab|[-> Hst]] [Hbc|[-> Htu]].
  - left. lia.
  - by left.
  - by left.
  - right. split; [done|]. by eapply IH.
Qed.

Lemma str_ltb_total (s t : pystr) :
  str_ltb s t = false → str_ltb t s = false → s = t.
Proof.
  revert t. induction s as [|a s IH]; intros [|b t]; simpl; try done.
  rewrite !orb_false_iff, !andb_false_iff, !N.ltb_ge, !N.eqb_neq.
  intros [Hab Hs] [Hba Ht].
  assert (a = b) as -> by lia.
  f_equal. apply IH.
  - by destruct Hs.
  - by destruct Ht.
Qed.

Lemma key_leb_total (a b : Z * pystr) :
  key_leb a b = true ∨ key_leb b a = true.
Proof.
  unfold key_leb. destruct a as [ra sa], b as [rb sb]; simpl.
  destruct (Z.ltb_spec ra rb); [by left|].
  destruct (Z.ltb_spec rb ra); [by right|].
  assert (ra = rb) as -> by lia. rewrite Z.eqb_refl. simpl.
  destruct (str_ltb sb sa) eqn:Hba; [|by left].
  right. destruct (str_ltb sa sb) eqn:Hab; [|done].
  pose proof (str_ltb_trans _ _ _ Hab Hba) as Hirr.
  by rewrite str_ltb_irrefl in Hirr.
Qed.

Lemma key_leb_trans (a b c : Z * pystr) :
  key_leb a b = true → key_leb b c = true → key_leb a c = true.
Proof.
  unfold key_leb. destruct a as [ra sa], b as [rb sb], c as [rc sc]; simpl.
  rewrite !orb_true_iff, !andb_true_iff, !Z.ltb_lt, !Z.eqb_eq,
    !negb_true_iff.
  intros [Hab|[-> Hs1]] [Hbc|[-> Hs2]].
  - left. lia.
  - by left.
  - by left.
  - right. split; [done|].
    destruct (str_ltb sc sa) eqn:Hca; [|done].
    destruct (str_ltb sb sc) eqn:Hbc.
    + by rewrite (str_ltb_trans _ _ _ Hbc Hca) in Hs1.
    + rewrite (str_ltb_total _ _ Hbc Hs2) in Hs1. congruence.
Qed.

#[global] Instance town_le_total : Total town_le.
Proof. intros r1 r2. apply key_leb_total. Qed.

#[global] Instance town_le_trans : Transitive town_le.
Proof. intros r1 r2 r3. apply key_leb_trans. Qed.

(** ** [sort_key_town] *)

Lemma sort_key_town_name (s : pystr) :
  (sort_key_town (Some s)).2 = strip s.
Proof. unfold sort_key_town. by repeat case_match. Qed.

Lemma sort_key_town_rank (s : pystr) :
  0 ≤ (sort_key_town (Some s)).1 ≤ 6.
Proof. unfold sort_key_town. repeat case_match; simpl; lia. Qed.

(** The ranks of [sort_key_town]: 0 exactly when the stripped name is
    the literal of line 155; 1 for every other name whose stripped form
    starts with the literal of line 157; a missing name has the key
    (999, ""), which sorts after the key of every name, whose rank is
    at most 6; and two names of equal rank are ordered as their
    stripped forms are as strings. *)
Lemma sort_key_town_cases :
  sort_key_town None = (999, [])
  ∧ (∀ s, (sort_key_town (Some s)).1 = 0 ↔ strip s = G_MOSKVA)
  ∧ (∀ s, strip s ≠ G_MOSKVA → startswith (strip s) G_ = true →
       sort_key_town (Some s) = (1, strip s))
  ∧ (∀ s, 0 ≤ (sort_key_town (Some s)).1 ≤ 6
          ∧ (sort_key_town (Some s)).2 = strip s)
  ∧ (∀ s, key_leb (sort_key_town (Some s)) (sort_key_town None) = true
          ∧ key_leb (sort_key_town None) (sort_key_town (Some s)) = false)
  ∧ (∀ s t, (sort_key_town (Some s)).1 = (sort_key_town (Some t)).1 →
       key_leb (sort_key_town (Some s)) (sort_key_town (Some t))
       = negb (str_ltb (strip t) (strip s))).
Proof.
  split; [done|].
  split.
  { intros s. unfold sort_key_town, str_eqb.
    destruct (bool_decide_reflect (strip s = G_MOSKVA)) as [Heq|Hne].
    - done.
    - split; [|done]. repeat case_match; simpl; lia. }
  split.
  { intros s Hne Hg. unfold sort_key_town, str_eqb.
    rewrite bool_decide_eq_false_2 by done. by rewrite Hg. }
  split.
  { intros s. split; [apply sort_key_town_rank|apply sort_key_town_name]. }
  split.
  { intros s. pose proof (sort_key_town_rank s) as Hr.
    destruct (sort_key_town (Some s)) as [r name]. simpl in Hr.
    unfold key_leb. cbn [sort_key_town fst snd].
    destruct (Z.ltb_spec r 999); [|lia].
    split; [done|].
    destruct (Z.ltb_spec 999 r); [lia|].
    destruct (Z.eqb_spec 999 r); [lia|done]. }
  intros s t Hrank. unfold key_leb.
  rewrite Hrank, Z.ltb_irrefl, Z.eqb_refl, !sort_key_town_name. done.
Qed.

(** Every literal of lines 155-165 begins with the code point 8211 or
    8212 (the first byte of a Cyrillic letter in UTF-8, read as Mac OS
    Roman): a name whose stripped form begins with neither has the
    rank 6. *)
Lemma sort_key_town_other (s : pystr) :
  (∀ c, head (strip s) = Some c → c ≠ 8211%N ∧ c ≠ 8212%N) →
  sort_key_town (Some s) = (6, strip s).
Proof.
  intros Hhd. unfold sort_key_town, str_eqb.
  destruct (strip s) as [|c r] eqn:Hs; [by vm_compute|].
  destruct (Hhd c eq_refl) as [H1 H2].
  rewrite bool_decide_eq_false_2
    by (unfold G_MOSKVA; intros [= ? _]; congruence).
  unfold G_, RP_, P_, POS_, S_, D_, ST_. cbn [startswith].
  destruct (N.eqb_spec 8211 c) as [<-|_]; [done|].
  destruct (N.eqb_spec 8212 c) as [<-|_]; [done|].
  done.
Qed.

(** C10.  The capital and the city prefix are not recognised.  The
    literals of lines 155-165 are not Cyrillic text but its
    double-encoded form, so the name "г.Москва" does not get the top
    rank 0 and a name that starts with "г." does not get the rank 1:
    every name written in Cyrillic gets the last rank 6, and the
    capital sorts after "г.Клин", by name alone.  Only the stored
    literal itself gets the rank 0. *)
Theorem sort_key_town_cyrillic :
  sort_key_town (Some (py "г.Москва")) = (6, py "г.Москва")
  ∧ sort_key_town (Some (py "г. Москва")) = (6, py "г. Москва")
  ∧ sort_key_town (Some (py "г.Тула")) = (6, py "г.Тула")
  ∧ sort_key_town (Some (py "с.Ивановка")) = (6, py "с.Ивановка")
  ∧ key_leb (sort_key_town (Some (py "г.Клин")))
            (sort_key_town (Some (py "г.Москва"))) = true
  ∧ key_leb (sort_key_town (Some (py "г.Москва")))
            (sort_key_town (Some (py "г.Клин"))) = false
  ∧ (∀ s, (∀ c, head (strip s) = Some c → c ≠ 8211%N ∧ c ≠ 8212%N) →
          sort_key_town (Some s) = (6, strip s))
  ∧ py "г.Москва" ≠ G_MOSKVA
  ∧ sort_key_town (Some G_MOSKVA) = (0, G_MOSKVA).
Proof.
  split; [by vm_compute|].
  split; [by vm_compute|].
  split; [by vm_compute|].
  split; [by vm_compute|].
  split; [by vm_compute|].
  split; [by vm_compute|].
  split; [apply sort_key_town_other|].
  split; by vm_compute.
Qed.

(** ** [extract_town] *)

Lemma lazy_group_app (g post : pystr) :
  41%N ∉ g → 10%N ∉ g → lazy_group (g ++ 41%N :: post) = Some g.
Proof.
  induction g as [|c g IH]; [done|].
  rewrite !not_elem_of_cons. intros [Hc41 Hg41] [Hc10 Hg10].
  cbn [app lazy_group].
  destruct (N.eqb_spec c 41); [congruence|].
  destruct (N.eqb_spec c 10); [congruence|].
  by rewrite IH.
Qed.

Lemma search_parens_skip (pre rest : pystr) :
  40%N ∉ pre → search_parens (pre ++ rest) = search_parens rest.
Proof.
  induction pre as [|c pre IH]; [done|].
  rewrite not_elem_of_cons. intros [Hc Hpre].
  cbn [app search_parens].
  destruct (N.eqb_spec c 40); [congruence|]. by apply IH.
Qed.

Lemma search_parens_no_open (s : pystr) :
  40%N ∉ s → search_parens s = None.
Proof.
  intros Hs. rewrite <- (app_nil_r s). by rewrite search_parens_skip.
Qed.

Lemma lazy_group_no_close (s : pystr) : 41%N ∉ s → lazy_group s = None.
Proof.
  induction s as [|c s IH]; [done|].
  rewrite not_elem_of_cons. intros [Hc Hs]. cbn [lazy_group].
  destruct (N.eqb_spec c 41); [congruence|].
  destruct (c =? 10)%N; [done|]. by rewrite IH.
Qed.

Lemma search_parens_no_close (s : pystr) :
  41%N ∉ s → search_parens s = None.
Proof.
  induction s as [|c s IH]; [done|].
  rewrite not_elem_of_cons. intros [Hc Hs]. cbn [search_parens].
  rewrite lazy_group_no_close by done. rewrite IH by done.
  by destruct (c =? 40)%N.
Qed.

Lemma lazy_group_one_line (s : pystr) :
  10%N ∉ s → lazy_group s = until_close s.
Proof.
  induction s as [|c s IH]; [done|].
  rewrite not_elem_of_cons. intros [Hc Hs]. cbn [lazy_group until_close].
  destruct (N.eqb_spec c 10); [congruence|]. by rewrite IH.
Qed.

Lemma search_parens_one_line (s : pystr) :
  10%N ∉ s → search_parens s = first_group s.
Proof.
  induction s as [|c s IH]; [done|].
  rewrite not_elem_of_cons. intros [Hc Hs]. cbn [search_parens first_group].
  by rewrite lazy_group_one_line, IH.
Qed.

Lemma split_sep_hd_no_sep (sep : N) (g : pystr) :
  sep ∉ g → hd [] (split_sep sep g) = g.
Proof.
  induction g as [|c g IH]; [done|].
  rewrite not_elem_of_cons. intros [Hc Hg]. cbn [split_sep].
  destruct (N.eqb_spec c sep); [congruence|].
  specialize (IH Hg). destruct (split_sep sep g); simpl in *; by subst.
Qed.

Lemma split_sep_hd_sep (sep : N) (a b : pystr) :
  sep ∉ a → hd [] (split_sep sep (a ++ sep :: b)) = a.
Proof.
  induction a as [|c a IH].
  - intros _. cbn [app split_sep]. by rewrite N.eqb_refl.
  - rewrite not_elem_of_cons. intros [Hc Ha]. cbn [app split_sep].
    destruct (N.eqb_spec c sep); [congruence|].
    specialize (IH Ha).
    destruct (split_sep sep (a ++ sep :: b)); simpl in *; by subst.
Qed.

Lemma extract_town_group (pre g post : pystr) :
  40%N ∉ pre → 41%N ∉ g → 10%N ∉ g →
  extract_town (Some (pre ++ [40%N] ++ g ++ [41%N] ++ post))
  = Some (strip (hd [] (split_sep 59%N g))).
Proof.
  intros Hpre Hg41 Hg10. unfold extract_town. cbn [str_of_cell].
  rewrite search_parens_skip by done. cbn [app search_parens].
  rewrite N.eqb_refl. by rewrite lazy_group_app.
Qed.

(** ** The town table *)

Lemma extract_town_None : extract_town None = None.
Proof. by vm_compute. Qed.

Lemma group_orgs (t : pystr) (orgs : list (option pystr)) :
  omap snd (filter (λ r, r.1 = Some t) (zip (map extract_town orgs) orgs))
  = filter (λ o, extract_town (Some o) = Some t) (omap id orgs).
Proof.
  induction orgs as [|[o|] orgs IH]; [done| |].
  - change (omap id (Some o :: orgs)) with (o :: omap id orgs).
    cbn [map zip zip_with]. rewrite !filter_cons. cbn [fst].
    destruct (decide (extract_town (Some o) = Some t)) as [Ht|Ht].
    + change (omap snd ((extract_town (Some o), Some o) :: ?l))
        with (o :: omap snd l).
      by rewrite IH.
    + exact IH.
  - change (omap id (None :: orgs)) with (omap id orgs).
    cbn [map zip zip_with]. rewrite filter_cons. cbn [fst].
    rewrite extract_town_None. rewrite decide_False by done. exact IH.
Qed.

Lemma groupby_nunique_eq (orgs : list (option pystr)) :
  groupby_nunique (map extract_town orgs) orgs
  = map (λ t, (Some t, distinct_orgs t orgs))
        (remove_dups (omap id (map extract_town orgs))).
Proof.
  unfold groupby_nunique, distinct_orgs.
  apply map_ext. intros t. by rewrite group_orgs.
Qed.

Lemma distinct_orgs_pos (t : pystr) (orgs : list (option pystr)) :
  Some t ∈ map extract_town orgs → (0 < distinct_orgs t orgs)%nat.
Proof.
  intros Hin. apply list_elem_of_fmap in Hin as (o & Ho & Hin).
  symmetry in Ho.
  destruct o as [o|]; [|by rewrite extract_town_None in Ho].
  unfold distinct_orgs.
  assert (Hmem : o ∈ remove_dups
            (filter (λ o, extract_town (Some o) = Some t) (omap id orgs))).
  { apply elem_of_remove_dups, list_elem_of_filter. split; [done|].
    apply list_elem_of_omap. by exists (Some o). }
  destruct (remove_dups _); [by apply elem_of_nil in Hmem|simpl; lia].
Qed.

(** C6 (as amended).  The town table is one row per town extracted
    from the organisation names, with the number of distinct
    organisation names of that town, no row without a town or with a
    count of zero, the rows sorted by the key that [sort_key_town] gives
    them, followed by one total row (with the label of line 278) whose
    count is the sum of the counts of the other rows.
    The town of a name is the inside of its first parenthesised group,
    if that group holds no line feed, up to the first semicolon and
    stripped; it is undefined for a name without parentheses.  On names
    without a line feed the extraction is the one of the
    specification. *)
Theorem towns_with_total_spec (orgs : list (option pystr)) :
  (∃ rows,
     towns_with_total orgs
     = rows ++ [(Some ITOGO, sum_list (map snd rows))]
     ∧ StronglySorted town_le rows
     ∧ NoDup (map fst rows)
     ∧ (∀ r, r ∈ rows → is_Some r.1 ∧ (0 < r.2)%nat)
     ∧ (∀ t n, (Some t, n) ∈ rows
               ↔ Some t ∈ map extract_town orgs ∧ n = distinct_orgs t orgs))
  ∧ (∀ pre g post, 40%N ∉ pre → 41%N ∉ g → 10%N ∉ g →
       extract_town (Some (pre ++ [40%N] ++ g ++ [41%N] ++ post))
       = Some (strip (hd [] (split_sep 59%N g))))
  ∧ (∀ a b, 59%N ∉ a → hd [] (split_sep 59%N (a ++ 59%N :: b)) = a)
  ∧ (∀ g, 59%N ∉ g → hd [] (split_sep 59%N g) = g)
  ∧ (∀ s, 40%N ∉ s ∨ 41%N ∉ s → extract_town (Some s) = None)
  ∧ extract_town None = None
  ∧ (∀ s, 10%N ∉ s →
       extract_town (Some s) = extract_town_as_specified (Some s)).
Proof.
  split.
  { unfold towns_with_total. rewrite groupby_nunique_eq.
    set (G := map (λ t, (Some t, distinct_orgs t orgs))
                  (remove_dups (omap id (map extract_town orgs)))).
    assert (HG : ∀ t n, (Some t, n) ∈ G
                 ↔ Some t ∈ map extract_town orgs ∧ n = distinct_orgs t orgs).
    { intros t n. unfold G. rewrite list_elem_of_fmap. split.
      - intros (t' & [= -> ->] & Hin).
        apply elem_of_remove_dups, list_elem_of_omap in Hin
          as (o & Ho & Heq).
        simpl in Heq. by subst.
      - intros [Hin ->]. exists t. split; [done|].
        apply elem_of_remove_dups, list_elem_of_omap. by exists (Some t). }
    assert (Hall : Forall (λ r, is_Some r.1 ∧ (0 < r.2)%nat) G).
    { apply Forall_forall. intros [[t|] n] Hr.
      - apply HG in Hr as [Hin ->]. split; [by eexists|].
        by apply distinct_orgs_pos.
      - unfold G in Hr. apply list_elem_of_fmap in Hr as (t & Heq & _).
        discriminate. }
    rewrite (filter_Forall_id (λ r, is_Some r.1) G)
      by (eapply Forall_impl; [exact Hall|]; by intros r [? _]).
    rewrite (filter_Forall_id (λ r, (0 < r.2)%nat) G)
      by (eapply Forall_impl; [exact Hall|]; by intros r [_ ?]).
    exists (merge_sort town_le G).
    pose proof (merge_sort_Permutation town_le G) as Hperm.
    split; [done|].
    split; [apply (StronglySorted_merge_sort town_le); apply _|].
    split.
    { rewrite Hperm. unfold G. rewrite map_map. cbn [fst].
      apply (NoDup_fmap_2 Some), NoDup_remove_dups. }
    split.
    { intros r Hr. rewrite Hperm in Hr.
      by apply (proj1 (Forall_forall _ _) Hall). }
    intros t n. rewrite Hperm. apply HG. }
  split; [apply extract_town_group|].
  split; [apply split_sep_hd_sep|].
  split; [apply split_sep_hd_no_sep|].
  split.
  { intros s [Hs|Hs]; unfold extract_town; cbn [str_of_cell].
    - by rewrite search_parens_no_open.
    - by rewrite search_parens_no_close. }
  split; [apply extract_town_None|].
  intros s Hs. unfold extract_town, extract_town_as_specified.
  cbn [str_of_cell]. by rewrite search_parens_one_line.
Qed.

(** C6, witness: a name with a district after the semicolon. *)
Lemma towns_with_total_spec_witness :
  extract_town (Some (py "Сад 1 (г.Тула; центр)")) = Some (py "г.Тула").
Proof.
  pose proof (towns_with_total_spec []) as (_ & Hgroup & Hsemi & _).
  specialize (Hgroup (py "Сад 1 ") (py "г.Тула; центр") []).
  specialize (Hsemi (py "г.Тула") (py " центр")).
  change (py "Сад 1 (г.Тула; центр)")
    with (py "Сад 1 " ++ [40%N] ++ py "г.Тула; центр" ++ [41%N] ++ []).
  rewrite Hgroup.
  - change (py "г.Тула; центр") with (py "г.Тула" ++ 59%N :: py " центр").
    rewrite Hsemi.
    + vm_compute. reflexivity.
    + apply (bool_decide_unpack _). vm_compute. exact I.
  - apply (bool_decide_unpack _). vm_compute. exact I.
  - apply (bool_decide_unpack _). vm_compute. exact I.
  - apply (bool_decide_unpack _). vm_compute. exact I.
Defined.

(** C6, counterexample: the first parenthesised group of the name
    holds a line feed.  Its inside is "a", line feed, "b"; the code
    passes over it and takes the inside of the next group, "c", which
    becomes the town of the table. *)
Lemma extract_town_line_feed :
  let name := py "Сад (a" ++ [10%N] ++ py "b) (c)" in
  extract_town_as_specified (Some name) = Some (py "a" ++ [10%N] ++ py "b")
  ∧ extract_town (Some name) = Some (py "c")
  ∧ towns_with_total [Some name]
    = [(Some (py "c"), 1%nat); (Some ITOGO, 1%nat)].
Proof. repeat split; vm_compute; reflexivity. Qed.

(** ** The file name *)

Lemma span_digits_app (s : pystr) :
  (span_digits s).1 ++ (span_digits s).2 = s.
Proof.
  induction s as [|c s IH]; [done|]. cbn [span_digits].
  destruct (is_digit c); [|done].
  destruct (span_digits s) as [d rest]. simpl in *. by rewrite IH.
Qed.

Lemma span_digits_digits (s : pystr) :
  Forall (λ c, is_digit c = true) (span_digits s).1.
Proof.
  induction s as [|c s IH]; [constructor|]. cbn [span_digits].
  destruct (is_digit c) eqn:Hc; [|constructor].
  destruct (span_digits s) as [d rest]. simpl in *. by constructor.
Qed.

Lemma span_digits_rest (s : pystr) :
  match (span_digits s).2 with
  | [] => True
  | c :: _ => is_digit c = false
  end.
Proof.
  induction s as [|c s IH]; [done|]. cbn [span_digits].
  destruct (is_digit c) eqn:Hc; [|done].
  by destruct (span_digits s) as [d rest].
Qed.

Lemma span_digits_prefix (d r : pystr) :
  Forall (λ c, is_digit c = true) d →
  span_digits (d ++ r) = (d ++ (span_digits r).1, (span_digits r).2).
Proof.
  induction 1 as [|c d Hc _ IH];
    [cbn [app]; by destruct (span_digits r)|].
  cbn [app span_digits]. rewrite Hc, IH. done.
Qed.

Lemma match_filename_Some (s a b : pystr) :
  match_filename s = Some (a, b) →
  ∃ rest, s = a ++ [45%N] ++ b ++ rest
          ∧ a ≠ [] ∧ b ≠ []
          ∧ Forall (λ c, is_digit c = true) a
          ∧ Forall (λ c, is_digit c = true) b
          ∧ match rest with [] => True | c :: _ => is_digit c = false end.
Proof.
  unfold match_filename. intros Hm.
  pose proof (span_digits_app s) as Happ.
  pose proof (span_digits_digits s) as Hdig.
  destruct (span_digits s) as [[|a0 a'] [|c r]]; try done.
  destruct (N.eqb_spec c 45) as [->|]; [|done].
  pose proof (span_digits_app r) as Happ'.
  pose proof (span_digits_digits r) as Hdig'.
  pose proof (span_digits_rest r) as Hrest'.
  destruct (span_digits r) as [[|b0 b'] rest]; [done|].
  injection Hm as <- <-. simpl in *. exists rest.
  split; [by rewrite Happ'|]. done.
Qed.

Lemma match_filename_groups (s : pystr) :
  two_numeric_groups s → is_Some (match_filename s).
Proof.
  intros (g1 & g2 & rest & -> & Hg1 & Hg2 & Hd1 & Hd2).
  unfold match_filename.
  rewrite span_digits_prefix by done.
  change (span_digits ([45%N] ++ g2 ++ rest))
    with ([] : pystr, 45%N :: g2 ++ rest).
  cbn [fst snd]. rewrite app_nil_r.
  destruct g1 as [|c1 g1]; [done|]. cbn [N.eqb Pos.eqb].
  rewrite span_digits_prefix by done.
  destruct g2 as [|c2 g2]; [done|]. by eexists.
Qed.

Lemma validate_filename_raises (filename : pystr) :
  validate_filename filename = Raise FilenameFormatError
  ↔ ¬ two_numeric_groups filename.
Proof.
  unfold validate_filename. split.
  - intros Hv Hg. apply match_filename_groups in Hg as [[a b] Hm].
    by rewrite Hm in Hv.
  - intros Hg. destruct (match_filename filename) as [[a b]|] eqn:Hm; [|done].
    destruct Hg. apply match_filename_Some in Hm
      as (rest & -> & Ha & Hb & Hda & Hdb & _).
    by exists a, b, rest.
Qed.

Section FilenameClaims.
Context {workbook : Type}.
Variable read_excel : list N → result frame.
Variable build_workbook : frame → result workbook.

(** C7.  The entry point raises the file-name error if and only if the
    name does not begin with two non-empty groups of digits separated
    by a hyphen, and it does so whatever the content of the file is and
    whatever reading it would give.  Otherwise the first group is the
    site and the second the assessment, each the longest run of digits
    at its place, and they name the output file.  The name
    "5-31-Razvitie.xlsx" gives the site "5" and the assessment "31";
    "bad.xlsx" raises the error. *)
Theorem filename_validation (file_content : list N) (filename : pystr) :
  (validate_filename filename = Raise FilenameFormatError
   ↔ ¬ two_numeric_groups filename)
  ∧ (¬ two_numeric_groups filename →
       process_excel read_excel build_workbook file_content filename
       = Raise FilenameFormatError)
  ∧ (two_numeric_groups filename →
       ∃ site assessment rest,
         validate_filename filename = Return (site, assessment)
         ∧ filename = site ++ [45%N] ++ assessment ++ rest
         ∧ site ≠ [] ∧ assessment ≠ []
         ∧ Forall (λ c, is_digit c = true) site
         ∧ Forall (λ c, is_digit c = true) assessment
         ∧ match rest with [] => True | c :: _ => is_digit c = false end
         ∧ process_excel read_excel build_workbook file_content filename
           = (df ← read_excel file_content;
              wb ← build_workbook df;
              Return (wb, output_filename site assessment)))
  ∧ validate_filename (py "5-31-Razvitie.xlsx") = Return (py "5", py "31")
  ∧ validate_filename (py "bad.xlsx") = Raise FilenameFormatError.
Proof.
  split; [apply validate_filename_raises|].
  split.
  { intros Hg. apply validate_filename_raises in Hg.
    unfold process_excel. by rewrite Hg. }
  split.
  { intros Hg. apply match_filename_groups in Hg as [[a b] Hm].
    pose proof (match_filename_Some _ _ _ Hm)
      as (rest & Hs & Ha & Hb & Hda & Hdb & Hrest).
    exists a, b, rest. unfold process_excel, validate_filename.
    rewrite Hm. done. }
  split; by vm_compute.
Qed.
End FilenameClaims.

(** C7, witness: a reader that fails is not reached for a bad name, and
    is reached for a good one. *)
Lemma filename_validation_witness :
  process_excel (workbook:=unit) (λ _, Raise ValueError) (λ _, Return ())
    [] (py "bad.xlsx")
  = Raise FilenameFormatError
  ∧ ∃ site assessment rest,
      validate_filename (py "7-41.xlsx") = Return (site, assessment)
      ∧ py "7-41.xlsx" = site ++ [45%N] ++ assessment ++ rest.
Proof.
  split.
  - apply (filename_validation (workbook:=unit)).
    apply validate_filename_raises. vm_compute. reflexivity.
  - destruct (filename_validation (workbook:=unit)
                (λ _, Raise ValueError) (λ _, Return ()) [] (py "7-41.xlsx"))
      as (_ & _ & Hok & _).
    destruct Hok as (site & assessment & rest & Hv & Hs & _).
    + exists (py "7"), (py "41"), (py ".xlsx").
      repeat split; try discriminate;
        try (repeat constructor; vm_compute; reflexivity).
    + by exists site, assessment, rest.
Defined.

(** ** The age table *)

Lemma sum_list_Permutation (l l' : list nat) :
  l ≡ₚ l' → sum_list l = sum_list l'.
Proof. induction 1; simpl; lia. Qed.

Lemma count_split {A} `{EqDecision A} (k : A) (ks l : list A) :
  k ∉ ks →
  length (filter (λ x, x ∈ k :: ks) l)
  = (length (filter (λ x, x = k) l) + length (filter (λ x, x ∈ ks) l))%nat.
Proof.
  intros Hk. induction l as [|x l IH]; [done|].
  rewrite !filter_cons.
  destruct (decide (x = k)) as [->|Hne].
  - rewrite decide_True by apply list_elem_of_here.
    rewrite (decide_False (P:=k ∈ ks)) by done. simpl. lia.
  - destruct (decide (x ∈ ks)) as [Hin|Hnin].
    + rewrite decide_True by (by apply list_elem_of_further). simpl. lia.
    + rewrite decide_False; [exact IH|].
      by intros [?|?]%elem_of_cons.
Qed.

Lemma sum_counts {A} `{EqDecision A} (ks l : list A) :
  NoDup ks →
  sum_list (map (λ v, length (filter (λ x, x = v) l)) ks)
  = length (filter (λ x, x ∈ ks) l).
Proof.
  induction 1 as [|k ks Hk _ IH]; simpl.
  - symmetry. apply length_zero_iff_nil.
    induction l as [|x l IHl]; [done|].
    rewrite filter_cons, decide_False by apply not_elem_of_nil. exact IHl.
  - rewrite IH. symmetry. by apply count_split.
Qed.

(** The counts of [value_counts] add up to the number of cells that
    are not missing. *)
Lemma value_counts_total {A} `{EqDecision A} (col : list (option A)) :
  sum_list (map snd (value_counts col)) = length (omap id col).
Proof.
  unfold value_counts. rewrite map_map. cbn [snd].
  rewrite sum_counts by apply NoDup_remove_dups.
  f_equal. apply filter_Forall_id, Forall_forall.
  intros x Hx. by apply elem_of_remove_dups.
Qed.

Lemma value_counts_elem {A} `{EqDecision A} (col : list (option A)) l n :
  (l, n) ∈ value_counts col
  ↔ l ∈ omap id col ∧ n = length (filter (λ x, x = Some l) col).
Proof.
  unfold value_counts. rewrite list_elem_of_fmap. split.
  - intros (v & [= -> ->] & Hin). rewrite elem_of_remove_dups in Hin.
    split; [done|apply filter_omap_length].
  - intros [Hin ->]. exists l. rewrite filter_omap_length.
    split; [done|by apply elem_of_remove_dups].
Qed.




Section AgeClaims.
Context `{PyRuntime}.

#[global] Instance age_le_total : Total age_le.
Proof. intros r1 r2. unfold age_le. lia. Qed.

#[global] Instance age_le_trans : Transitive age_le.
Proof. intros r1 r2 r3. unfold age_le. lia. Qed.




End AgeClaims.

(** An age column with an empty cell and a label that does not parse. *)
Example age_counts_example :
  @age_counts example_runtime
    [Some (py "5-6 лет"); None; Some (py "старшая"); Some (py "3-4 года");
     Some (py "5-6 лет")]
  = [(py "3-4 года", 1%nat, 0.25%float); (py "5-6 лет", 2%nat, 0.5%float);
     (py "старшая", 1%nat, 0.25%float)].
Proof. vm_compute. reflexivity. Qed.



(** ** The town table on an example *)

(** Six records of five organisations in four towns, and one record
    without a town.  The names are Cyrillic text, so every town has the
    rank 6 and the rows come in the order of the names: the capital
    after the town of Klin.  One of the towns has two distinct
    organisations. *)
Example towns_with_total_example :
  towns_with_total
    [Some (py "Сад 3 (с.Ивановка)"); Some (py "Сад 2 (г.Тула; центр)");
     None; Some (py "Сад 1 (г.Москва)"); Some (py "Школа 5 (г.Тула)");
     Some (py "Сад 4 (г.Клин)");
     Some (py "Сад 2 (г.Тула; центр)"); Some (py "Без города")]
  = [(Some (py "г.Клин"), 1%nat); (Some (py "г.Москва"), 1%nat);
     (Some (py "г.Тула"), 2%nat); (Some (py "с.Ивановка"), 1%nat);
     (Some ITOGO, 5%nat)].
Proof. vm_compute. reflexivity. Qed.

(** * Further properties of the scoring functions *)

(** ** [calc_lab] on edge inputs *)

Lemma float_gt_Z_antitone (t : float) (limit limit' : Z) :
  limit ≤ limit' → float_gt_Z t limit' = true → float_gt_Z t limit = true.
Proof.
  unfold float_gt_Z, float_cmp_Z. intros Hle.
  destruct (Prim2SF t) as [s|s| |s m e]; try done.
  - destruct (Z.compare_spec 0 limit'), (Z.compare_spec 0 limit);
      try done; lia.
  - destruct (0 <=? e).
    + destruct (Z.compare_spec ((if s then Z.neg m else Z.pos m) * 2 ^ e)
                  limit'),
        (Z.compare_spec ((if s then Z.neg m else Z.pos m) * 2 ^ e) limit);
        try done; lia.
    + assert (limit * 2 ^ (- e) ≤ limit' * 2 ^ (- e))
        by (apply Z.mul_le_mono_nonneg_r; [apply Z.pow_nonneg|]; lia).
      destruct (Z.compare_spec (if s then Z.neg m else Z.pos m)
                  (limit' * 2 ^ (- e))),
        (Z.compare_spec (if s then Z.neg m else Z.pos m)
           (limit * 2 ^ (- e)));
        try done; lia.
Qed.

Lemma errors_score_nonneg (n : Z) : 0 ≤ errors_score n.
Proof. unfold errors_score. repeat case_match; lia. Qed.

Lemma errors_score_antitone (e1 e2 : Z) :
  0 ≤ e1 ≤ e2 → errors_score e2 ≤ errors_score e1.
Proof.
  intros He. unfold errors_score.
  destruct (Z.eqb_spec e1 0), (Z.eqb_spec e2 0), (Z.eqb_spec e1 1),
    (Z.eqb_spec e2 1), (Z.leb_spec 2 e1), (Z.leb_spec 2 e2),
    (Z.leb_spec e1 5), (Z.leb_spec e2 5); simpl; lia.
Qed.

Section CalcLabEdges.
Context `{PyRuntime}.

(** X1.  A time cell that holds NaN (an empty cell) is no conversion
    failure and never exceeds a limit: unless the goal flag is the
    negative answer, the score is the one of the error count alone; a
    row whose time and error cells are both NaN scores 3. *)
Theorem calc_lab_nan_time (errors reached : pyval) (limit : Z) :
  reached_is_no reached = false →
  calc_lab (PyFloat nan) errors reached limit
  = Return (errors_score (coerced_errors errors))
  ∧ calc_lab (PyFloat nan) (PyFloat nan) reached limit = Return 3.
Proof.
  intros Hr. rewrite !calc_lab_unfold. cbn [py_float]. rewrite Hr.
  by replace (float_gt_Z nan limit) with false
    by (unfold float_gt_Z, float_cmp_Z; done).
Qed.

(** X2.  A larger time limit never lowers the score: the same time,
    error count and goal flag score at least as much under a limit that
    is at least as large. *)
Theorem calc_lab_limit_monotone (time errors reached : pyval)
  (limit limit' v v' : Z) :
  limit ≤ limit' →
  calc_lab time errors reached limit = Return v →
  calc_lab time errors reached limit' = Return v' →
  v ≤ v'.
Proof.
  intros Hle. rewrite !calc_lab_unfold.
  destruct (py_float time) as [t|e]; [|by intros [= <-] [= <-]].
  destruct (reached_is_no reached); [by intros [= <-] [= <-]|].
  destruct (float_gt_Z t limit') eqn:Hgt'.
  - rewrite (float_gt_Z_antitone t limit limit' Hle Hgt').
    by intros [= <-] [= <-].
  - destruct (float_gt_Z t limit); intros [= <-] [= <-];
      [apply errors_score_nonneg|done].
Qed.

(** X3.  More errors never raise the score: for integer error counts
    [0 <= e1 <= e2] the score with [e2] errors is at most the score
    with [e1]; a negative error count always scores 0. *)
Theorem calc_lab_errors_antitone (time reached : pyval) (limit e1 e2 v1 v2 : Z) :
  (0 ≤ e1 ≤ e2 →
   calc_lab time (PyInt e1) reached limit = Return v1 →
   calc_lab time (PyInt e2) reached limit = Return v2 →
   v2 ≤ v1)
  ∧ (e1 < 0 → calc_lab time (PyInt e1) reached limit = Return 0).
Proof.
  rewrite !calc_lab_unfold. unfold coerced_errors. cbn [py_int]. split.
  - intros He.
    destruct (py_float time) as [t|e]; [|by intros [= <-] [= <-]].
    destruct (reached_is_no reached); [by intros [= <-] [= <-]|].
    destruct (float_gt_Z t limit); intros [= <-] [= <-];
      [done|by apply errors_score_antitone].
  - intros Hneg. destruct (py_float time) as [t|e]; [|done].
    destruct (reached_is_no reached); [done|].
    destruct (float_gt_Z t limit); [done|].
    unfold errors_score.
    destruct (Z.eqb_spec e1 0), (Z.eqb_spec e1 1), (Z.leb_spec 2 e1);
      simpl; try lia; done.
Qed.
End CalcLabEdges.

(** X1, witness: both cells empty, the goal flag is the answer "Да". *)
Lemma calc_lab_nan_time_witness :
  @calc_lab example_runtime (PyFloat nan) (PyFloat nan) (PyStr (py "Да")) 35
  = Return 3.
Proof.
  apply (@calc_lab_nan_time example_runtime (PyFloat nan)).
  vm_compute. reflexivity.
Defined.

(** X2, witness: a time of 40 under the limits 35 and 50. *)
Lemma calc_lab_limit_monotone_witness : 0 ≤ 3.
Proof.
  apply (@calc_lab_limit_monotone example_runtime (PyInt 40) (PyInt 0)
           (PyStr (py "Да")) 35 50 0 3).
  - lia.
  - vm_compute. reflexivity.
  - vm_compute. reflexivity.
Defined.

(** X3, witness: one error against four errors. *)
Lemma calc_lab_errors_antitone_witness : 1 ≤ 2.
Proof.
  apply (@calc_lab_errors_antitone example_runtime (PyInt 10)
           (PyStr (py "Да")) 35 1 4 2 1).
  - lia.
  - vm_compute. reflexivity.
  - vm_compute. reflexivity.
Defined.

(** ** NaN in the attention index *)

Lemma float_sub_nan_l (x : float) : (nan - x)%float = nan.
Proof.
  apply Prim2SF_inj. rewrite FloatAxioms.sub_spec.
  replace (Prim2SF nan) with S754_nan by (vm_compute; reflexivity).
  by destruct (Prim2SF x).
Qed.

Lemma float_sub_nan_r (x : float) : (x - nan)%float = nan.
Proof.
  apply Prim2SF_inj. rewrite FloatAxioms.sub_spec.
  replace (Prim2SF nan) with S754_nan by (vm_compute; reflexivity).
  by destruct (Prim2SF x) as [[]|[]| |].
Qed.

Section AttentionEdges.
Context `{PyRuntime}.

(** X4.  NaN in either argument of the attention index (an empty rings
    or errors cell) gives the index NaN, whatever the other argument
    is. *)
Theorem attention_index_nan (v : pyval) :
  attention_index (PyFloat nan) v = Return nan
  ∧ attention_index v (PyFloat nan) = Return nan.
Proof.
  rewrite !attention_index_unfold. unfold coerced_float. cbn [py_float].
  split; f_equal.
  - replace (0.5 * nan)%float with nan by (vm_compute; reflexivity).
    apply float_sub_nan_l.
  - replace (2.8 * nan / 60)%float with nan by (vm_compute; reflexivity).
    apply float_sub_nan_r.
Qed.
End AttentionEdges.

(** ** Monotonicity of [categorize] *)

Lemma Pos_compare_cont_Eq (p q : positive) :
  Pos.compare_cont Eq p q = (p ?= q)%positive.
Proof. reflexivity. Qed.

Ltac compare_cases :=
  repeat match goal with
         | |- context [(?a ?= ?b)%Z] =>
           destruct (Z.compare_spec a b); try subst
         | |- context [(?a ?= ?b)%positive] =>
           destruct (Pos.compare_spec a b); try subst
         | |- context [Pos.compare_cont Eq ?a ?b] =>
           change (Pos.compare_cont Eq a b) with (Pos.compare a b);
           destruct (Pos.compare_spec a b); try subst
         end;
  cbn [CompOpp]; try done; try lia.

(** [<=] followed by [<] is [<], and [<] followed by [<=] is [<], on
    the values of binary64. *)
Lemma SFleb_ltb_trans (x y z : spec_float) :
  SFleb x y = true → SFltb y z = true → SFltb x z = true.
Proof.
  unfold SFleb, SFltb.
  destruct x as [sx|sx| |sx mx ex], y as [sy|sy| |sy my ey],
    z as [sz|sz| |sz mz ez];
    cbv beta iota delta [SFcompare];
    try (destruct sx); try (destruct sy); try (destruct sz); try done;
    rewrite ?Pos_compare_cont_Eq; compare_cases.
Qed.

Lemma SFltb_leb_trans (x y z : spec_float) :
  SFltb x y = true → SFleb y z = true → SFltb x z = true.
Proof.
  unfold SFleb, SFltb.
  destruct x as [sx|sx| |sx mx ex], y as [sy|sy| |sy my ey],
    z as [sz|sz| |sz mz ez];
    cbv beta iota delta [SFcompare];
    try (destruct sx); try (destruct sy); try (destruct sz); try done;
    rewrite ?Pos_compare_cont_Eq; compare_cases.
Qed.

Lemma float_leb_not_nan (f g : float) :
  (f <=? g)%float = true → is_nan f = false ∧ is_nan g = false.
Proof.
  rewrite FloatAxioms.leb_spec. unfold is_nan, PrimFloat.is_nan.
  rewrite !FloatAxioms.eqb_spec. unfold SFleb, SFeqb.
  destruct (Prim2SF f) as [s|s| |s m e], (Prim2SF g) as [s'|s'| |s' m' e'];
    cbv beta iota delta [SFcompare]; try done;
    rewrite ?Pos_compare_cont_Eq, ?Z.compare_refl, ?Pos.compare_refl;
    try (destruct s); try (destruct s'); done.
Qed.

(** X5.  [categorize] is monotone on numbers: when [f <= g], a value
    [g] below the norm puts [f] below the norm, and a value [f] above
    the norm puts [g] above the norm. *)
Theorem categorize_monotone (f g : float) :
  (f <=? g)%float = true →
  (categorize (PyFloat g) = Return (Some Below) →
   categorize (PyFloat f) = Return (Some Below))
  ∧ (categorize (PyFloat f) = Return (Some Above) →
     categorize (PyFloat g) = Return (Some Above)).
Proof.
  intros Hfg. destruct (float_leb_not_nan f g Hfg) as [Hf Hg].
  unfold categorize. cbn [pd_isna py_lt_float py_le_float].
  rewrite Hf, Hg. cbn [mbind result_bind]. split.
  - destruct (g <? 0.33)%float eqn:Hg33.
    + assert ((f <? 0.33)%float = true) as ->; [|done].
      rewrite FloatAxioms.ltb_spec in *. rewrite FloatAxioms.leb_spec in Hfg.
      by apply (SFleb_ltb_trans _ (Prim2SF g)).
    + by destruct (g <=? 0.66)%float.
  - destruct (f <? 0.33)%float; [done|].
    destruct (f <=? 0.66)%float eqn:Hf66; [done|]. intros _.
    assert ((0.66 <? g)%float = true) as Hg66.
    { assert ((0.66 <? f)%float = true) as H66
        by (rewrite float_ltb_negb_leb, Hf66; done).
      rewrite FloatAxioms.ltb_spec in *. rewrite FloatAxioms.leb_spec in Hfg.
      by apply (SFltb_leb_trans _ (Prim2SF f)). }
    rewrite (float_above_not_below g Hg66).
    rewrite float_ltb_negb_leb in Hg66 by done.
    by destruct (g <=? 0.66)%float.
Qed.

(** X5, witness: the values 0.7 and 0.9 are both above the norm. *)
Lemma categorize_monotone_witness :
  categorize (PyFloat 0.9) = Return (Some Above).
Proof.
  apply (categorize_monotone 0.7 0.9); reflexivity.
Defined.

(** ** The analytic-synthetic index and the total of the scores *)

Lemma analit_sint_total_checked :
  forallb (λ s1, forallb (λ s2, forallb (λ s3, forallb (λ s4, forallb (λ s5,
    PrimFloat.Leibniz.eqb
      (analit_sint [s1; s2; s3; s4; s5])
      (analit_sint [s1 + s2 + s3 + s4 + s5; 0; 0; 0; 0]))
    [0; 1; 2; 3]) [0; 1; 2; 3]) [0; 1; 2; 3]) [0; 1; 2; 3]) [0; 1; 2; 3]
  = true.
Proof. vm_compute. reflexivity. Qed.

Lemma analit_sint_increasing_checked :
  forallb (λ k, forallb (λ k',
    implb (k <? k')
      (PrimFloat.ltb (analit_sint [k; 0; 0; 0; 0])
                     (analit_sint [k'; 0; 0; 0; 0])))
    (seqZ 0 16)) (seqZ 0 16)
  = true.
Proof. vm_compute. reflexivity. Qed.

Lemma analit_sint_total (s1 s2 s3 s4 s5 : Z) :
  Forall (λ s, s ∈ [0; 1; 2; 3]) [s1; s2; s3; s4; s5] →
  analit_sint [s1; s2; s3; s4; s5]
  = analit_sint [s1 + s2 + s3 + s4 + s5; 0; 0; 0; 0].
Proof.
  intros Hall.
  repeat match goal with
         | Hf : Forall _ (_ :: _) |- _ =>
           apply Forall_cons_1 in Hf; destruct Hf as [? Hf]
         end.
  pose proof analit_sint_total_checked as Hc.
  rewrite forallb_forall in Hc.
  specialize (Hc s1 ltac:(by apply list_elem_of_In)).
  rewrite forallb_forall in Hc.
  specialize (Hc s2 ltac:(by apply list_elem_of_In)).
  rewrite forallb_forall in Hc.
  specialize (Hc s3 ltac:(by apply list_elem_of_In)).
  rewrite forallb_forall in Hc.
  specialize (Hc s4 ltac:(by apply list_elem_of_In)).
  rewrite forallb_forall in Hc.
  specialize (Hc s5 ltac:(by apply list_elem_of_In)).
  by apply FloatAxioms.Leibniz.eqb_spec.
Qed.

Lemma score_sum_range (s1 s2 s3 s4 s5 : Z) :
  Forall (λ s, s ∈ [0; 1; 2; 3]) [s1; s2; s3; s4; s5] →
  0 ≤ s1 + s2 + s3 + s4 + s5 < 16.
Proof.
  intros Hall.
  repeat match goal with
         | Hf : Forall _ (_ :: _) |- _ =>
           apply Forall_cons_1 in Hf; destruct Hf as [? Hf]
         end.
  repeat match goal with
         | Hin : _ ∈ _ |- _ =>
           rewrite !elem_of_cons, elem_of_nil in Hin
         end.
  lia.
Qed.

(** X6.  The analytic-synthetic index of a row of five labyrinth scores
    (each 0 to 3) is determined by the total of the scores and
    increases strictly with it: equal totals give equal indices, a
    smaller total a smaller index. *)
Theorem analit_sint_by_total (s1 s2 s3 s4 s5 t1 t2 t3 t4 t5 : Z) :
  Forall (λ s, s ∈ [0; 1; 2; 3]) [s1; s2; s3; s4; s5] →
  Forall (λ s, s ∈ [0; 1; 2; 3]) [t1; t2; t3; t4; t5] →
  (s1 + s2 + s3 + s4 + s5 = t1 + t2 + t3 + t4 + t5 →
   analit_sint [s1; s2; s3; s4; s5] = analit_sint [t1; t2; t3; t4; t5])
  ∧ (s1 + s2 + s3 + s4 + s5 < t1 + t2 + t3 + t4 + t5 →
     PrimFloat.ltb (analit_sint [s1; s2; s3; s4; s5])
                   (analit_sint [t1; t2; t3; t4; t5]) = true).
Proof.
  intros Hs Ht.
  rewrite (analit_sint_total _ _ _ _ _ Hs), (analit_sint_total _ _ _ _ _ Ht).
  apply score_sum_range in Hs, Ht. split.
  - by intros ->.
  - intros Hlt. pose proof analit_sint_increasing_checked as Hc.
    rewrite forallb_forall in Hc.
    specialize (Hc (s1 + s2 + s3 + s4 + s5)
                  ltac:(apply list_elem_of_In, elem_of_seqZ; lia)).
    rewrite forallb_forall in Hc.
    specialize (Hc (t1 + t2 + t3 + t4 + t5)
                  ltac:(apply list_elem_of_In, elem_of_seqZ; lia)).
    apply Z.ltb_lt in Hlt. by rewrite Hlt in Hc.
Qed.

(** X6, witness: the rows 3, 0, 0, 0, 0 and 1, 1, 1, 0, 0 have the
    total 3. *)
Lemma analit_sint_by_total_witness :
  analit_sint [3; 0; 0; 0; 0] = analit_sint [1; 1; 1; 0; 0].
Proof.
  apply (analit_sint_by_total 3 0 0 0 0 1 1 1 0 0).
  - repeat constructor; rewrite !elem_of_cons; tauto.
  - repeat constructor; rewrite !elem_of_cons; tauto.
  - reflexivity.
Defined.

(** ** When the scoring succeeds *)

Lemma sequence_length {A} (ms : list (result A)) (l : list A) :
  sequence ms = Return l → length l = length ms.
Proof.
  revert l. induction ms as [|m ms IH]; intros l; simpl.
  - by intros [= <-].
  - destruct m as [a|e]; [|done]. simpl.
    destruct (sequence ms) as [l'|e]; [|done]. simpl.
    intros [= <-]. simpl. by rewrite (IH l').
Qed.

Lemma series_div_Return (col : list pyval) (d : Z) :
  Forall (λ v, divisible_cell v = true) col →
  ∃ q, series_div col d = Return q.
Proof.
  intros Hall. unfold series_div.
  induction Hall as [|v col Hv _ [q IH]]; simpl; [by eexists|].
  rewrite IH. destruct v; try done; simpl; by eexists.
Qed.

Lemma series_div_inv (col : list pyval) (d : Z) (q : list float) :
  series_div col d = Return q →
  Forall (λ v, divisible_cell v = true) col ∧ length q = length col.
Proof.
  unfold series_div. intros Hq. split.
  - clear -Hq. revert q Hq. induction col as [|v col IH]; intros q; simpl.
    + constructor.
    + destruct (cell_div d v) as [x|e] eqn:Hv; [|done]. simpl.
      destruct (sequence (map (cell_div d) col)) as [q'|e]; [|done].
      intros _. constructor; [by destruct v|by apply (IH q')].
  - apply sequence_length in Hq. by rewrite length_map in Hq.
Qed.

Lemma getitem_Return (df : frame) (key : string) (col : list pyval) :
  getitem df key = Return col ↔ columns df !! key = Some col.
Proof.
  unfold getitem. destruct (columns df !! key); split; congruence.
Qed.

Lemma divided_column_inv (df : frame) (key : string) (d : Z) (q : list float) :
  getitem df key ≫= (λ c, series_div c d) = Return q →
  ∃ col, columns df !! key = Some col
         ∧ Forall (λ v, divisible_cell v = true) col
         ∧ length q = length col.
Proof.
  intros Hq. apply bind_Return in Hq as (col & Hcol & Hq).
  apply getitem_Return in Hcol. apply series_div_inv in Hq.
  by exists col.
Qed.

Lemma ratio_column_inv (df : frame) (key : string) (d : Z) (q : list float) :
  ratio_column df key d = Return q →
  ∃ col, columns df !! key = Some col
         ∧ Forall (λ v, divisible_cell v = true) col
         ∧ length q = length col.
Proof.
  unfold ratio_column. intros Hq.
  apply bind_Return in Hq as (col & Hcol & Hq).
  apply bind_Return in Hq as (q' & Hq' & [= <-]).
  apply getitem_Return in Hcol. apply series_div_inv in Hq' as [Hall Hlen].
  exists col. unfold fseries_round2. by rewrite length_map.
Qed.

Lemma divided_column_Return (df : frame) (key : string) (d : Z)
  (col : list pyval) :
  columns df !! key = Some col →
  Forall (λ v, divisible_cell v = true) col →
  ∃ q, getitem df key ≫= (λ c, series_div c d) = Return q.
Proof.
  intros Hcol Hall. apply getitem_Return in Hcol. rewrite Hcol. simpl.
  by apply series_div_Return.
Qed.

Lemma ratio_column_Return (df : frame) (key : string) (d : Z)
  (col : list pyval) :
  columns df !! key = Some col →
  Forall (λ v, divisible_cell v = true) col →
  ∃ q, ratio_column df key d = Return q.
Proof.
  intros Hcol Hall. unfold ratio_column.
  apply getitem_Return in Hcol. rewrite Hcol. simpl.
  destruct (series_div_Return col d Hall) as [q ->]. simpl. by eexists.
Qed.

Lemma level_column_length (col : list float) (levels : list (option level)) :
  level_column col = Return levels → length levels = length col.
Proof.
  unfold level_column. intros Hl. apply sequence_length in Hl.
  by rewrite length_map in Hl.
Qed.

Lemma apply_rows_length {A} (df : frame) (f : nat → result A) (col : list A) :
  apply_rows df f = Return col → length col = nrows df.
Proof.
  unfold apply_rows. intros Hc. apply sequence_length in Hc.
  by rewrite length_map, length_seq in Hc.
Qed.

Lemma rows_of_length {A} (n : nat) (cols : list (list A)) :
  length (rows_of n cols) = n.
Proof. unfold rows_of. by rewrite length_map, length_seq. Qed.

Ltac in_direct_keys :=
  apply (bool_decide_unpack _); vm_compute; exact I.

Section ScoreFrameSuccess.
Context `{PyRuntime}.

(** One step of [score_frame] on a table that has the column. *)
Ltac return_step Hcols :=
  lazymatch goal with
  | |- ∃ sc, ratio_column ?df ?key ?d ≫= _ = Return sc =>
    let col := fresh "col" in
    let Hc := fresh "Hc" in
    let Ha := fresh "Ha" in
    let q := fresh "q" in
    let Hq := fresh "Hq" in
    destruct (Hcols key) as (col & Hc & Ha);
    [in_direct_keys|];
    destruct (ratio_column_Return df key d col Hc Ha) as [q Hq];
    rewrite Hq; cbn [mbind result_bind]; cbv zeta
  | |- ∃ sc, (getitem ?df ?key ≫= (λ c, series_div c ?d)) ≫= _ = Return sc =>
    let col := fresh "col" in
    let Hc := fresh "Hc" in
    let Ha := fresh "Ha" in
    let q := fresh "q" in
    let Hq := fresh "Hq" in
    destruct (Hcols key) as (col & Hc & Ha);
    [in_direct_keys|];
    destruct (divided_column_Return df key d col Hc Ha) as [q Hq];
    rewrite Hq; cbn [mbind result_bind]; cbv zeta
  | |- ∃ sc, level_column ?c ≫= _ = Return sc =>
    let l := fresh "l" in
    let Hl := fresh "Hl" in
    destruct (level_column_total c) as (l & Hl & _);
    rewrite Hl; cbn [mbind result_bind]; cbv zeta
  end.

(** X7.  The scoring of a table succeeds exactly when each of the
    twelve columns it reads by direct indexing is there and holds no
    text and no date: numbers, truth values and empty cells are
    accepted, in any number of rows. *)
Theorem score_frame_succeeds_iff (df : frame) :
  (∃ sc, score_frame df = Return sc)
  ↔ (∀ key, key ∈ direct_keys →
       ∃ col, columns df !! key = Some col
              ∧ Forall (λ v, divisible_cell v = true) col).
Proof.
  split.
  - intros [sc Hsc] key Hin. unfold score_frame in Hsc. bind_inv Hsc.
    unfold direct_keys in Hin. rewrite !elem_of_cons, elem_of_nil in Hin.
    repeat match goal with
           | Hr : ratio_column _ _ _ = Return _ |- _ =>
             apply ratio_column_inv in Hr as (? & ? & ? & _)
           | Hr : getitem _ _ ≫= _ = Return _ |- _ =>
             apply divided_column_inv in Hr as (? & ? & ? & _)
           end.
    repeat (destruct Hin as [->|Hin]; [by eexists|]). done.
  - intros Hcols. unfold score_frame.
    destruct (labyrinth_stage_total df)
      as (p1 & p2 & p3 & p4 & p5 & _ & _ & _ & _ & _ & ->).
    destruct (attention_stage_total df)
      as (v1 & v2 & v3 & v4 & v5 & _ & _ & _ & _ & _ & ->).
    cbn [mbind result_bind]; cbv zeta.
    repeat return_step Hcols. by eexists.
Qed.

(** X8.  When the scoring succeeds on a table whose twelve directly
    read columns have one cell per row, every derived column has one
    cell per row: the five labyrinth scores, the five attention
    indices, the ratios, the composites and the three levels. *)
Theorem score_frame_lengths (df : frame) (sc : scored) :
  score_frame df = Return sc →
  (∀ key col, key ∈ direct_keys → columns df !! key = Some col →
              length col = nrows df) →
  length (P sc) = 5%nat
  ∧ Forall (λ c, length c = nrows df) (P sc)
  ∧ length (Vnim sc) = 5%nat
  ∧ Forall (λ c, length c = nrows df) (Vnim sc)
  ∧ Forall (λ c : list float, length c = nrows df)
      [Analit_Sint sc; SredVnim sc; Kachestvo_vnimaniya sc;
       Svyazn sc; RechOform sc; SamostRass sc; Gotovn_UD sc;
       Log_obobshchenie sc; Pertseptsiya sc; Voobrazhenie sc;
       Identif_emotsiy sc; Planirovanie sc; Sotrudnichestvo sc;
       Refleksiya sc; Kognitivnoe_razvitie sc; EmSotsIntellekt sc]
  ∧ Forall (λ c : list (option level), length c = nrows df)
      [Kognitivnoe_razvitie_uroven sc; Voobrazhenie_itog_uroven sc;
       EmSotsIntellekt_uroven sc].
Proof.
  intros Hsc Hlen. unfold score_frame in Hsc.
  destruct (labyrinth_stage_total df)
    as (p1 & p2 & p3 & p4 & p5 & Hp1 & Hp2 & Hp3 & Hp4 & Hp5 & Hlab).
  destruct (attention_stage_total df)
    as (v1 & v2 & v3 & v4 & v5 & Hv1 & Hv2 & Hv3 & Hv4 & Hv5 & Hatt).
  rewrite Hlab, Hatt in Hsc. cbn [mbind result_bind] in Hsc.
  bind_inv Hsc. injection Hsc as <-.
  apply apply_rows_length in Hp1, Hp2, Hp3, Hp4, Hp5, Hv1, Hv2, Hv3, Hv4, Hv5.
  repeat match goal with
         | Hr : ratio_column _ ?key _ = Return _ |- _ =>
           let Hc := fresh "Hc" in
           let Hl := fresh "Hl" in
           apply ratio_column_inv in Hr as (? & Hc & _ & Hl);
           rewrite (Hlen key _ ltac:(in_direct_keys) Hc) in Hl
         | Hr : getitem _ ?key ≫= _ = Return _ |- _ =>
           let Hc := fresh "Hc" in
           let Hl := fresh "Hl" in
           apply divided_column_inv in Hr as (? & Hc & _ & Hl);
           rewrite (Hlen key _ ltac:(in_direct_keys) Hc) in Hl
         | Hr : level_column _ = Return _ |- _ =>
           apply level_column_length in Hr
         end.
  cbn [P Analit_Sint Vnim SredVnim Kachestvo_vnimaniya Svyazn RechOform
       SamostRass Gotovn_UD Log_obobshchenie Pertseptsiya Voobrazhenie
       Identif_emotsiy Planirovanie Sotrudnichestvo Refleksiya
       Kognitivnoe_razvitie EmSotsIntellekt Kognitivnoe_razvitie_uroven
       Voobrazhenie_itog_uroven EmSotsIntellekt_uroven fst snd] in *.
  unfold fseries_round2, fseries_div, fseries_add in *.
  repeat match goal with
         | Hl : context [length (map _ _)] |- _ => rewrite length_map in Hl
         | Hl : context [length (zip_with _ _ _)] |- _ =>
           rewrite length_zip_with in Hl
         | Hl : context [length (rows_of _ _)] |- _ =>
           rewrite rows_of_length in Hl
         end.
  clear Hlab Hatt Hlen.
  repeat match goal with
         | Hc : columns _ !! _ = Some _ |- _ => clear Hc
         end.
  repeat match goal with
         | |- _ ∧ _ => split
         | |- Forall _ (_ :: _) => apply Forall_cons
         | |- Forall _ [] => apply Forall_nil
         end;
    cbn [length];
    repeat (rewrite length_map || rewrite length_zip_with
            || rewrite rows_of_length);
    repeat match goal with
           | Hl : length ?x = _ |- context [length ?x] => rewrite Hl
           end;
    rewrite ?Nat.min_id;
    first [exact I | reflexivity].
Qed.
End ScoreFrameSuccess.

(** X8, witness: a one-row table with every column the scoring reads. *)
Lemma score_frame_lengths_witness :
  ∃ sc, @score_frame example_runtime (frame_with_v1 (PyInt 1)) = Return sc
        ∧ length (P sc) = 5%nat.
Proof.
  assert (∃ sc, @score_frame example_runtime (frame_with_v1 (PyInt 1))
                = Return sc) as [sc Hsc]
    by (vm_compute; eexists; reflexivity).
  exists sc. split; [exact Hsc|].
  apply (@score_frame_lengths example_runtime (frame_with_v1 (PyInt 1)) sc Hsc).
  intros key col Hin Hcol. unfold direct_keys in Hin.
  rewrite !elem_of_cons, elem_of_nil in Hin.
  assert (∀ k c, columns (frame_with_v1 (PyInt 1)) !! k = Some c →
                 columns (frame_with_v1 (PyInt 1)) !! k = Some [PyInt 1] →
                 length c = 1%nat) as Hone
    by (intros k c Hc Hc'; rewrite Hc in Hc'; injection Hc' as ->;
        reflexivity).
  repeat (destruct Hin as [->|Hin];
          [apply (Hone _ _ Hcol); vm_compute; reflexivity|]).
  destruct Hin.
Defined.

(** ** Renaming the columns *)








(** ** The tables do not depend on the order of the rows *)

Lemma value_counts_NoDup {A} `{EqDecision A} (col : list (option A)) :
  NoDup (value_counts col).
Proof.
  apply (NoDup_fmap_1 fst). unfold value_counts.
  replace (fst <$> _) with (remove_dups (omap id col));
    [apply NoDup_remove_dups|].
  induction (remove_dups (omap id col)) as [|v vs IH]; [done|].
  cbn [map fmap list_fmap fst]. f_equal. exact IH.
Qed.

Lemma count_Permutation {A} `{EqDecision A} (l : A)
  (col col' : list (option A)) :
  col ≡ₚ col' →
  length (filter (λ x, x = Some l) col)
  = length (filter (λ x, x = Some l) col').
Proof. intros Hperm. by rewrite Hperm. Qed.

Lemma value_counts_Permutation {A} `{EqDecision A} (col col' : list (option A)) :
  col ≡ₚ col' → value_counts col ≡ₚ value_counts col'.
Proof.
  intros Hperm.
  apply NoDup_Permutation; [apply value_counts_NoDup..|].
  intros [l n]. rewrite !value_counts_elem.
  rewrite (count_Permutation l col col' Hperm).
  by rewrite (elem_of_Permutation_proper l _ _
                (omap_Permutation id _ _ Hperm)).
Qed.

(** X10.  The table of levels of a metric does not depend on the order
    of the children: two columns of levels with the same cells in
    another order give the same table. *)
Theorem level_table_order_free (levels levels' : list (option level)) :
  levels ≡ₚ levels' → level_table levels = level_table levels'.
Proof.
  intros Hperm. unfold level_table, reindex. cbn [map fst snd].
  rewrite !value_counts_count.
  rewrite !(count_Permutation _ levels levels' Hperm).
  by rewrite (Permutation_length Hperm).
Qed.

(** X10, witness: three children in two orders. *)
Lemma level_table_order_free_witness :
  level_table [Some Below; None; Some Above]
  = level_table [None; Some Below; Some Above].
Proof.
  apply level_table_order_free. apply perm_swap.
Defined.

Lemma StronglySorted_map {A B} (R : relation B) (g : A → B) (l : list A) :
  StronglySorted (λ a b, R (g a) (g b)) l → StronglySorted R (map g l).
Proof.
  induction 1 as [|a l _ IH Hall]; simpl; constructor; [done|].
  by apply Forall_fmap.
Qed.

Lemma split_sep_hd_free (sep : N) (s : pystr) :
  sep ∉ hd [] (split_sep sep s).
Proof.
  induction s as [|c s IH]; [apply not_elem_of_nil|].
  cbn [split_sep]. destruct (N.eqb_spec c sep); [apply not_elem_of_nil|].
  destruct (split_sep sep s) as [|w ws]; cbn [hd] in *;
    rewrite not_elem_of_cons; (split; [congruence|]);
    [apply not_elem_of_nil|exact IH].
Qed.

Section AgeOrder.
Context `{PyRuntime}.

Lemma age_counts_unfold (ages : list (option pystr)) :
  age_counts ages
  = merge_sort age_le
      (map (λ r : pystr * nat, (r.1, r.2, share r.2 (length (omap id ages))))
           (value_counts ages)).
Proof. unfold age_counts. by rewrite value_counts_total. Qed.

(** X11.  Every row of the table of age groups counts at least one
    child, and the table does not depend on the order of the children
    but for the order of groups with the same age number: the same
    cells in another order give the same rows, with the same sequence
    of age numbers. *)
Theorem age_counts_order_free (ages ages' : list (option pystr)) :
  ages ≡ₚ ages' →
  (∀ r, r ∈ age_counts ages → (0 < r.1.2)%nat)
  ∧ age_counts ages ≡ₚ age_counts ages'
  ∧ map (λ r, extract_age r.1.1) (age_counts ages)
    = map (λ r, extract_age r.1.1) (age_counts ages').
Proof.
  intros Hperm.
  assert (age_counts ages ≡ₚ age_counts ages') as Htab.
  { rewrite !age_counts_unfold.
    etrans; [apply merge_sort_Permutation|].
    symmetry. etrans; [apply merge_sort_Permutation|]. symmetry.
    rewrite (Permutation_length (omap_Permutation id _ _ Hperm)).
    apply Permutation_map. by apply value_counts_Permutation. }
  split; [|split; [done|]].
  - intros r Hr. rewrite age_counts_unfold in Hr.
    apply (elem_of_Permutation_proper r _ _ (merge_sort_Permutation _ _))
      in Hr.
    apply list_elem_of_fmap in Hr as ([l n] & -> & Hin). cbn [fst snd].
    apply value_counts_elem in Hin as [Hl ->].
    apply list_elem_of_omap in Hl as (x & Hx & Heq). simpl in Heq. subst x.
    destruct (filter (λ x, x = Some l) ages) as [|y ys] eqn:Hf; [|simpl; lia].
    assert (Some l ∈ filter (λ x, x = Some l) ages) as Hin'
      by (by apply list_elem_of_filter).
    rewrite Hf in Hin'. by apply elem_of_nil in Hin'.
  - apply (StronglySorted_unique Z.le).
    + apply StronglySorted_map. unfold age_counts.
      apply (StronglySorted_merge_sort age_le); apply _.
    + apply StronglySorted_map. unfold age_counts.
      apply (StronglySorted_merge_sort age_le); apply _.
    + by apply Permutation_map.
Qed.

(** X12.  Only the text before the first hyphen of an age label
    counts: a label has the age number of its part before the first
    hyphen, and a label that begins with a hyphen has the number
    999. *)
Theorem extract_age_before_hyphen (a b : pystr) :
  45%N ∉ a →
  extract_age (a ++ 45%N :: b) = extract_age a
  ∧ extract_age (45%N :: b) = 999.
Proof.
  assert (∀ text, extract_age text
                  = extract_age (hd [] (split_sep 45%N text))) as Hhd.
  { intros text. unfold extract_age.
    assert (∀ s, index0 (split_sep 45%N s)
                 = Return (hd [] (split_sep 45%N s))) as Hidx.
    { intros s. destruct s as [|c s]; [done|]. cbn [split_sep].
      destruct (c =? 45)%N; [done|]. by destruct (split_sep 45%N s). }
    rewrite !Hidx. cbn [mbind result_bind].
    by rewrite (split_sep_hd_no_sep 45%N _ (split_sep_hd_free 45%N text)). }
  intros Ha. split.
  - rewrite (Hhd (a ++ 45%N :: b)). by rewrite split_sep_hd_sep.
  - reflexivity.
Qed.
End AgeOrder.

(** X11, witness: two children of one group and one of another. *)
Lemma age_counts_order_free_witness :
  map (λ r, @extract_age example_runtime r.1.1)
      (@age_counts example_runtime [Some (py "6-7 лет"); Some (py "5-6 лет")])
  = map (λ r, @extract_age example_runtime r.1.1)
      (@age_counts example_runtime [Some (py "5-6 лет"); Some (py "6-7 лет")]).
Proof.
  apply (@age_counts_order_free example_runtime). apply perm_swap.
Defined.

(** X12, witness: the label "5-6 лет" has the age number of "5". *)
Lemma extract_age_before_hyphen_witness :
  @extract_age example_runtime (py "5-6 лет")
  = @extract_age example_runtime (py "5").
Proof.
  apply (@extract_age_before_hyphen example_runtime (py "5") (py "6 лет")).
  apply (bool_decide_unpack _). vm_compute. exact I.
Defined.

(** ** The town of an organisation *)

Lemma lstrip_app_nonspace (x : pystr) (c : N) :
  isspace c = false → lstrip (x ++ [c]) = lstrip x ++ [c].
Proof.
  intros Hc. induction x as [|d x IH]; cbn [app lstrip].
  - by rewrite Hc.
  - destruct (isspace d); [exact IH|done].
Qed.

Lemma lstrip_cases (s : pystr) :
  lstrip s = [] ∨ ∃ c r, lstrip s = c :: r ∧ isspace c = false.
Proof.
  induction s as [|c s IH]; [by left|]. cbn [lstrip].
  destruct (isspace c) eqn:Hc; [exact IH|]. right. by exists c, s.
Qed.

Lemma lstrip_idemp (s : pystr) : lstrip (lstrip s) = lstrip s.
Proof.
  destruct (lstrip_cases s) as [->|(c & r & -> & Hc)]; [done|].
  cbn [lstrip]. by rewrite Hc.
Qed.

Lemma rstrip_cons_nonspace (c : N) (u : pystr) :
  isspace c = false → rstrip (c :: u) = c :: rstrip u.
Proof.
  intros Hc. unfold rstrip. cbn [rev].
  rewrite lstrip_app_nonspace by done. by rewrite rev_app_distr.
Qed.

Lemma rstrip_idemp (s : pystr) : rstrip (rstrip s) = rstrip s.
Proof. unfold rstrip. by rewrite rev_involutive, lstrip_idemp. Qed.

(** [strip] leaves a stripped string as it is. *)
Lemma strip_idemp (s : pystr) : strip (strip s) = strip s.
Proof.
  unfold strip.
  assert (lstrip (rstrip (lstrip s)) = rstrip (lstrip s)) as ->.
  { destruct (lstrip_cases s) as [->|(c & r & -> & Hc)]; [done|].
    rewrite rstrip_cons_nonspace by done. cbn [lstrip]. by rewrite Hc. }
  apply rstrip_idemp.
Qed.

Lemma elem_of_lstrip (x : N) (s : pystr) : x ∈ lstrip s → x ∈ s.
Proof.
  induction s as [|c s IH]; [done|]. cbn [lstrip].
  destruct (isspace c); [|done]. intros Hx. by apply list_elem_of_further, IH.
Qed.

Lemma elem_of_strip (x : N) (s : pystr) : x ∈ strip s → x ∈ s.
Proof.
  unfold strip, rstrip. intros Hx.
  apply list_elem_of_In, in_rev, list_elem_of_In in Hx.
  apply elem_of_lstrip, list_elem_of_In, in_rev, list_elem_of_In in Hx.
  by apply elem_of_lstrip.
Qed.

Lemma lazy_group_free (s g : pystr) :
  lazy_group s = Some g → (41%N ∉ g) ∧ (10%N ∉ g).
Proof.
  revert g. induction s as [|c s IH]; intros g; [done|]. cbn [lazy_group].
  destruct (N.eqb_spec c 41).
  { intros [= <-]. split; apply not_elem_of_nil. }
  destruct (N.eqb_spec c 10); [done|].
  destruct (lazy_group s) as [g'|]; [|done]. intros [= <-].
  destruct (IH g' eq_refl) as [H41 H10].
  rewrite !not_elem_of_cons. split; (split; [congruence|done]).
Qed.

Lemma search_parens_free (s g : pystr) :
  search_parens s = Some g → (41%N ∉ g) ∧ (10%N ∉ g).
Proof.
  induction s as [|c s IH]; [done|]. cbn [search_parens].
  destruct (c =? 40)%N; [|exact IH].
  destruct (lazy_group s) as [g'|] eqn:Hg; [|exact IH].
  intros [= <-]. by apply (lazy_group_free s).
Qed.

Lemma elem_of_split_sep_hd (sep x : N) (s : pystr) :
  x ∈ hd [] (split_sep sep s) → x ∈ s.
Proof.
  induction s as [|c s IH]; [done|]. cbn [split_sep].
  destruct (c =? sep)%N; [by intros ?%elem_of_nil|].
  destruct (split_sep sep s) as [|w ws]; cbn [hd] in *.
  - intros [->|[]%elem_of_nil]%elem_of_cons. apply list_elem_of_here.
  - intros [->|Hx]%elem_of_cons; [apply list_elem_of_here|].
    by apply list_elem_of_further, IH.
Qed.

(** X13.  The town that [extract_town] finds is in normal form: it has
    no white space at either end, and holds no semicolon, no closing
    parenthesis and no line feed.  The name part of its sort key is
    the town itself. *)
Theorem extract_town_normal (org_name : option pystr) (t : pystr) :
  extract_town org_name = Some t →
  strip t = t
  ∧ (59%N ∉ t) ∧ (41%N ∉ t) ∧ (10%N ∉ t)
  ∧ (sort_key_town (Some t)).2 = t.
Proof.
  unfold extract_town.
  destruct (search_parens (str_of_cell org_name)) as [g|] eqn:Hg; [|done].
  intros [= <-]. apply search_parens_free in Hg as [H41 H10].
  assert (strip (strip (hd [] (split_sep 59%N g)))
          = strip (hd [] (split_sep 59%N g))) as Hfix by apply strip_idemp.
  split; [done|].
  split.
  { intros Hx%elem_of_strip. by apply (split_sep_hd_free 59%N g). }
  split.
  { intros Hx%elem_of_strip%elem_of_split_sep_hd. by apply H41. }
  split.
  { intros Hx%elem_of_strip%elem_of_split_sep_hd. by apply H10. }
  by rewrite sort_key_town_name.
Qed.

(** X13, witness: a name with a district after the semicolon. *)
Lemma extract_town_normal_witness :
  strip (py "г.Тула") = py "г.Тула".
Proof.
  apply (extract_town_normal (Some (py "Сад 1 ( г.Тула ; центр)"))).
  vm_compute. reflexivity.
Defined.

Lemma extract_town_stripped (org_name : option pystr) (t : pystr) :
  extract_town org_name = Some t → strip t = t.
Proof.
  unfold extract_town.
  destruct (search_parens (str_of_cell org_name)) as [g|]; [|done].
  intros [= <-]. apply strip_idemp.
Qed.

(** ** The table of towns *)

Lemma towns_with_total_unfold (orgs : list (option pystr)) :
  let rows :=
    merge_sort town_le
      (map (λ t, (Some t, distinct_orgs t orgs))
           (remove_dups (omap id (map extract_town orgs)))) in
  towns_with_total orgs = rows ++ [(Some ITOGO, sum_list (map snd rows))].
Proof.
  cbv zeta. unfold towns_with_total. rewrite groupby_nunique_eq.
  set (G := map (λ t, (Some t, distinct_orgs t orgs))
                (remove_dups (omap id (map extract_town orgs)))).
  assert (Hall : Forall (λ r : option pystr * nat,
                           is_Some r.1 ∧ (0 < r.2)%nat) G).
  { apply Forall_forall. intros r Hr. unfold G in Hr.
    apply list_elem_of_fmap in Hr as (t & -> & Hin). cbn [fst snd].
    split; [by eexists|]. apply distinct_orgs_pos.
    apply elem_of_remove_dups, list_elem_of_omap in Hin as (o & Ho & Heq).
    simpl in Heq. by subst. }
  rewrite (filter_Forall_id (λ r, is_Some r.1) G)
    by (eapply Forall_impl; [exact Hall|]; by intros r [? _]).
  rewrite (filter_Forall_id (λ r, (0 < r.2)%nat) G)
    by (eapply Forall_impl; [exact Hall|]; by intros r [_ ?]).
  done.
Qed.

Lemma remove_dups_length_Permutation {A} `{EqDecision A} (l l' : list A) :
  l ≡ₚ l' → length (remove_dups l) = length (remove_dups l').
Proof.
  intros Hperm. apply Permutation_length.
  apply NoDup_Permutation; [apply NoDup_remove_dups..|].
  intros x. rewrite !elem_of_remove_dups.
  apply (elem_of_Permutation_proper x _ _ Hperm).
Qed.

Lemma distinct_orgs_Permutation (t : pystr) (orgs orgs' : list (option pystr)) :
  orgs ≡ₚ orgs' → distinct_orgs t orgs = distinct_orgs t orgs'.
Proof.
  intros Hperm. unfold distinct_orgs. apply remove_dups_length_Permutation.
  apply filter_Permutation. by apply omap_Permutation.
Qed.

Lemma key_leb_antisym (a b : Z * pystr) :
  key_leb a b = true → key_leb b a = true → a = b.
Proof.
  destruct a as [ra na], b as [rb nb]. unfold key_leb. cbn [fst snd].
  destruct (Z.ltb_spec ra rb), (Z.ltb_spec rb ra),
    (Z.eqb_spec ra rb), (Z.eqb_spec rb ra); cbn [orb andb];
    try lia; try done.
  intros Hba%negb_true_iff Hab%negb_true_iff. subst.
  by rewrite (str_ltb_total na nb Hab Hba).
Qed.

(** X14.  The table of towns does not depend on the order of the
    records: the same organisation cells in another order give the
    same rows in the same order, and the same total. *)
Theorem towns_with_total_order_free (orgs orgs' : list (option pystr)) :
  orgs ≡ₚ orgs' → towns_with_total orgs = towns_with_total orgs'.
Proof.
  intros Hperm. rewrite !towns_with_total_unfold. cbv zeta.
  set (G := map (λ t, (Some t, distinct_orgs t orgs))
                (remove_dups (omap id (map extract_town orgs)))).
  set (G' := map (λ t, (Some t, distinct_orgs t orgs'))
                 (remove_dups (omap id (map extract_town orgs')))).
  assert (merge_sort town_le G = merge_sort town_le G') as ->; [|done].
  assert (G ≡ₚ G') as HG.
  { unfold G, G'.
    rewrite (map_ext (λ t, (Some t, distinct_orgs t orgs))
                     (λ t, (Some t, distinct_orgs t orgs')))
      by (intros t; by rewrite (distinct_orgs_Permutation t orgs orgs')).
    apply Permutation_map.
    apply NoDup_Permutation; [apply NoDup_remove_dups..|].
    intros x. rewrite !elem_of_remove_dups.
    apply (elem_of_Permutation_proper x).
    apply omap_Permutation. by apply Permutation_map. }
  apply (StronglySorted_unique_strong town_le).
  - intros r1 r2 Hr1 Hr2 H12 H21.
    apply (elem_of_Permutation_proper r1 _ _ (merge_sort_Permutation _ _))
      in Hr1.
    apply (elem_of_Permutation_proper r2 _ _ (merge_sort_Permutation _ _))
      in Hr2.
    unfold G in Hr1. unfold G' in Hr2.
    apply list_elem_of_fmap in Hr1 as (t1 & -> & Hin1).
    apply list_elem_of_fmap in Hr2 as (t2 & -> & Hin2).
    unfold town_le in H12, H21. cbn [fst] in H12, H21.
    pose proof (key_leb_antisym _ _ H12 H21) as Hkey.
    apply (f_equal snd) in Hkey. rewrite !sort_key_town_name in Hkey.
    apply elem_of_remove_dups, list_elem_of_omap in Hin1 as (o1 & Ho1 & Heq1).
    apply elem_of_remove_dups, list_elem_of_omap in Hin2 as (o2 & Ho2 & Heq2).
    simpl in Heq1, Heq2. subst o1 o2.
    apply list_elem_of_fmap in Ho1 as (x1 & Hx1 & _).
    apply list_elem_of_fmap in Ho2 as (x2 & Hx2 & _).
    symmetry in Hx1, Hx2.
    apply extract_town_stripped in Hx1, Hx2.
    rewrite Hx1, Hx2 in Hkey. subst t2.
    by rewrite (distinct_orgs_Permutation t1 orgs orgs').
  - apply (StronglySorted_merge_sort town_le); apply _.
  - apply (StronglySorted_merge_sort town_le); apply _.
  - etrans; [apply merge_sort_Permutation|].
    symmetry. etrans; [apply merge_sort_Permutation|]. by symmetry.
Qed.

(** X14, witness: two organisations in two orders. *)
Lemma towns_with_total_order_free_witness :
  towns_with_total [Some (py "Сад 1 (г.Тула)"); Some (py "Сад 2 (с.Ивановка)")]
  = towns_with_total [Some (py "Сад 2 (с.Ивановка)"); Some (py "Сад 1 (г.Тула)")].
Proof.
  apply towns_with_total_order_free. apply perm_swap.
Defined.

Lemma filter_remove_dups_length {A} `{EqDecision A} (P : A → Prop)
  `{∀ x, Decision (P x)} (l : list A) :
  length (remove_dups (filter P l)) = length (filter P (remove_dups l)).
Proof.
  apply Permutation_length.
  apply NoDup_Permutation.
  - apply NoDup_remove_dups.
  - apply NoDup_filter, NoDup_remove_dups.
  - intros x. rewrite elem_of_remove_dups, !list_elem_of_filter.
    by rewrite elem_of_remove_dups.
Qed.

Lemma filter_omap_eq_length {A B} `{EqDecision B} (f : A → option B)
  (b : B) (l : list A) :
  length (filter (λ x, x = b) (omap f l))
  = length (filter (λ a, f a = Some b) l).
Proof.
  induction l as [|a l IH]; [done|].
  change (omap f (a :: l))
    with (match f a with Some y => y :: omap f l | None => omap f l end).
  rewrite (filter_cons (λ a, f a = Some b)).
  destruct (f a) as [b'|] eqn:Hfa.
  - rewrite filter_cons.
    destruct (decide (b' = b)) as [->|Hne].
    + rewrite decide_True by done. cbn [length]. by rewrite IH.
    + rewrite decide_False by congruence. exact IH.
  - rewrite decide_False by done. exact IH.
Qed.

Lemma omap_filter_is_Some_length {A B} (f : A → option B) (l : list A) :
  length (omap f l) = length (filter (λ a, is_Some (f a)) l).
Proof.
  induction l as [|a l IH]; [done|].
  change (omap f (a :: l))
    with (match f a with Some y => y :: omap f l | None => omap f l end).
  rewrite filter_cons.
  destruct (f a) as [b|] eqn:Hfa.
  - rewrite decide_True by (by eexists). cbn [length]. by rewrite IH.
  - rewrite decide_False by (by intros [? ?]). exact IH.
Qed.

(** X15.  The count of the total row is the number of distinct
    organisation names for which a town is found: every such name is
    counted once, under its town, whatever the number of its
    records. *)
Theorem towns_total_distinct_orgs (orgs : list (option pystr)) :
  last (towns_with_total orgs)
  = Some (Some ITOGO,
          length (remove_dups
                    (filter (λ o, is_Some (extract_town (Some o)))
                            (omap id orgs)))).
Proof.
  rewrite towns_with_total_unfold. cbv zeta. rewrite last_snoc.
  do 2 f_equal.
  rewrite (sum_list_Permutation _ _
             (Permutation_map snd (merge_sort_Permutation town_le _))).
  rewrite map_map. cbn [snd].
  set (D := remove_dups (omap id (map extract_town orgs))).
  set (L := remove_dups (omap id orgs)).
  set (f := λ o : pystr, extract_town (Some o)).
  rewrite (map_ext (λ t, distinct_orgs t orgs)
                   (λ t, length (filter (λ x, x = t) (omap f L)))).
  2:{ intros t. unfold distinct_orgs.
      rewrite filter_remove_dups_length. fold L.
      by rewrite (filter_omap_eq_length f t L). }
  rewrite sum_counts by apply NoDup_remove_dups.
  rewrite filter_remove_dups_length. fold L.
  transitivity (length (omap f L));
    [|exact (omap_filter_is_Some_length f L)].
  f_equal. apply filter_Forall_id, Forall_forall.
  intros t Ht. apply list_elem_of_omap in Ht as (o & Ho & Hfo).
  unfold D. apply elem_of_remove_dups, list_elem_of_omap.
  exists (Some t). split; [|done].
  apply list_elem_of_fmap. exists (Some o). split; [done|].
  unfold L in Ho. apply elem_of_remove_dups, list_elem_of_omap in Ho
    as (x & Hx & Heq). simpl in Heq. by subst.
Qed.

(** ** File names, read and written *)

Lemma span_digits_exact (d rest : pystr) :
  Forall (λ c, is_digit c = true) d →
  match rest with [] => True | c :: _ => is_digit c = false end →
  span_digits (d ++ rest) = (d, rest).
Proof.
  intros Hd Hrest. rewrite span_digits_prefix by done.
  destruct rest as [|c rest]; [by rewrite app_nil_r|].
  cbn [span_digits]. rewrite Hrest. by rewrite app_nil_r.
Qed.

Lemma match_filename_exact (a b rest : pystr) :
  a ≠ [] → b ≠ [] →
  Forall (λ c, is_digit c = true) a →
  Forall (λ c, is_digit c = true) b →
  match rest with [] => True | c :: _ => is_digit c = false end →
  match_filename (a ++ [45%N] ++ b ++ rest) = Some (a, b).
Proof.
  intros Ha Hb Hda Hdb Hrest. unfold match_filename.
  rewrite (span_digits_exact a ([45%N] ++ b ++ rest)) by done.
  destruct a as [|a0 a]; [done|]. cbn [app]. rewrite N.eqb_refl.
  rewrite (span_digits_exact b rest) by done.
  by destruct b.
Qed.

(** X16.  A name made of a group of digits, a hyphen, a group of
    digits and a rest that does not go on with a digit is accepted, and
    the two identifiers are exactly the two groups. *)
Theorem validate_filename_round_trip (a b rest : pystr) :
  a ≠ [] → b ≠ [] →
  Forall (λ c, is_digit c = true) a →
  Forall (λ c, is_digit c = true) b →
  match rest with [] => True | c :: _ => is_digit c = false end →
  validate_filename (a ++ [45%N] ++ b ++ rest) = Return (a, b).
Proof.
  intros Ha Hb Hda Hdb Hrest. unfold validate_filename.
  by rewrite match_filename_exact.
Qed.

(** X16, witness: the name "5-31-Razvitie.xlsx". *)
Lemma validate_filename_round_trip_witness :
  validate_filename (py "5" ++ [45%N] ++ py "31" ++ py "-Razvitie.xlsx")
  = Return (py "5", py "31").
Proof.
  apply validate_filename_round_trip.
  - vm_compute. discriminate.
  - vm_compute. discriminate.
  - apply (bool_decide_unpack _). vm_compute. exact I.
  - apply (bool_decide_unpack _). vm_compute. exact I.
  - vm_compute. reflexivity.
Defined.

(** ** The upload handler *)

Section ProcessFacts.
Context {workbook : Type}.
Variable read_excel : list N → result frame.
Variable build_workbook : frame → result workbook.

(** X18.  The handler answers 400 exactly when the request has no file
    or the file has an empty name.  A file whose name is not empty and
    does not begin with two groups of digits joined by a hyphen is
    answered with 500 (not 400), whatever it holds.  The answer is 200
    exactly when [process_excel] returns; the workbook is then sent
    under the returned name, which is also the value of the header
    [X-Filename].  No other status is answered. *)
Theorem process_status (files : option upload) :
  (status_code (process read_excel build_workbook files) = 400
   ↔ files = None ∨ ∃ file, files = Some file ∧ upload_filename file = [])
  ∧ (∀ file, files = Some file → upload_filename file ≠ [] →
       validate_filename (upload_filename file) = Raise FilenameFormatError →
       process read_excel build_workbook files
       = JsonError 500 (StrOf FilenameFormatError))
  ∧ (∀ wb name x,
       process read_excel build_workbook files = Attachment wb name x
       ↔ x = name
         ∧ ∃ file, files = Some file ∧ upload_filename file ≠ []
             ∧ process_excel read_excel build_workbook
                 (upload_content file) (upload_filename file)
               = Return (wb, name))
  ∧ status_code (process read_excel build_workbook files) ∈ [200; 400; 500].
Proof.
  unfold process, str_eqb.
  destruct files as [file|].
  2:{ split; [split; [by left|done]|]. split; [done|].
      split; [|rewrite !elem_of_cons; tauto].
      intros wb name x. split; [done|]. by intros (_ & file & ? & _). }
  destruct (decide (upload_filename file = [])) as [Hempty|Hname].
  { rewrite bool_decide_eq_true_2 by done.
    split; [split; [right; by exists file|done]|].
    split; [by intros file' [= <-] Hne|].
    split; [|rewrite !elem_of_cons; tauto].
    intros wb name x. split; [done|].
    by intros (_ & file' & [= <-] & Hne & _). }
  rewrite bool_decide_eq_false_2 by done.
  split; [|split; [|split]].
  - split.
    + destruct (process_excel _ _ _ _) as [[wb name]|e]; done.
    + intros [?|(file' & [= <-] & ?)]; done.
  - intros file' [= <-] _ Hv. unfold process_excel. by rewrite Hv.
  - intros wb name x. split.
    + destruct (process_excel _ _ _ _) as [[wb' name']|e] eqn:Hp; [|done].
      intros [= -> -> ->]. split; [done|]. by exists file.
    + intros (-> & file' & [= <-] & _ & ->). done.
  - destruct (process_excel _ _ _ _) as [[wb name]|e]; cbn [status_code];
      rewrite !elem_of_cons; tauto.
Qed.
End ProcessFacts.
